(** * Mycelium notes publishing workflow: section sync, format conversion
      and frontmatter merging

    A shallow embedding of [scripts/bidirectional_sync.py] and
    [scripts/yaml_transformer.py].

    Modelling conventions.
    - A Python [str] is a [string]; the model covers text whose characters
      are in the ASCII range.  Characters at or above 128 are carried along
      unchanged and count neither as whitespace nor as letters.
    - A Python [dict] is an insertion-ordered association list with unique
      keys ([dict_set] overwrites in place, or appends a new key at the end),
      because [reconstruct_content] depends on the iteration order.
    - An exception is a value [Raise e] of the [result] type.
    - [hashlib.md5], [difflib.SequenceMatcher.ratio], the iteration order of
      a [set] and [datetime.now()] belong to the Python runtime, not to this
      repository; they are Section variables. *)

From Stdlib Require Import List String Ascii Bool Arith Lia QArith Permutation.
Import ListNotations.

Set Implicit Arguments.

Close Scope Q_scope.
Local Open Scope string_scope.
Local Open Scope list_scope.
Local Open Scope nat_scope.

(** ** Exceptions *)

Inductive exn : Type := KeyError | AttributeError | ValueError | TypeError.

Inductive result (A : Type) : Type :=
| Ok (a : A)
| Raise (e : exn).

Arguments Ok {A} a.
Arguments Raise {A} e.

Definition bind {A B : Type} (m : result A) (k : A -> result B) : result B :=
  match m with
  | Ok a => k a
  | Raise e => Raise e
  end.

Notation "x <- m ;; k" := (bind m (fun x => k))
  (at level 61, m at next level, right associativity).

(** ** Python string primitives *)

Module Py.

(** [str.isspace] on one ASCII character: TAB, LF, VT, FF, CR, the four
    separators FS GS RS US, and the space.  The regular-expression class
    [\s] agrees with it on ASCII text. *)
Definition is_space (c : ascii) : bool :=
  let n := nat_of_ascii c in
  ((9 <=? n) && (n <=? 13)) || ((28 <=? n) && (n <=? 32)).

Definition is_upper (c : ascii) : bool :=
  let n := nat_of_ascii c in (65 <=? n) && (n <=? 90).

Definition is_lower (c : ascii) : bool :=
  let n := nat_of_ascii c in (97 <=? n) && (n <=? 122).

Definition to_lower (c : ascii) : ascii :=
  if is_upper c then ascii_of_nat (nat_of_ascii c + 32) else c.

Definition to_upper (c : ascii) : ascii :=
  if is_lower c then ascii_of_nat (nat_of_ascii c - 32) else c.

Definition newline : ascii := "010"%char.

Fixpoint smap (f : ascii -> ascii) (s : string) : string :=
  match s with
  | EmptyString => EmptyString
  | String c s' => String (f c) (smap f s')
  end.

(** [s.lower()] *)
Definition lower (s : string) : string := smap to_lower s.

(** [s.replace(a, b)] for one-character [a] and [b]. *)
Definition replace_char (a b : ascii) (s : string) : string :=
  smap (fun c => if Ascii.eqb c a then b else c) s.

(** [s.capitalize()] *)
Definition capitalize (s : string) : string :=
  match s with
  | EmptyString => EmptyString
  | String c s' => String (to_upper c) (lower s')
  end.

(** [s.title()]: a letter that follows a letter is lowered, any other
    letter is raised. *)
Fixpoint title_from (prev_cased : bool) (s : string) : string :=
  match s with
  | EmptyString => EmptyString
  | String c s' =>
      if is_upper c || is_lower c
      then String (if prev_cased then to_lower c else to_upper c)
                  (title_from true s')
      else String c (title_from false s')
  end.

Definition title (s : string) : string := title_from false s.

(** [s.lstrip()], [s.rstrip()], [s.strip()] *)
Fixpoint lstrip (s : string) : string :=
  match s with
  | EmptyString => EmptyString
  | String c s' => if is_space c then lstrip s' else s
  end.

Fixpoint rstrip (s : string) : string :=
  match s with
  | EmptyString => EmptyString
  | String c s' =>
      match rstrip s' with
      | EmptyString => if is_space c then EmptyString else String c EmptyString
      | r => String c r
      end
  end.

Definition strip (s : string) : string := rstrip (lstrip s).

(** [s.startswith(p)] *)
Fixpoint startswith (p s : string) : bool :=
  match p, s with
  | EmptyString, _ => true
  | String a p', String b s' => Ascii.eqb a b && startswith p' s'
  | String _ _, EmptyString => false
  end.

(** [s.split(sep)] for a one-character separator: never the empty list. *)
Fixpoint split (sep : ascii) (s : string) : list string :=
  match s with
  | EmptyString => [EmptyString]
  | String c s' =>
      if Ascii.eqb c sep then EmptyString :: split sep s'
      else match split sep s' with
           | [] => [String c EmptyString]
           | w :: ws => String c w :: ws
           end
  end.

(** [sep.join(parts)] *)
Fixpoint join (sep : string) (parts : list string) : string :=
  match parts with
  | [] => EmptyString
  | [p] => p
  | p :: ps => p ++ sep ++ join sep ps
  end.

Definition nonempty (s : string) : bool :=
  match s with EmptyString => false | _ => true end.

(** [c in s] for a character [c]. *)
Fixpoint contains (c : ascii) (s : string) : bool :=
  match s with
  | EmptyString => false
  | String d s' => Ascii.eqb d c || contains c s'
  end.

Definition lines (s : string) : list string := split newline s.

Definition unlines (ls : list string) : string := join (String newline "") ls.

End Py.

(** ** The regular expressions the scripts use

    Each pattern is anchored at the start of a line that holds no newline,
    so matching is a plain prefix scan. *)

Module Re.

Definition hash_char : ascii := "#"%char.
Definition dash_char : ascii := "-"%char.
Definition quote_char : ascii := ">"%char.

(** [re.match(r'^##\s+', line)] *)
Definition match_h2 (line : string) : bool :=
  match line with
  | String a (String b (String c _)) =>
      Ascii.eqb a hash_char && Ascii.eqb b hash_char && Py.is_space c
  | _ => false
  end.

(** [re.sub(r'^##\s+', '', line)]: the greedy [\s+] takes the whole
    whitespace run. *)
Definition sub_h2 (line : string) : string :=
  if match_h2 line
  then match line with
       | String _ (String _ rest) => Py.lstrip rest
       | _ => line
       end
  else line.

Fixpoint skip_hashes (s : string) : string :=
  match s with
  | String c s' => if Ascii.eqb c hash_char then skip_hashes s' else s
  | EmptyString => EmptyString
  end.

(** [re.match(r'^#+\s+', line)] *)
Definition match_heading (line : string) : bool :=
  match line with
  | String c rest =>
      Ascii.eqb c hash_char &&
      match skip_hashes rest with
      | String d _ => Py.is_space d
      | EmptyString => false
      end
  | EmptyString => false
  end.

(** [re.sub(r'^[\s]*-\s*', '', line)]: without a dash after the leading
    whitespace there is no match and the line is returned as it is. *)
Definition sub_bullet (line : string) : string :=
  match Py.lstrip line with
  | String c rest => if Ascii.eqb c dash_char then Py.lstrip rest else line
  | EmptyString => line
  end.

(** [re.sub(r'^>\s*', '', line)] *)
Definition sub_quote (line : string) : string :=
  match line with
  | String c rest => if Ascii.eqb c quote_char then Py.lstrip rest else line
  | EmptyString => line
  end.

(** [re.split(r'\n\s*\n', content)].  A match starts at a newline and runs,
    greedily, to the last newline of the whitespace run that follows it.
    The scanner keeps the piece being built and, after a newline, the
    whitespace seen since ([ws], the newline included) together with the
    whitespace that followed the last further newline, if there was one. *)
Inductive split_mode : Type :=
| Plain
| AfterNewline (ws : string) (tail : option string).

Fixpoint split_blank_from (cur : string) (m : split_mode) (s : string)
  : list string :=
  match s with
  | EmptyString =>
      match m with
      | Plain => [cur]
      | AfterNewline ws None => [(cur ++ ws)%string]
      | AfterNewline _ (Some t) => [cur; t]
      end
  | String c s' =>
      match m with
      | Plain =>
          if Ascii.eqb c Py.newline
          then split_blank_from cur (AfterNewline (String c "") None) s'
          else split_blank_from (cur ++ String c "")%string Plain s'
      | AfterNewline ws tail =>
          if Ascii.eqb c Py.newline
          then split_blank_from cur
                 (AfterNewline (ws ++ String c "")%string (Some "")) s'
          else if Py.is_space c
          then split_blank_from cur
                 (AfterNewline (ws ++ String c "")%string
                    (option_map (fun t => (t ++ String c "")%string) tail)) s'
          else match tail with
               | None => split_blank_from (cur ++ ws ++ String c "")%string Plain s'
               | Some t => cur :: split_blank_from (t ++ String c "")%string Plain s'
               end
      end
  end.

Definition split_blank (content : string) : list string :=
  split_blank_from "" Plain content.

End Re.

(** ** Insertion-ordered dictionaries with string keys *)

Section Dict.

Variable V : Type.

Definition dict : Type := list (string * V).

Fixpoint dict_get (k : string) (d : dict) : option V :=
  match d with
  | [] => None
  | (k', v) :: d' => if String.eqb k k' then Some v else dict_get k d'
  end.

(** [k in d] *)
Definition dict_mem (k : string) (d : dict) : bool :=
  match dict_get k d with Some _ => true | None => false end.

(** [d[k] = v]: an existing key keeps its place, a new key goes last. *)
Fixpoint dict_set (k : string) (v : V) (d : dict) : dict :=
  match d with
  | [] => [(k, v)]
  | (k', v') :: d' =>
      if String.eqb k k' then (k', v) :: d' else (k', v') :: dict_set k v d'
  end.

Definition dict_keys (d : dict) : list string := map fst d.

Definition dict_values (d : dict) : list V := map snd d.

(** [d[k]], which raises [KeyError] on a missing key. *)
Definition dict_getitem (k : string) (d : dict) : result V :=
  match dict_get k d with
  | Some v => Ok v
  | None => Raise KeyError
  end.

(** [d.get(k, default)] *)
Definition dict_get_default (k : string) (d : dict) (default : V) : V :=
  match dict_get k d with
  | Some v => v
  | None => default
  end.

End Dict.

Arguments dict_get {V} k d.
Arguments dict_mem {V} k d.
Arguments dict_set {V} k v d.
Arguments dict_keys {V} d.
Arguments dict_values {V} d.
Arguments dict_getitem {V} k d.
Arguments dict_get_default {V} k d default.

(** ** Section extraction and reconstruction ([bidirectional_sync.py]) *)

Record extract_state : Type := mk_extract_state {
  sections : dict string;
  current_section : string;
  section_content : list string
}.

(** The text stored for a section: ['\n'.join(section_content).strip()]. *)
Definition section_text (content : list string) : string :=
  Py.strip (Py.unlines content).

(** The name a level-2 heading opens:
    [re.sub(r'^##\s+', '', line).lower().replace(' ', '_')]. *)
Definition slug (line : string) : string :=
  Py.replace_char " "%char "_"%char (Py.lower (Re.sub_h2 line)).

(** [if section_content: sections[current_section] = ...] *)
Definition flush_section (st : extract_state) : dict string :=
  match section_content st with
  | [] => sections st
  | _ :: _ =>
      dict_set (current_section st) (section_text (section_content st))
        (sections st)
  end.

(** One iteration of the loop over the lines. *)
Definition extract_step (st : extract_state) (line : string) : extract_state :=
  if Re.match_h2 line
  then mk_extract_state (flush_section st) (slug line) []
  else mk_extract_state (sections st) (current_section st)
         (section_content st ++ [line]).

Definition extract_init : extract_state := mk_extract_state [] "content" [].

Definition extract_sections (content : string) : dict string :=
  flush_section (fold_left extract_step (Py.lines content) extract_init).

(** [" ".join(word.capitalize() for word in section_name.split('_'))] *)
Definition heading_name (section_name : string) : string :=
  Py.join " " (map Py.capitalize (Py.split "_"%char section_name)).

Definition render_heading (section_name section_content : string) : string :=
  ("## " ++ heading_name section_name
         ++ String Py.newline (String Py.newline section_content))%string.

Definition blank_line : string := String Py.newline (String Py.newline "").

Definition reconstruct_content (sections : dict string) : string :=
  let main :=
    match dict_get "content" sections with
    | Some c => [c]
    | None => []
    end in
  let rest :=
    map (fun kv => render_heading (fst kv) (snd kv))
      (filter (fun kv => negb (String.eqb (fst kv) "content")
                         && Py.nonempty (Py.strip (snd kv)))
         sections) in
  Py.join blank_line (main ++ rest).

(** ** Format conversion ([bidirectional_sync.py]) *)

Definition fence : string := "```".

(** [not line.strip()] *)
Definition is_blank (line : string) : bool := negb (Py.nonempty (Py.strip line)).

(** [line.strip().startswith('```')] *)
Definition is_fence (line : string) : bool := Py.startswith fence (Py.strip line).

Record b2p_state : Type := mk_b2p_state {
  paragraphs : list string;
  current_paragraph : string;
  in_code_block : bool
}.

(** [if current_paragraph: paragraphs.append(current_paragraph)] *)
Definition flush_paragraph (st : b2p_state) : list string :=
  if Py.nonempty (current_paragraph st)
  then paragraphs st ++ [current_paragraph st]
  else paragraphs st.

(** One iteration of the loop of [convert_bullet_to_paragraph]; the tests
    come in the order of the source. *)
Definition b2p_step (st : b2p_state) (line : string) : b2p_state :=
  if is_blank line then
    mk_b2p_state (flush_paragraph st) "" (in_code_block st)
  else if is_fence line then
    mk_b2p_state (paragraphs st ++ [line]) (current_paragraph st)
      (negb (in_code_block st))
  else if in_code_block st then
    mk_b2p_state (paragraphs st ++ [line]) (current_paragraph st) true
  else if Py.startswith "#" (Py.strip line) then
    mk_b2p_state (flush_paragraph st ++ [line]) "" false
  else
    let clean_line := Re.sub_bullet line in
    if Py.startswith "  " line || Py.startswith (String "009"%char "") line
    then
      if Py.nonempty (current_paragraph st)
      then mk_b2p_state (paragraphs st)
             (current_paragraph st ++ " " ++ clean_line)%string false
      else mk_b2p_state (paragraphs st) clean_line false
    else mk_b2p_state (flush_paragraph st) clean_line false.

Definition b2p_init : b2p_state := mk_b2p_state [] "" false.

(** The list [paragraphs] when the loop and the last flush are done. *)
Definition b2p_paragraphs (content : string) : list string :=
  flush_paragraph (fold_left b2p_step (Py.lines content) b2p_init).

Definition convert_bullet_to_paragraph (content platform : string) : string :=
  if String.eqb platform "obsidian" || String.eqb platform "quarto"
  then Py.join blank_line (b2p_paragraphs content)
  else content.

(** The lines one paragraph contributes in [convert_paragraph_to_bullet]. *)
Definition p2b_paragraph (para : string) : list string :=
  match Py.lines (Py.strip para) with
  | [] => []
  | first :: rest =>
      if Re.match_heading first
      then first ::
           match rest with
           | [] => ["- "]
           | _ :: _ => map (fun line => ("- " ++ line)%string) rest
           end
      else ("- " ++ first)%string :: map (fun line => ("  " ++ line)%string) rest
  end.

Definition convert_paragraph_to_bullet (content : string) : string :=
  Py.unlines (flat_map p2b_paragraph (Re.split_blank content)).

(** The body of [convert_section_format] below the schema lookups: the two
    format names are compared as strings. *)
Definition convert_format (section_content source_format_type
                           target_format_type : string) : string :=
  if String.eqb source_format_type target_format_type then section_content
  else if String.eqb source_format_type "bullets"
          && String.eqb target_format_type "paragraphs"
  then convert_bullet_to_paragraph section_content "obsidian"
  else if String.eqb source_format_type "paragraphs"
          && String.eqb target_format_type "bullets"
  then convert_paragraph_to_bullet section_content
  else if String.eqb source_format_type "bullets"
          && String.eqb target_format_type "blockquotes"
  then Py.unlines (map (fun line => ("> " ++ Re.sub_bullet line)%string)
                     (Py.lines section_content))
  else if String.eqb source_format_type "blockquotes"
          && String.eqb target_format_type "bullets"
  then Py.unlines (map (fun line => ("- " ++ Re.sub_quote line)%string)
                     (Py.lines section_content))
  else section_content.

(** ** The schema *)

(** One entry of a note type's [sections] table.  A key the JSON object
    does not carry is [None]; [formats] holds the ["<platform>_format"]
    keys. *)
Record section_schema : Type := mk_section_schema {
  sync : option bool;
  obsidian_only : option bool;
  logseq_only : option bool;
  quarto_only : option bool;
  formats : dict string
}.

(** [{"sync": True}] and [{}] *)
Definition default_section_schema : section_schema :=
  mk_section_schema (Some true) None None None [].

Definition empty_section_schema : section_schema :=
  mk_section_schema None None None None [].

Record type_schema : Type := mk_type_schema {
  type_sections : option (dict section_schema)
}.

Record schema : Type := mk_schema {
  note_types : option (dict type_schema)
}.

(** The schema [load_schema] falls back to. *)
Definition builtin_schema : schema :=
  mk_schema (Some [("note", mk_type_schema (Some
    [("overview", default_section_schema);
     ("notes", default_section_schema);
     ("references", default_section_schema)]))]).

(** [opt.get(key, default)] on an optional field. *)
Definition field {A : Type} (o : option A) (default : A) : A :=
  match o with Some a => a | None => default end.

Inductive SyncDirection : Type :=
| none
| source_to_target
| target_to_source
| source_only
| target_only
| ignore.

(** The string the source stores for a direction. *)
Definition direction_str (d : SyncDirection) : string :=
  match d with
  | none => "none"
  | source_to_target => "source_to_target"
  | target_to_source => "target_to_source"
  | source_only => "source_only"
  | target_only => "target_only"
  | ignore => "ignore"
  end.

Definition direction_eqb (a b : SyncDirection) : bool :=
  String.eqb (direction_str a) (direction_str b).

(** ** Direction resolution and section merging *)

Section Sync.

(** [hashlib.md5(text.encode('utf-8')).hexdigest()] *)
Variable md5 : string -> string.

(** [difflib.SequenceMatcher(None, a, b).ratio()], read as the exact
    quotient [2 * matches / (len a + len b)]; the float comparison with
    [0.9] agrees with the exact one for any text that fits in memory. *)
Variable ratio : string -> string -> Q.

(** The hash that orders the elements of a Python [set]. *)
Variable str_hash : string -> nat.

(** The process-wide [SCHEMA]. *)
Variable SCHEMA : schema.

Fixpoint insert_by_hash (x : string) (l : list string) : list string :=
  match l with
  | [] => [x]
  | y :: l' =>
      if str_hash x <=? str_hash y then x :: l else y :: insert_by_hash x l'
  end.

(** Iterating over [set(l)]: every element once, in hash order. *)
Definition set_iter (l : list string) : list string :=
  fold_right insert_by_hash [] (nodup string_dec l).

(** [SCHEMA["note_types"].get(note_type, SCHEMA["note_types"]["note"])]:
    the default argument is evaluated before the call, so a schema without
    the type ["note"] raises. *)
Definition type_schema_for (note_type : string) : result type_schema :=
  match note_types SCHEMA with
  | None => Raise KeyError
  | Some types =>
      fallback <- dict_getitem "note" types;;
      Ok (dict_get_default note_type types fallback)
  end.

(** [similarity > 0.9] *)
Definition very_similar (a b : string) : bool :=
  negb (Qle_bool (ratio a b) (9 # 10)).

(** The body of the loop of [determine_sync_direction] for one name. *)
Definition section_direction (sections_schema : dict section_schema)
    (source_sections target_sections : dict string) (section_name : string)
  : SyncDirection :=
  let section_schema :=
    dict_get_default section_name sections_schema default_section_schema in
  if negb (field (sync section_schema) true) then
    if field (obsidian_only section_schema) false then target_only
    else if field (logseq_only section_schema) false then source_only
    else if field (quarto_only section_schema) false then ignore
    else ignore
  else
    match dict_get section_name source_sections,
          dict_get section_name target_sections with
    | Some s, Some t =>
        if String.eqb (md5 s) (md5 t) then none
        else if very_similar s t then none
        else source_to_target
    | Some _, None => source_to_target
    | None, _ => target_to_source
    end.

Definition determine_sync_direction (source_sections target_sections : dict string)
    (note_type : string) : result (dict SyncDirection) :=
  ts <- type_schema_for note_type;;
  let sections_schema := field (type_sections ts) [] in
  Ok (fold_left
        (fun sync_directions section_name =>
           dict_set section_name
             (section_direction sections_schema source_sections
                target_sections section_name)
             sync_directions)
        (set_iter (dict_keys source_sections ++ dict_keys target_sections))
        []).

(** [convert_section_format]: [source_format] and [target_format] are
    platform names; the styles come from the schema, with the defaults
    ["bullets"] and ["paragraphs"]. *)
Definition convert_section_format (section_content note_type section_name
    source_format target_format : string) : result string :=
  ts <- type_schema_for note_type;;
  let section_schema :=
    dict_get_default section_name (field (type_sections ts) [])
      empty_section_schema in
  let source_format_type :=
    dict_get_default (source_format ++ "_format")%string
      (formats section_schema) "bullets" in
  let target_format_type :=
    dict_get_default (target_format ++ "_format")%string
      (formats section_schema) "paragraphs" in
  Ok (convert_format section_content source_format_type target_format_type).

(** One iteration of the loop of [merge_sections]. *)
Definition merge_step (source_sections target_sections : dict string)
    (note_type source_platform target_platform : string)
    (acc : result (dict string)) (item : string * SyncDirection)
  : result (dict string) :=
  merged_sections <- acc;;
  let section_name := fst item in
  match snd item with
  | none | target_to_source =>
      Ok (dict_set section_name
            (dict_get_default section_name target_sections "")
            merged_sections)
  | source_to_target =>
      converted <- convert_section_format
                     (dict_get_default section_name source_sections "")
                     note_type section_name source_platform target_platform;;
      Ok (dict_set section_name converted merged_sections)
  | target_only =>
      match dict_get section_name target_sections with
      | Some text => Ok (dict_set section_name text merged_sections)
      | None => Ok merged_sections
      end
  | source_only | ignore => Ok merged_sections
  end.

Definition merge_sections (source_sections target_sections : dict string)
    (note_type : string) (sync_directions : dict SyncDirection)
    (source_platform target_platform : string) : result (dict string) :=
  fold_left
    (merge_step source_sections target_sections note_type
       source_platform target_platform)
    sync_directions (Ok []).

(** The guard of the back-sync in [sync_file]:
    [sync_directions.get("bidirectional", False)] is tested for truth, then
    [os.path.exists(target_file) and any(d == "target_to_source" ...)]. *)
Definition bidirectional_flag (sync_directions : dict SyncDirection) : bool :=
  match dict_get "bidirectional" sync_directions with
  | Some d => Py.nonempty (direction_str d)
  | None => false
  end.

Definition back_sync_triggered (sync_directions : dict SyncDirection)
    (target_exists : bool) : bool :=
  bidirectional_flag sync_directions
  && (target_exists
      && existsb (fun d => direction_eqb d target_to_source)
           (dict_values sync_directions)).

End Sync.

(** ** Metadata values *)

(** The values a YAML mapping or a Logseq property block can hold. *)
#[warnings="-register-all"]
Inductive value : Type :=
| VNone
| VBool (b : bool)
| VInt (n : Z)
| VStr (s : string)
| VList (l : list value).

(** Python truth of a value. *)
Definition truthy (v : value) : bool :=
  match v with
  | VNone => false
  | VBool b => b
  | VInt n => negb (Z.eqb n 0)
  | VStr s => Py.nonempty s
  | VList l => match l with [] => false | _ :: _ => true end
  end.

Definition metadata : Type := dict value.

(** [CONFIG[platform]["required_yaml"]] *)
Definition required_yaml (platform : string) : result (list string) :=
  if String.eqb platform "logseq" then Ok ["title"; "type"]
  else if String.eqb platform "obsidian" then Ok ["title"; "tags"; "created"]
  else if String.eqb platform "quarto"
  then Ok ["title"; "format"; "date"; "categories"]
  else Raise KeyError.

(** [key in some_list] for a list of strings. *)
Definition mem_str (k : string) (l : list string) : bool :=
  existsb (String.eqb k) l.

(** *** [pathlib.Path(p).stem] on POSIX paths

    The name is the last component that is neither empty nor a single dot;
    the stem drops the last suffix when the dot is neither the first nor the
    last character of the name. *)
Module Path.

Definition is_component (c : string) : bool :=
  Py.nonempty c && negb (String.eqb c ".").

Definition name (p : string) : string :=
  last (filter is_component (Py.split "/"%char p)) "".

Fixpoint rfind_dot (s : string) : option nat :=
  match s with
  | EmptyString => None
  | String c s' =>
      match rfind_dot s' with
      | Some i => Some (S i)
      | None => if Ascii.eqb c "."%char then Some 0 else None
      end
  end.

Definition stem (p : string) : string :=
  let n := name p in
  match rfind_dot n with
  | Some i =>
      if (0 <? i) && (i <? String.length n - 1) then substring 0 i n else n
  | None => n
  end.

End Path.

(** ** Frontmatter merging ([bidirectional_sync.py]) *)

Section Frontmatter.

(** [datetime.now().strftime("%Y-%m-%d")] *)
Variable today : string.

(** [source_meta.get("type", "note").lower()]: a [type] that is not a
    string has no [lower]. *)
Definition detected_type (source_meta : metadata) : result string :=
  match dict_get "type" source_meta with
  | None => Ok (Py.lower "note")
  | Some (VStr s) => Ok (Py.lower s)
  | Some _ => Raise AttributeError
  end.

(** The first loop: a source key is skipped when the platform requires it
    and the target already has it. *)
Definition copy_source_key (required : list string) (target_meta : metadata)
    (merged : metadata) (item : string * value) : metadata :=
  if mem_str (fst item) required && dict_mem (fst item) target_meta
  then merged
  else dict_set (fst item) (snd item) merged.

(** [file_path and Path(file_path).stem], as the stem when both are true. *)
Definition usable_stem (file_path : option string) : option string :=
  match file_path with
  | None => None
  | Some p =>
      if Py.nonempty p && Py.nonempty (Path.stem p)
      then Some (Path.stem p) else None
  end.

(** [stem.replace("-", " ").title()] *)
Definition title_of_stem (stem : string) : string :=
  Py.title (Py.replace_char "-"%char " "%char stem).

(** The value the [if]/[elif] chain gives a required key that is missing. *)
Definition default_value (source_meta : metadata) (note_type : string)
    (file_path : option string) (key : string) : value :=
  match (if String.eqb key "title" then usable_stem file_path else None) with
  | Some stem => VStr (title_of_stem stem)
  | None =>
      if String.eqb key "date" || String.eqb key "created" then VStr today
      else if String.eqb key "format" then VStr "html"
      else if String.eqb key "type" then VStr note_type
      else if String.eqb key "tags" || String.eqb key "categories" then
        match (if String.eqb key "tags"
               then dict_get "categories" source_meta else None) with
        | Some v => v
        | None =>
            match (if String.eqb key "categories"
                   then dict_get "tags" source_meta else None) with
            | Some v => v
            | None => VList []
            end
        end
      else VStr ""
  end.

(** The second loop: a required key is added when it is missing. *)
Definition ensure_required (source_meta : metadata) (note_type : string)
    (file_path : option string) (merged : metadata) (key : string) : metadata :=
  if dict_mem key merged then merged
  else dict_set key (default_value source_meta note_type file_path key) merged.

(** The closing special case for Quarto. *)
Definition quarto_categories (source_meta : metadata) (platform : string)
    (merged : metadata) : metadata :=
  match dict_get "tags" source_meta with
  | Some tags =>
      if String.eqb platform "quarto" && negb (dict_mem "categories" merged)
      then dict_set "categories" tags merged
      else merged
  | None => merged
  end.

Definition merge_frontmatter (source_meta target_meta : metadata)
    (platform : string) (file_path : option string) : result metadata :=
  note_type <- detected_type source_meta;;
  required <- required_yaml platform;;
  let merged := fold_left (copy_source_key required target_meta)
                  source_meta target_meta in
  let merged := fold_left (ensure_required source_meta note_type file_path)
                  required merged in
  Ok (quarto_categories source_meta platform merged).

End Frontmatter.

(** ** Frontmatter transformation ([yaml_transformer.py]) *)

(** A transformation is a lambda of one parameter ([lambda x: ...]) or of
    two ([lambda x, meta: ...]).  Calling it with the wrong number of
    arguments raises [TypeError] before its body runs. *)
Inductive transform : Type :=
| Fn1 (f : value -> value)
| Fn2 (f : value -> metadata -> value).

Definition co_argcount (t : transform) : nat :=
  match t with Fn1 _ => 1 | Fn2 _ => 2 end.

Definition call1 (t : transform) (x : value) : result value :=
  match t with
  | Fn1 f => Ok (f x)
  | Fn2 _ => Raise TypeError
  end.

Definition call2 (t : transform) (x : value) (meta : metadata) : result value :=
  match t with
  | Fn1 _ => Raise TypeError
  | Fn2 f => Ok (f x meta)
  end.

Section Transformer.

Variable today : string.

Definition keep : transform := Fn1 (fun x => x).
Definition remove : transform := Fn1 (fun _ => VNone).
Definition const (v : value) : transform := Fn1 (fun _ => v).

(** [lambda x: x.split(',') if isinstance(x, str) else x] *)
Definition split_tags : transform :=
  Fn1 (fun x =>
         match x with
         | VStr s => VList (map VStr (Py.split ","%char s))
         | _ => x
         end).

(** [lambda x: x if x else datetime.now().strftime('%Y-%m-%d')] *)
Definition created_or_today : transform :=
  Fn1 (fun x => if truthy x then x else VStr today).

(** [lambda x, meta: meta.get(key, default)] *)
Definition from_meta (key : string) (default : value) : transform :=
  Fn2 (fun _ meta => dict_get_default key meta default).

Definition TRANSFORMATIONS : dict (dict transform) :=
  [ ("logseq_to_obsidian",
      [("title", keep); ("type", remove); ("tags", split_tags);
       ("created", created_or_today)]);
    ("logseq_to_quarto",
      [("title", keep); ("type", remove); ("format", const (VStr "html"));
       ("date", const (VStr today)); ("categories", const (VList []))]);
    ("obsidian_to_logseq",
      [("title", keep); ("tags", remove); ("created", remove);
       ("type", const (VStr "note"))]);
    ("obsidian_to_quarto",
      [("title", keep); ("tags", remove); ("created", remove);
       ("format", const (VStr "html"));
       ("date", from_meta "created" (VStr today));
       ("categories", from_meta "tags" (VList []))]);
    ("quarto_to_logseq",
      [("title", keep); ("format", remove); ("date", remove);
       ("categories", remove); ("type", const (VStr "note"))]);
    ("quarto_to_obsidian",
      [("title", keep); ("format", remove); ("date", remove);
       ("categories", remove);
       ("tags", from_meta "categories" (VList []));
       ("created", from_meta "date" (VStr today))]) ].

(** [f"{source_platform}_to_{target_platform}"] *)
Definition transform_key (source_platform target_platform : string) : string :=
  (source_platform ++ "_to_" ++ target_platform)%string.

(** [try: f(value, frontmatter) except TypeError: f(value)] *)
Definition call_with_meta (t : transform) (x : value) (meta : metadata)
  : result value :=
  match call2 t x meta with
  | Raise TypeError => call1 t x
  | r => r
  end.

(** [if result is not None: transformed[key] = result] *)
Definition store (key : string) (r : value) (transformed : metadata) : metadata :=
  match r with
  | VNone => transformed
  | _ => dict_set key r transformed
  end.

(** One iteration of the loop over the transformations of the pair. *)
Definition apply_transform (frontmatter : metadata)
    (acc : result metadata) (item : string * transform) : result metadata :=
  transformed <- acc;;
  match dict_get (fst item) frontmatter with
  | Some v =>
      r <- call_with_meta (snd item) v frontmatter;;
      Ok (store (fst item) r transformed)
  | None =>
      if co_argcount (snd item) =? 1
      then r <- call1 (snd item) VNone;;
           Ok (store (fst item) r transformed)
      else Ok transformed
  end.

(** One iteration of the loop that copies the keys left alone. *)
Definition copy_other (transformations : dict transform)
    (transformed : metadata) (item : string * value) : metadata :=
  if negb (dict_mem (fst item) transformations)
     && negb (dict_mem (fst item) transformed)
  then dict_set (fst item) (snd item) transformed
  else transformed.

Definition transform_frontmatter (frontmatter : metadata)
    (source_platform target_platform : string) : result metadata :=
  match dict_get (transform_key source_platform target_platform)
          TRANSFORMATIONS with
  | None => Raise ValueError
  | Some transformations =>
      transformed <- fold_left (apply_transform frontmatter)
                       transformations (@Ok metadata []);;
      Ok (fold_left (copy_other transformations) frontmatter transformed)
  end.

End Transformer.

(** ** Notions the statements are phrased with *)

(** *** Heading-delimited runs of a body

    [runs_from name acc ls] cuts [ls] at its level-2 headings: each run is
    the name in force and the lines gathered under it, in the order of the
    body.  The first run is the heading-less lead. *)
Fixpoint runs_from (name : string) (acc : list string) (ls : list string)
  : list (string * list string) :=
  match ls with
  | [] => [(name, acc)]
  | l :: rest =>
      if Re.match_h2 l
      then (name, acc) :: runs_from (slug l) [] rest
      else runs_from name (acc ++ [l]) rest
  end.

Definition runs (body : string) : list (string * list string) :=
  runs_from "content" [] (Py.lines body).

(** A run that gathered at least one line. *)
Definition has_lines (run : string * list string) : bool :=
  match snd run with [] => false | _ :: _ => true end.

(** The entry a run stores, and the store itself: a run without lines
    stores nothing. *)
Definition run_entry (run : string * list string) : string * string :=
  (fst run, section_text (snd run)).

Definition put_run (d : dict string) (run : string * list string) : dict string :=
  if has_lines run then dict_set (fst run) (section_text (snd run)) d else d.

(** The lines of a body that are not level-2 headings, in order. *)
Definition body_lines (body : string) : list string :=
  filter (fun l => negb (Re.match_h2 l)) (Py.lines body).

(** *** Lines of a stripped text

    [ltrim] drops the blank lines that open a run and strips the first
    line left on its left; [rtrim] does the same at the end of the run, on
    the right.  [trim_lines] is what [strip] leaves of the lines of a run;
    the lines in between are untouched. *)
Fixpoint ltrim (ls : list string) : list string :=
  match ls with
  | [] => []
  | l :: rest =>
      match Py.lstrip l with
      | EmptyString => ltrim rest
      | l' => l' :: rest
      end
  end.

Fixpoint rtrim (ls : list string) : list string :=
  match ls with
  | [] => []
  | l :: rest =>
      match rtrim rest with
      | [] => match Py.rstrip l with
              | EmptyString => []
              | l' => [l']
              end
      | r => l :: r
      end
  end.

Definition trim_lines (ls : list string) : list string := rtrim (ltrim ls).

(** The lines of a text are never the empty list: a text without
    characters has the one line [""]. *)
Definition or_empty_line (ls : list string) : list string :=
  match ls with [] => [EmptyString] | _ :: _ => ls end.

(** The slugs of the level-2 headings of a body, in order. *)
Definition heading_slugs (body : string) : list string :=
  map slug (filter Re.match_h2 (Py.lines body)).

(** The last run called [name] that gathered a line. *)
Definition last_run (name : string) (rs : list (string * list string))
  : option (list string) :=
  match rev (filter (fun r => String.eqb (fst r) name && has_lines r) rs) with
  | [] => None
  | r :: _ => Some (snd r)
  end.

(** What the round trip renders for one run: its stripped text, under the
    rebuilt heading unless it is the lead. *)
Definition render_run (run : string * list string) : string :=
  if String.eqb (fst run) "content" then section_text (snd run)
  else render_heading (fst run) (section_text (snd run)).

(** The runs the round trip keeps: a lead that holds a line, and any
    headed run whose text is not blank. *)
Definition kept_run (run : string * list string) : bool :=
  if String.eqb (fst run) "content" then has_lines run
  else Py.nonempty (section_text (snd run)).

(** *** Fenced code regions

    The lines of [ls] that lie in a fenced region, delimiters included;
    [inside] tells whether a fence is open where [ls] starts. *)
Fixpoint fenced_region (inside : bool) (ls : list string) : list string :=
  match ls with
  | [] => []
  | l :: rest =>
      if is_fence l then l :: fenced_region (negb inside) rest
      else if inside then l :: fenced_region inside rest
      else fenced_region inside rest
  end.

(** [is_subseq a b]: the lines [a] occur in [b], in order. *)
Fixpoint is_subseq (a b : list string) : bool :=
  match a, b with
  | [], _ => true
  | _ :: _, [] => false
  | x :: a', y :: b' =>
      if String.eqb x y then is_subseq a' b' else is_subseq a b'
  end.

Inductive Subseq : list string -> list string -> Prop :=
| Subseq_nil : forall b, Subseq [] b
| Subseq_take : forall x a b, Subseq a b -> Subseq (x :: a) (x :: b)
| Subseq_skip : forall y a b, Subseq a b -> Subseq a (y :: b).

(** A string that is a single line. *)
Definition no_newline (s : string) : Prop := Py.contains Py.newline s = false.

(** Every paragraph gathered so far, and the one being built, is one line. *)
Definition b2p_one_line (st : b2p_state) : Prop :=
  Forall no_newline (paragraphs st) /\ no_newline (current_paragraph st).

(** A line that is not blank. *)
Definition has_text (line : string) : bool := negb (is_blank line).

(** What one line adds to the fenced region, and whether a fence is open
    after it. *)
Definition fenced_head (inside : bool) (l : string) : list string :=
  if is_fence l then [l] else if inside then [l] else [].

Definition fenced_next (inside : bool) (l : string) : bool :=
  if is_fence l then negb inside else inside.

(** A line as [convert_paragraph_to_bullet] emits it: a heading, a
    bullet, or an indented continuation. *)
Definition marked_line (l : string) : bool :=
  Re.match_heading l || Py.startswith "- " l || Py.startswith "  " l.

(** The three styles of the format converter. *)
Definition styles : list string := ["bullets"; "paragraphs"; "blockquotes"].

(** *** Transformation pairs *)
Definition platforms : list string := ["logseq"; "obsidian"; "quarto"].

(** The six directed pairs of distinct platforms. *)
Definition defined_pairs : list (string * string) :=
  [ ("logseq", "obsidian"); ("logseq", "quarto");
    ("obsidian", "logseq"); ("obsidian", "quarto");
    ("quarto", "logseq"); ("quarto", "obsidian") ].

(** All the ways to write [k] as [a ++ sep ++ b]. *)
Fixpoint splits_at (sep k : string) : list (string * string) :=
  (if Py.startswith sep k
   then [(EmptyString, substring (String.length sep)
                         (String.length k - String.length sep) k)]
   else [])
  ++ match k with
     | EmptyString => []
     | String c k' => map (fun ab => (String c (fst ab), snd ab)) (splits_at sep k')
     end.

(** *** Metadata *)

(** The value of [categories] that is there before any default is
    computed: the target's, else the source's. *)
Definition existing (key : string) (source_meta target_meta : metadata)
  : option value :=
  match dict_get key target_meta with
  | Some v => Some v
  | None => dict_get key source_meta
  end.

(** *** Schema entries

    The sections table the resolver reads for a note type, and whether the
    entry of a section (or the default, for a section without an entry)
    lets it through to the content comparison. *)
Definition sections_schema_of (ts : type_schema) : dict section_schema :=
  field (type_sections ts) [].

Definition sync_enabled (ts : type_schema) (section_name : string) : bool :=
  field (sync (dict_get_default section_name (sections_schema_of ts)
                 default_section_schema)) true.

(** *** Dictionaries filled in a loop

    [fill f names d] assigns [d[name] = f name] for each name in turn. *)
Definition fill {V : Type} (f : string -> V) (names : list string)
    (d : dict V) : dict V :=
  fold_left (fun acc name => dict_set name (f name) acc) names d.

(** *** Sample runtime functions, used to run the model on examples *)
Definition sample_md5 (s : string) : string := s.

Definition sample_ratio (a b : string) : Q :=
  if String.eqb (Py.lower a) (Py.lower b) then 1 else 0.

Definition sample_hash (s : string) : nat := String.length s.

Definition sample_today : string := "2026-11-04".

(** ** Notions for the rest of the scripts *)

(** *** Transformations, key by key

    What a transformation computes for its key: called on the value when
    the frontmatter has the key; called on [None] when it has not and the
    lambda takes one parameter; nothing ([None]) when it has not and the
    lambda takes two. *)
Definition transformed_value (t : transform) (present : option value)
    (frontmatter : metadata) : value :=
  match present with
  | Some v => match t with Fn1 f => f v | Fn2 f => f v frontmatter end
  | None => match t with Fn1 f => f VNone | Fn2 _ => VNone end
  end.

(** A result that is [None] stores nothing. *)
Definition not_none (v : value) : option value :=
  match v with VNone => None | _ => Some v end.

(** *** Merged sections, name by name

    The style the schema declares for a section on a platform, with the
    default [convert_section_format] falls back to. *)
Definition declared_format (ts : type_schema) (section_name platform default : string)
  : string :=
  dict_get_default (platform ++ "_format")%string
    (formats (dict_get_default section_name (sections_schema_of ts)
                empty_section_schema))
    default.

(** The source text of a section as it crosses to the target. *)
Definition converted (ts : type_schema) (source_sections : dict string)
    (section_name source_platform target_platform : string) : string :=
  convert_format (dict_get_default section_name source_sections "")
    (declared_format ts section_name source_platform "bullets")
    (declared_format ts section_name target_platform "paragraphs").

(** What [merge_sections] stores for a section sent in direction [d];
    [None] when it stores nothing. *)
Definition merged_text (ts : type_schema) (source_sections target_sections : dict string)
    (source_platform target_platform section_name : string) (d : SyncDirection)
  : option string :=
  match d with
  | none | target_to_source => Some (dict_get_default section_name target_sections "")
  | source_to_target =>
      Some (converted ts source_sections section_name source_platform target_platform)
  | target_only => dict_get section_name target_sections
  | source_only | ignore => None
  end.

(** The direction the schema alone decides for a section it does not let
    through. *)
Definition disabled_direction (entry : section_schema) : SyncDirection :=
  if field (obsidian_only entry) false then target_only
  else if field (logseq_only entry) false then source_only
  else ignore.

(** The schema has what the resolver reads before its loop: the table
    [note_types] and, in it, the type ["note"]. *)
Definition has_note_type (s : schema) : bool :=
  match note_types s with
  | Some types => dict_mem "note" types
  | None => false
  end.

(** *** Sample schemas, used to run the model on examples *)
Definition sample_sections : dict section_schema :=
  [("notes", mk_section_schema (Some true) None None None
               [("logseq_format", "bullets"); ("obsidian_format", "paragraphs")]);
   ("private", mk_section_schema (Some false) (Some true) None None []);
   ("scratch", mk_section_schema (Some false) None (Some true) None []);
   ("drafts", mk_section_schema (Some false) None None None [])].

Definition sample_schema : schema :=
  mk_schema (Some [("note", mk_type_schema (Some sample_sections))]).

(** A schema that defines a type, but not the type ["note"]. *)
Definition schema_without_note : schema :=
  mk_schema (Some [("person", mk_type_schema (Some sample_sections))]).

(** *** Flat bullet lists

    The text of a top-level bullet [- text], when the text follows the
    marker directly; [None] for any other line. *)
Definition bullet_text (line : string) : option string :=
  match line with
  | String a (String b x) =>
      if Ascii.eqb a Re.dash_char && Ascii.eqb b " "%char
         && String.eqb (Py.lstrip x) x
      then Some x else None
  | _ => None
  end.

(** A bullet whose text could stand as a paragraph of its own: not empty,
    without outer whitespace, not a heading. *)
Definition is_item (line : string) : bool :=
  match bullet_text line with
  | Some x => Py.nonempty x && String.eqb (Py.strip x) x
              && negb (Re.match_heading x)
  | None => false
  end.

Definition is_bullet (line : string) : bool :=
  match bullet_text line with Some _ => true | None => false end.

(** The line without its two-character marker. *)
Definition drop_marker (line : string) : string :=
  match line with
  | String _ (String _ x) => x
  | _ => line
  end.

(** ** Target paths ([bidirectional_sync.py]) *)

(** *** [str] and [os.path] on POSIX paths *)
Module Os.

(** [s.endswith(suffix)] *)
Definition endswith (suffix s : string) : bool :=
  (String.length suffix <=? String.length s)
  && String.eqb
       (substring (String.length s - String.length suffix)
          (String.length suffix) s)
       suffix.

(** [sub in s] for two strings. *)
Fixpoint has_substring (sub s : string) : bool :=
  Py.startswith sub s
  || match s with
     | EmptyString => false
     | String _ s' => has_substring sub s'
     end.

(** [s[:-n]] for a string of at least [n] characters. *)
Definition drop_last (n : nat) (s : string) : string :=
  substring 0 (String.length s - n) s.

(** [os.path.basename(p)]: what follows the last slash. *)
Definition basename (p : string) : string :=
  last (Py.split "/"%char p) EmptyString.

(** [os.path.join(a, b)] *)
Definition join (a b : string) : string :=
  if Py.startswith "/" b then b
  else if negb (Py.nonempty a) || endswith "/" a then (a ++ b)%string
  else (a ++ "/" ++ b)%string.

End Os.

(** [CONFIG[platform]['target_dir']] *)
Definition target_dir (platform : string) : result string :=
  if String.eqb platform "logseq" then Ok "logseq/pages"
  else if String.eqb platform "obsidian" then Ok "obsidian"
  else if String.eqb platform "quarto" then Ok "quarto/posts"
  else Raise KeyError.

(** [CONFIG['logseq']['source_dir']] and [CONFIG['quarto']['visualization_dir']] *)
Definition content_dir : string := "content/pages".
Definition visualization_dir : string := "quarto/visualizations".

(** [CONFIG['obsidian']['folders']] *)
Definition folders : dict string :=
  [("person", "People"); ("book", "Books"); ("article", "Articles");
   ("place", "Places"); ("organization", "Organizations"); ("default", "Notes")].

(** The loop over the tags of [get_target_folder]: a tag that is not a
    string has no [lower]. *)
Fixpoint folder_of_tags (tags : list value) : result string :=
  match tags with
  | [] => Ok "Notes"
  | VStr tag :: rest =>
      match dict_get (Py.lower tag) folders with
      | Some folder => Ok folder
      | None => folder_of_tags rest
      end
  | _ :: _ => Raise AttributeError
  end.

Definition get_target_folder (meta : metadata) (platform : string) : result string :=
  if negb (String.eqb platform "obsidian") then Ok ""
  else
    match dict_get_default "type" meta (VStr "default") with
    | VStr t =>
        match dict_get (Py.lower t) folders with
        | Some folder => Ok folder
        | None =>
            match dict_get_default "tags" meta (VList []) with
            | VStr tags =>
                folder_of_tags (map (fun tag => VStr (Py.strip tag))
                                  (Py.split ","%char tags))
            | VList tags => folder_of_tags tags
            | _ => Raise TypeError
            end
        end
    | _ => Raise AttributeError
    end.

(** ['visualization' in metadata.get('tags', [])] *)
Definition tagged_visualization (meta : metadata) : result bool :=
  match dict_get_default "tags" meta (VList []) with
  | VList tags =>
      Ok (existsb (fun tag => match tag with
                              | VStr s => String.eqb s "visualization"
                              | _ => false
                              end) tags)
  | VStr tags => Ok (Os.has_substring "visualization" tags)
  | _ => Raise TypeError
  end.

(** [metadata.get('interactive', False) or 'visualization' in ...]: the
    tags are not looked at when [interactive] is true. *)
Definition is_interactive (meta : metadata) : result bool :=
  if truthy (dict_get_default "interactive" meta (VBool false)) then Ok true
  else tagged_visualization meta.

(** The tests on [source_dir] that pick the layout family. *)
Definition quarto_source (source_dir : string) : bool :=
  Os.endswith "quarto/posts" source_dir
  || Os.has_substring "/quarto/posts/" source_dir
  || Os.endswith "quarto/visualizations" source_dir
  || Os.has_substring "/quarto/visualizations/" source_dir.

Definition obsidian_source (source_dir : string) : bool :=
  Os.endswith "obsidian" source_dir || Os.has_substring "/obsidian/" source_dir.

(** The two extension rewrites. *)
Definition qmd_to_md (filename : string) : string :=
  if Os.endswith ".qmd" filename
  then (Os.drop_last 4 filename ++ ".md")%string else filename.

Definition md_to_qmd (filename : string) : string :=
  if Os.endswith ".md" filename
  then (Os.drop_last 3 filename ++ ".qmd")%string else filename.

Section TargetPath.

(** [os.path.relpath(path, start)], which raises [ValueError] on an empty
    path and depends on the working directory otherwise. *)
Variable relpath : string -> string -> result string.

(** The last [return] of [create_target_path]. *)
Definition fallback_path (file_path platform : string) : result string :=
  dir <- target_dir platform;;
  Ok (Os.join dir (Os.basename file_path)).

(** The two returns for a Quarto target. *)
Definition quarto_path (filename : string) (meta : metadata) : result string :=
  interactive <- is_interactive meta;;
  if interactive
  then Ok (Os.join visualization_dir (md_to_qmd filename))
  else Ok (Os.join "quarto/posts" filename).

Definition obsidian_path (filename : string) (meta : metadata) : result string :=
  folder <- get_target_folder meta "obsidian";;
  Ok (Os.join (Os.join "obsidian" folder) filename).

Definition create_target_path (file_path source_dir platform : string)
    (meta : metadata) : result string :=
  if quarto_source source_dir then
    let filename := qmd_to_md (Os.basename file_path) in
    if String.eqb platform "logseq" then Ok (Os.join "logseq/pages" filename)
    else if String.eqb platform "content" then Ok (Os.join content_dir filename)
    else if String.eqb platform "obsidian" then obsidian_path filename meta
    else fallback_path file_path platform
  else if obsidian_source source_dir then
    let filename := Os.basename file_path in
    if String.eqb platform "logseq" then Ok (Os.join "logseq/pages" filename)
    else if String.eqb platform "content" then Ok (Os.join content_dir filename)
    else if String.eqb platform "quarto" then quarto_path filename meta
    else fallback_path file_path platform
  else
    relative_path <- relpath file_path source_dir;;
    if String.eqb platform "logseq" then Ok (Os.join "logseq/pages" relative_path)
    else if String.eqb platform "obsidian"
    then obsidian_path (Os.basename relative_path) meta
    else if String.eqb platform "quarto"
    then quarto_path (Os.basename relative_path) meta
    else fallback_path file_path platform.

End TargetPath.

(** ** Reading and writing notes *)

(** *** Logseq property lines ([parse_frontmatter]) *)

(** A character of the class [[a-zA-Z0-9_-]]. *)
Definition is_key_char (c : ascii) : bool :=
  let n := nat_of_ascii c in
  Py.is_lower c || Py.is_upper c || ((48 <=? n) && (n <=? 57))
  || Ascii.eqb c "_"%char || Ascii.eqb c "-"%char.

(** The longest prefix of key characters, and what follows it. *)
Fixpoint span_key (s : string) : string * string :=
  match s with
  | EmptyString => (EmptyString, EmptyString)
  | String c s' =>
      if is_key_char c
      then let (k, rest) := span_key s' in (String c k, rest)
      else (EmptyString, s)
  end.

(** [property_pattern] on one line: a key of one or more key characters,
    two colons and a space, then the value up to the end of the line. *)
Definition property_line (line : string) : option (string * string) :=
  let (k, rest) := span_key line in
  match k, rest with
  | String _ _, String a (String b (String c v)) =>
      if Ascii.eqb a ":"%char && Ascii.eqb b ":"%char && Ascii.eqb c " "%char
      then Some (k, v) else None
  | _, _ => None
  end.

(** The loop over [findall]: a later line with the same key overwrites. *)
Definition collect_property (props : metadata) (line : string) : metadata :=
  match property_line line with
  | Some (k, v) => dict_set k (VStr v) props
  | None => props
  end.

(** [property_pattern.sub('', content)], line by line. *)
Definition blank_property (line : string) : string :=
  match property_line line with
  | Some _ => EmptyString
  | None => line
  end.

(** The branch of [parse_frontmatter] for a text that does not start with
    three dashes. *)
Definition parse_logseq (content : string) : metadata * string :=
  (fold_left collect_property (Py.lines content) [],
   Py.strip (Py.unlines (map blank_property (Py.lines content)))).

(** *** Text files

    [open(path, 'r').read()] translates the line ends: a carriage return,
    alone or followed by a line feed, is read as one line feed.  Writing
    leaves the text as it is where the line separator is the line feed. *)
Definition carriage_return : ascii := "013"%char.

Fixpoint read_text (on_disk : string) : string :=
  match on_disk with
  | EmptyString => EmptyString
  | String c rest =>
      if Ascii.eqb c carriage_return
      then match rest with
           | String c' rest' =>
               if Ascii.eqb c' Py.newline
               then String Py.newline (read_text rest')
               else String Py.newline (read_text rest)
           | EmptyString => String Py.newline EmptyString
           end
      else String c (read_text rest)
  end.

Section NoteFiles.

(** [frontmatter.loads]: the metadata and the body, or an exception. *)
Variable frontmatter_loads : string -> result (metadata * string).

(** [str(value)], as an f-string formats a property value. *)
Variable py_str : value -> string.

(** [yaml.dump(meta, default_flow_style=False)] *)
Variable yaml_dump : metadata -> string.

(** [parse_frontmatter] on what [open(...).read()] gave: [None] stands for
    a file that cannot be read.  Every exception ends in [({}, "")]. *)
Definition parse_frontmatter (file : option string) : metadata * string :=
  match file with
  | None => ([], EmptyString)
  | Some content =>
      if negb (Py.startswith "---" content) then parse_logseq content
      else match frontmatter_loads content with
           | Ok parsed => parsed
           | Raise _ => ([], EmptyString)
           end
  end.

(** The two ways [sync_file] writes the target. *)
Definition property_text (item : string * value) : string :=
  (fst item ++ ":: " ++ py_str (snd item) ++ String Py.newline "")%string.

Definition write_logseq (merged_meta : metadata) (merged_content : string) : string :=
  (String.concat "" (map property_text merged_meta)
   ++ (match merged_meta with [] => "" | _ :: _ => String Py.newline "" end)
   ++ merged_content)%string.

Definition write_yaml (merged_meta : metadata) (merged_content : string) : string :=
  ("---" ++ String Py.newline (yaml_dump merged_meta)
   ++ "---" ++ String Py.newline (String Py.newline merged_content))%string.

Definition write_note (target_platform : string) (merged_meta : metadata)
    (merged_content : string) : string :=
  if String.eqb target_platform "logseq"
  then write_logseq merged_meta merged_content
  else write_yaml merged_meta merged_content.

End NoteFiles.

(** A property as the line it is written on, without the newline. *)
Definition written_property (py_str : value -> string) (item : string * value)
  : string :=
  (fst item ++ ":: " ++ py_str (snd item))%string.

(** A key a property line can carry. *)
Definition valid_key (k : string) : bool :=
  Py.nonempty k && negb (Py.nonempty (snd (span_key k))).

(** *** YAML frontmatter files ([yaml_transformer.py]) *)

(** [s] without the prefix [p], when it starts with it. *)
Fixpoint strip_prefix (p s : string) : option string :=
  match p, s with
  | EmptyString, _ => Some s
  | String a p', String b s' =>
      if Ascii.eqb a b then strip_prefix p' s' else None
  | String _ _, EmptyString => None
  end.

(** The text before the first occurrence of [marker] in [s], and the text
    after it. *)
Fixpoint cut_at (marker s : string) : option (string * string) :=
  match strip_prefix marker s with
  | Some rest => Some (EmptyString, rest)
  | None =>
      match s with
      | EmptyString => None
      | String c s' =>
          match cut_at marker s' with
          | Some (before, rest) => Some (String c before, rest)
          | None => None
          end
      end
  end.

Definition dashes_line : string := "---" ++ String Py.newline "".
Definition closing_line : string := String Py.newline dashes_line.

Section YamlFile.

(** What [yaml.safe_load] returns: any YAML document, not only a mapping. *)
Variable document : Type.

(** [yaml.safe_load], with [Raise] for a [YAMLError], and the empty dict. *)
Variable safe_load : string -> result document.
Variable empty_dict : document.

(** [yaml.dump(frontmatter, f, default_flow_style=False, sort_keys=False)] *)
Variable dump : metadata -> string.

(** [read_file] on the content of the file: the lazy group of the pattern
    ends at the first closing line. *)
Definition read_file (content : string) : document * string :=
  match strip_prefix dashes_line content with
  | Some after_opening =>
      match cut_at closing_line after_opening with
      | Some (yaml_text, remaining_content) =>
          match safe_load yaml_text with
          | Ok frontmatter => (frontmatter, remaining_content)
          | Raise _ => (empty_dict, content)
          end
      | None => (empty_dict, content)
      end
  | None => (empty_dict, content)
  end.

(** What [write_file] writes. *)
Definition write_file (frontmatter : metadata) (content : string) : string :=
  (dashes_line ++ dump frontmatter ++ dashes_line
   ++ String Py.newline content)%string.

End YamlFile.

(** A text in which no line after the first is three dashes. *)
Definition no_dashes_after_first (d : string) : Prop :=
  Forall (fun l => l <> "---") (tl (Py.lines d)).

(** *** Sections that survive reconstruction

    A text as [extract_sections] stores it and a heading can carry it:
    stripped, and with no line that opens a section. *)
Definition plain_text (t : string) : Prop :=
  Py.strip t = t /\ Forall (fun l => Re.match_h2 l = false) (Py.lines t).

(** A section name that its own rebuilt heading leads back to. *)
Definition stable_name (n : string) : Prop :=
  n <> "content" /\ no_newline (heading_name n) /\
  slug ("## " ++ heading_name n) = n.

Definition stable_section (kv : string * string) : Prop :=
  stable_name (fst kv) /\ plain_text (snd kv) /\ snd kv <> EmptyString.

(** A dict of sections whose lead, if any, comes first. *)
Definition with_lead (lead : option string) (headed : dict string) : dict string :=
  match lead with
  | Some c => ("content", c) :: headed
  | None => headed
  end.

(** The runs of the text rebuilt from headed sections: each text between
    the blank line under its heading and the blank line before the next. *)
Fixpoint headed_runs (headed : dict string) : list (string * list string) :=
  match headed with
  | [] => []
  | (n, t) :: rest =>
      (n, EmptyString :: Py.lines t
            ++ match rest with [] => [] | _ :: _ => [EmptyString] end)
      :: headed_runs rest
  end.

(** A stand-in for [os.path.relpath] in the examples: the path below
    [start], for paths that lie below it. *)
Definition sample_relpath (path start : string) : result string :=
  match path with
  | EmptyString => Raise ValueError
  | String _ _ =>
      match strip_prefix (start ++ "/") path with
      | Some relative => Ok relative
      | None => Ok path
      end
  end.

(** * Properties *)

(** ** Dictionaries *)

Section DictFacts.

Variable V : Type.
Implicit Types (d : dict V) (k : string) (v : V).

Lemma dict_get_set_same k v d : dict_get k (dict_set k v d) = Some v.
Proof.
  induction d as [|[k' v'] d IH]; simpl.
  - now rewrite String.eqb_refl.
  - destruct (String.eqb k k') eqn:E; simpl; now rewrite E.
Qed.

Lemma dict_get_set_other k k' v d :
  k <> k' -> dict_get k (dict_set k' v d) = dict_get k d.
Proof.
  intros Hne. induction d as [|[k0 v0] d IH]; simpl.
  - destruct (String.eqb k k') eqn:E; [apply String.eqb_eq in E; contradiction|reflexivity].
  - destruct (String.eqb k' k0) eqn:E; simpl.
    + apply String.eqb_eq in E; subst k0.
      destruct (String.eqb k k') eqn:E'; [apply String.eqb_eq in E'; contradiction|reflexivity].
    + now rewrite IH.
Qed.

Lemma dict_get_set k k' v d :
  dict_get k (dict_set k' v d) = if String.eqb k k' then Some v else dict_get k d.
Proof.
  destruct (String.eqb k k') eqn:E.
  - apply String.eqb_eq in E; subst; apply dict_get_set_same.
  - apply String.eqb_neq in E; now apply dict_get_set_other.
Qed.

Lemma dict_get_some_in k d : dict_get k d <> None <-> In k (dict_keys d).
Proof.
  induction d as [|[k' v'] d IH]; simpl.
  - tauto.
  - destruct (String.eqb k k') eqn:E.
    + apply String.eqb_eq in E; subst. split; [now left|discriminate].
    + apply String.eqb_neq in E. rewrite IH. split; [tauto|].
      intros [H|H]; [congruence|assumption].
Qed.

Lemma dict_get_none_notin k d : dict_get k d = None <-> ~ In k (dict_keys d).
Proof.
  rewrite <- dict_get_some_in. destruct (dict_get k d); split; intro H;
    try congruence; try tauto. exfalso; apply H; discriminate.
Qed.

Lemma dict_mem_in k d : dict_mem k d = true <-> In k (dict_keys d).
Proof.
  unfold dict_mem. rewrite <- dict_get_some_in.
  destruct (dict_get k d); split; intro; congruence.
Qed.

Lemma dict_get_in k v d : dict_get k d = Some v -> In (k, v) d.
Proof.
  induction d as [|[k' v'] d IH]; simpl; [discriminate|].
  destruct (String.eqb k k') eqn:E.
  - apply String.eqb_eq in E; subst. intros [= ->]; now left.
  - intro H; right; auto.
Qed.

Lemma dict_get_nodup k v d :
  NoDup (dict_keys d) -> In (k, v) d -> dict_get k d = Some v.
Proof.
  induction d as [|[k' v'] d IH]; simpl; [tauto|].
  intros Hnd [H|H].
  - injection H as -> ->. now rewrite String.eqb_refl.
  - inversion Hnd as [|? ? Hnotin Hnd']; subst.
    destruct (String.eqb k k') eqn:E.
    + apply String.eqb_eq in E; subst. exfalso; apply Hnotin.
      change k' with (fst (k', v)). now apply in_map.
    + auto.
Qed.

Lemma dict_keys_set k k' v d :
  In k (dict_keys (dict_set k' v d)) <-> k = k' \/ In k (dict_keys d).
Proof.
  rewrite <- !dict_get_some_in, dict_get_set.
  destruct (String.eqb k k') eqn:E.
  - apply String.eqb_eq in E. split; [now left|discriminate].
  - apply String.eqb_neq in E. tauto.
Qed.

Lemma dict_set_new k v d :
  ~ In k (dict_keys d) -> dict_set k v d = d ++ [(k, v)].
Proof.
  induction d as [|[k' v'] d IH]; simpl; [reflexivity|].
  intros Hn. destruct (String.eqb k k') eqn:E.
  - apply String.eqb_eq in E; subst. exfalso; apply Hn; now left.
  - rewrite IH; [reflexivity|]. intro; apply Hn; now right.
Qed.

Lemma dict_keys_set_nodup k v d :
  NoDup (dict_keys d) -> NoDup (dict_keys (dict_set k v d)).
Proof.
  induction d as [|[k' v'] d IH]; simpl; intros Hnd.
  - constructor; [tauto|constructor].
  - inversion Hnd as [|? ? Hnotin Hnd']; subst.
    destruct (String.eqb k k') eqn:E; simpl.
    + assumption.
    + constructor; [|auto].
      change (~ In k' (dict_keys (dict_set k v d))).
      rewrite dict_keys_set. apply String.eqb_neq in E.
      intros [H|H]; [congruence|contradiction].
Qed.

Lemma fill_get f names : forall d k,
  dict_get k (fill f names d) =
  if in_dec string_dec k names then Some (f k) else dict_get k d.
Proof.
  unfold fill. induction names as [|n names IH]; intros d k; simpl.
  - reflexivity.
  - rewrite IH. destruct (in_dec string_dec k names) as [Hin|Hnin].
    + destruct (string_dec n k); reflexivity.
    + rewrite dict_get_set. destruct (string_dec n k) as [->|Hne].
      * now rewrite String.eqb_refl.
      * destruct (String.eqb k n) eqn:E; [|reflexivity].
        apply String.eqb_eq in E; congruence.
Qed.

Lemma fill_nodup f names : forall d,
  NoDup (dict_keys d) -> NoDup (dict_keys (fill f names d)).
Proof.
  unfold fill. induction names as [|n names IH]; intros d Hnd; simpl.
  - assumption.
  - apply IH. now apply dict_keys_set_nodup.
Qed.

End DictFacts.

(** ** The direction resolver *)

Section SyncFacts.

Variable md5 : string -> string.
Variable ratio : string -> string -> Q.
Variable str_hash : string -> nat.
Variable SCHEMA : schema.

Lemma insert_by_hash_in x y l :
  In y (insert_by_hash str_hash x l) <-> y = x \/ In y l.
Proof.
  induction l as [|z l IH]; simpl.
  - intuition.
  - destruct (str_hash x <=? str_hash z); simpl; rewrite ?IH; intuition.
Qed.

Lemma insert_by_hash_nodup x l :
  ~ In x l -> NoDup l -> NoDup (insert_by_hash str_hash x l).
Proof.
  induction l as [|z l IH]; simpl; intros Hn Hnd.
  - constructor; [tauto|constructor].
  - destruct (str_hash x <=? str_hash z).
    + now constructor.
    + inversion Hnd as [|? ? Hz Hl]; subst. constructor.
      * rewrite insert_by_hash_in. intros [->|H]; [apply Hn; now left|contradiction].
      * apply IH; [|assumption]. intro; apply Hn; now right.
Qed.

Lemma sorted_by_hash_in m x :
  In x (fold_right (insert_by_hash str_hash) [] m) <-> In x m.
Proof.
  induction m as [|y m IH]; simpl.
  - tauto.
  - rewrite insert_by_hash_in, IH. intuition.
Qed.

Lemma set_iter_in l x : In x (set_iter str_hash l) <-> In x l.
Proof.
  unfold set_iter. now rewrite sorted_by_hash_in, nodup_In.
Qed.

Lemma set_iter_nodup l : NoDup (set_iter str_hash l).
Proof.
  unfold set_iter. pose proof (NoDup_nodup string_dec l) as Hnd.
  induction Hnd as [|y m Hy Hm IH]; simpl.
  - constructor.
  - apply insert_by_hash_nodup; [|assumption].
    intro H. apply Hy. now apply sorted_by_hash_in.
Qed.

Lemma determine_sync_direction_ok source target note_type ts :
  type_schema_for SCHEMA note_type = Ok ts ->
  determine_sync_direction md5 ratio str_hash SCHEMA source target note_type =
  Ok (fill (section_direction md5 ratio (sections_schema_of ts) source target)
        (set_iter str_hash (dict_keys source ++ dict_keys target)) []).
Proof.
  intros H. unfold determine_sync_direction. rewrite H. reflexivity.
Qed.

Lemma resolver_lookup source target ts name :
  dict_get name
    (fill (section_direction md5 ratio (sections_schema_of ts) source target)
       (set_iter str_hash (dict_keys source ++ dict_keys target)) []) =
  if dict_mem name source || dict_mem name target
  then Some (section_direction md5 ratio (sections_schema_of ts) source target name)
  else None.
Proof.
  rewrite fill_get.
  destruct (in_dec string_dec name _) as [Hin|Hnin].
  - apply set_iter_in, in_app_or in Hin.
    destruct Hin as [Hin|Hin]; apply dict_mem_in in Hin; rewrite Hin;
      [reflexivity|now rewrite orb_true_r].
  - destruct (dict_mem name source) eqn:Es.
    + exfalso. apply Hnin, set_iter_in, in_or_app. left. now apply dict_mem_in.
    + destruct (dict_mem name target) eqn:Et; [|reflexivity].
      exfalso. apply Hnin, set_iter_in, in_or_app. right. now apply dict_mem_in.
Qed.

Lemma resolver_keys source target ts name :
  In name (dict_keys
    (fill (section_direction md5 ratio (sections_schema_of ts) source target)
       (set_iter str_hash (dict_keys source ++ dict_keys target)) [])) <->
  In name (dict_keys source) \/ In name (dict_keys target).
Proof.
  rewrite <- dict_get_some_in, resolver_lookup, <- !dict_mem_in.
  destruct (dict_mem name source), (dict_mem name target); simpl;
    split; intro H; try discriminate; auto; destruct H; discriminate.
Qed.

Lemma section_direction_enabled ts source target name :
  sync_enabled ts name = true ->
  section_direction md5 ratio (sections_schema_of ts) source target name =
  match dict_get name source, dict_get name target with
  | Some s, Some t =>
      if String.eqb (md5 s) (md5 t) then none
      else if very_similar ratio s t then none else source_to_target
  | Some _, None => source_to_target
  | None, _ => target_to_source
  end.
Proof.
  unfold sync_enabled, section_direction. intros ->. reflexivity.
Qed.

Lemma very_similar_gt a b : very_similar ratio a b = true <-> (9 # 10 < ratio a b)%Q.
Proof.
  unfold very_similar. rewrite negb_true_iff.
  split; intro H.
  - apply Qnot_le_lt. intro Hle. apply Qle_bool_iff in Hle. congruence.
  - destruct (Qle_bool (ratio a b) (9 # 10)) eqn:E; [|reflexivity].
    apply Qle_bool_iff in E. exfalso. now apply (Qlt_not_le _ _ H).
Qed.

(** C1.  A section present on both sides, with syncing enabled by the
    schema entry (or by the default for a section without one): the
    resolver answers, and its direction is [none] when the two hashes are
    equal, [none] when they differ and the similarity ratio is strictly
    above 0.9, and [source_to_target] when they differ and the ratio is at
    most 0.9. *)
Theorem resolver_both_sides source target note_type ts name s t :
  type_schema_for SCHEMA note_type = Ok ts ->
  sync_enabled ts name = true ->
  dict_get name source = Some s ->
  dict_get name target = Some t ->
  exists dirs,
    determine_sync_direction md5 ratio str_hash SCHEMA source target note_type
      = Ok dirs /\
    (md5 s = md5 t -> dict_get name dirs = Some none) /\
    (md5 s <> md5 t -> (9 # 10 < ratio s t)%Q -> dict_get name dirs = Some none) /\
    (md5 s <> md5 t -> (ratio s t <= 9 # 10)%Q ->
       dict_get name dirs = Some source_to_target).
Proof.
  intros Hts Hsync Hs Ht. eexists. split.
  - apply determine_sync_direction_ok with (ts := ts). exact Hts.
  - rewrite resolver_lookup, section_direction_enabled by assumption.
    unfold dict_mem. rewrite Hs, Ht. simpl.
    repeat split.
    + intros ->. now rewrite String.eqb_refl.
    + intros Hne Hgt. apply String.eqb_neq in Hne. rewrite Hne.
      apply very_similar_gt in Hgt. now rewrite Hgt.
    + intros Hne Hle. apply String.eqb_neq in Hne. rewrite Hne.
      destruct (very_similar ratio s t) eqn:E; [|reflexivity].
      apply very_similar_gt in E. exfalso. now apply (Qlt_not_le _ _ E).
Qed.

(** C2.  The resolver's result has one key for each section name of the
    source or of the target and no other key; with syncing enabled, a name
    only the source has is sent [source_to_target] and a name only the
    target has is sent [target_to_source]. *)
Theorem resolver_union_of_names source target note_type ts :
  type_schema_for SCHEMA note_type = Ok ts ->
  exists dirs,
    determine_sync_direction md5 ratio str_hash SCHEMA source target note_type
      = Ok dirs /\
    NoDup (dict_keys dirs) /\
    (forall name, In name (dict_keys dirs) <->
                  In name (dict_keys source) \/ In name (dict_keys target)) /\
    (forall name, sync_enabled ts name = true ->
       In name (dict_keys source) -> ~ In name (dict_keys target) ->
       dict_get name dirs = Some source_to_target) /\
    (forall name, sync_enabled ts name = true ->
       ~ In name (dict_keys source) -> In name (dict_keys target) ->
       dict_get name dirs = Some target_to_source).
Proof.
  intros Hts. eexists. split; [apply determine_sync_direction_ok with (ts := ts); exact Hts|].
  split; [apply fill_nodup; constructor|].
  split; [intro; apply resolver_keys|].
  split; intros name Hsync Hs Ht.
  - rewrite resolver_lookup, section_direction_enabled by assumption.
    pose proof Hs as Hm. apply dict_mem_in in Hm. rewrite Hm. simpl.
    apply dict_get_some_in in Hs. apply dict_get_none_notin in Ht.
    rewrite Ht. destruct (dict_get name source); [reflexivity|congruence].
  - rewrite resolver_lookup, section_direction_enabled by assumption.
    pose proof Ht as Hm. apply dict_mem_in in Hm. rewrite Hm, orb_true_r.
    apply dict_get_none_notin in Hs. now rewrite Hs.
Qed.

End SyncFacts.

Lemma resolver_both_sides_witness :
  exists dirs,
    determine_sync_direction sample_md5 sample_ratio sample_hash builtin_schema
      [("notes", "Alpha beta")] [("notes", "alpha beta")] "note" = Ok dirs /\
    dict_get "notes" dirs = Some none.
Proof.
  destruct (@resolver_both_sides sample_md5 sample_ratio sample_hash
              builtin_schema [("notes", "Alpha beta")] [("notes", "alpha beta")]
              "note"
              (mk_type_schema (Some [("overview", default_section_schema);
                                     ("notes", default_section_schema);
                                     ("references", default_section_schema)]))
              "notes" "Alpha beta" "alpha beta")
    as [dirs [Hrun [_ [Hsim _]]]]; try reflexivity.
  exists dirs. split; [exact Hrun|].
  apply Hsim; [discriminate|reflexivity].
Defined.

Lemma resolver_union_of_names_witness :
  exists dirs,
    determine_sync_direction sample_md5 sample_ratio sample_hash builtin_schema
      [("content", "intro"); ("notes", "- a")]
      [("content", "intro"); ("links", "see b")] "note" = Ok dirs /\
    dict_get "notes" dirs = Some source_to_target /\
    dict_get "links" dirs = Some target_to_source.
Proof.
  destruct (@resolver_union_of_names sample_md5 sample_ratio sample_hash
              builtin_schema
              [("content", "intro"); ("notes", "- a")]
              [("content", "intro"); ("links", "see b")] "note"
              (mk_type_schema (Some [("overview", default_section_schema);
                                     ("notes", default_section_schema);
                                     ("references", default_section_schema)]))
              eq_refl)
    as [dirs [Hrun [_ [_ [Hsrc Htgt]]]]].
  exists dirs. split; [exact Hrun|]. split.
  - apply Hsrc; [reflexivity|simpl; tauto|].
    simpl. intros [H|[H|[]]]; discriminate.
  - apply Htgt; [reflexivity| |simpl; tauto].
    simpl. intros [H|[H|[]]]; discriminate.
Defined.

(** ** The back-sync guard of [sync_file] *)

Section BackSync.

Variable md5 : string -> string.
Variable ratio : string -> string -> Q.
Variable str_hash : string -> nat.
Variable SCHEMA : schema.

Lemma direction_str_nonempty d : Py.nonempty (direction_str d) = true.
Proof. destruct d; reflexivity. Qed.

(** The guard reads the flag out of a table keyed by section names: it is
    true exactly when one side has a section called ["bidirectional"]. *)
Lemma bidirectional_flag_iff source target note_type dirs :
  determine_sync_direction md5 ratio str_hash SCHEMA source target note_type
    = Ok dirs ->
  (bidirectional_flag dirs = true <->
   In "bidirectional" (dict_keys source) \/ In "bidirectional" (dict_keys target)).
Proof.
  unfold determine_sync_direction.
  destruct (type_schema_for SCHEMA note_type) as [ts|e] eqn:Hts; simpl; [|discriminate].
  intros [= <-].
  change (fold_left _ _ []) with
    (fill (section_direction md5 ratio (sections_schema_of ts) source target)
       (set_iter str_hash (dict_keys source ++ dict_keys target)) []).
  unfold bidirectional_flag. rewrite resolver_lookup, <- !dict_mem_in.
  destruct (dict_mem "bidirectional" source), (dict_mem "bidirectional" target);
    simpl; rewrite ?direction_str_nonempty;
    split; intro H; try discriminate; auto; destruct H; discriminate.
Qed.

End BackSync.

(** C9.  With the built-in schema, a source whose only section is headed
    [## Bidirectional] and a target whose only section is headed
    [## Extra]: the resolver stores a direction under the key
    ["bidirectional"], the guard of the back-sync reads it as true, and the
    recursive call with source and target swapped is reached. *)
Theorem back_sync_reached_by_section_name :
  forall (md5 : string -> string) (ratio : string -> string -> Q)
         (str_hash : string -> nat),
  exists dirs,
    determine_sync_direction md5 ratio str_hash builtin_schema
      (extract_sections "## Bidirectional
plan")
      (extract_sections "## Extra
note") "note" = Ok dirs /\
    dict_get "bidirectional" dirs = Some source_to_target /\
    dict_get "extra" dirs = Some target_to_source /\
    bidirectional_flag dirs = true /\
    back_sync_triggered dirs true = true.
Proof.
  intros md5 ratio str_hash.
  set (ts := mk_type_schema (Some [("overview", default_section_schema);
                                   ("notes", default_section_schema);
                                   ("references", default_section_schema)])).
  set (source := extract_sections "## Bidirectional
plan").
  set (target := extract_sections "## Extra
note").
  set (dirs := fill (section_direction md5 ratio (sections_schema_of ts)
                       source target)
                 (set_iter str_hash (dict_keys source ++ dict_keys target)) []).
  assert (Hb : dict_get "bidirectional" dirs = Some source_to_target)
    by (unfold dirs; rewrite resolver_lookup; reflexivity).
  assert (He : dict_get "extra" dirs = Some target_to_source)
    by (unfold dirs; rewrite resolver_lookup; reflexivity).
  exists dirs. split; [now apply determine_sync_direction_ok with (ts := ts)|].
  split; [exact Hb|]. split; [exact He|].
  unfold back_sync_triggered, bidirectional_flag. rewrite Hb.
  split; [reflexivity|]. cbn [direction_str Py.nonempty andb].
  apply existsb_exists. exists target_to_source. split; [|reflexivity].
  apply dict_get_in in He. unfold dict_values.
  change target_to_source with (snd ("extra", target_to_source)).
  now apply in_map.
Qed.

(** ** Strings and lines *)

Section StringFacts.

Implicit Types (s a b : string) (c sep : ascii).

Lemma contains_append c a b :
  Py.contains c (a ++ b)%string = Py.contains c a || Py.contains c b.
Proof.
  induction a as [|d a IH]; simpl; [reflexivity|].
  now rewrite IH, orb_assoc.
Qed.

Lemma contains_lstrip c s :
  Py.contains c s = false -> Py.contains c (Py.lstrip s) = false.
Proof.
  induction s as [|d s IH]; simpl; [reflexivity|].
  intros H. apply orb_false_iff in H as [Hd Hs].
  destruct (Py.is_space d); [auto|]. simpl. now rewrite Hd, Hs.
Qed.

Lemma contains_sub_bullet c s :
  Py.contains c s = false -> Py.contains c (Re.sub_bullet s) = false.
Proof.
  intros H. unfold Re.sub_bullet.
  pose proof (contains_lstrip c s H) as Hl.
  destruct (Py.lstrip s) as [|d r]; [assumption|].
  destruct (Ascii.eqb d Re.dash_char); [|assumption].
  simpl in Hl. apply orb_false_iff in Hl as [_ Hr].
  now apply contains_lstrip.
Qed.

Lemma split_not_nil sep s : Py.split sep s <> [].
Proof.
  destruct s as [|c s]; simpl; [discriminate|].
  destruct (Ascii.eqb c sep); [discriminate|].
  destruct (Py.split sep s); discriminate.
Qed.

Lemma split_pieces sep s :
  Forall (fun w => Py.contains sep w = false) (Py.split sep s).
Proof.
  induction s as [|c s IH]; simpl.
  - constructor; [reflexivity|constructor].
  - destruct (Ascii.eqb c sep) eqn:E.
    + constructor; [reflexivity|assumption].
    + destruct (Py.split sep s) as [|w ws]; inversion IH; subst;
        constructor; simpl; try rewrite E; auto.
Qed.

Lemma split_whole sep s : Py.contains sep s = false -> Py.split sep s = [s].
Proof.
  induction s as [|c s IH]; simpl; [reflexivity|].
  intros H. apply orb_false_iff in H as [Hc Hs].
  rewrite Hc, (IH Hs). reflexivity.
Qed.

Lemma split_append sep a b :
  Py.contains sep a = false ->
  Py.split sep (a ++ String sep b)%string = a :: Py.split sep b.
Proof.
  induction a as [|c a IH]; simpl.
  - intros _. now rewrite Ascii.eqb_refl.
  - intros H. apply orb_false_iff in H as [Hc Ha].
    rewrite Hc, (IH Ha). reflexivity.
Qed.

Lemma split_leading_sep sep b :
  Py.split sep (String sep b) = EmptyString :: Py.split sep b.
Proof. simpl. now rewrite Ascii.eqb_refl. Qed.

Lemma blank_not_fence l : is_blank l = true -> is_fence l = false.
Proof.
  unfold is_blank, is_fence. destruct (Py.strip l); [reflexivity|discriminate].
Qed.

Lemma fenced_region_cons inside l rest :
  fenced_region inside (l :: rest) =
  fenced_head inside l ++ fenced_region (fenced_next inside l) rest.
Proof.
  unfold fenced_head, fenced_next. simpl.
  destruct (is_fence l); [reflexivity|]. destruct inside; reflexivity.
Qed.

End StringFacts.

(** ** Subsequences of lines *)

Lemma Subseq_refl a : Subseq a a.
Proof. induction a; constructor; assumption. Qed.

Lemma Subseq_app a a' b b' :
  Subseq a b -> Subseq a' b' -> Subseq (a ++ a') (b ++ b').
Proof.
  intros H H'. induction H; simpl.
  - induction b as [|y b IH]; simpl; [assumption|now constructor].
  - now constructor.
  - now constructor.
Qed.

Lemma Subseq_trans a b c : Subseq a b -> Subseq b c -> Subseq a c.
Proof.
  intros Hab Hbc. revert a Hab.
  induction Hbc as [c|x b c Hbc IH|y b c Hbc IH]; intros a Hab.
  - inversion Hab; constructor.
  - inversion Hab; subst; constructor; auto.
  - constructor; auto.
Qed.

Lemma Subseq_tail x a b : Subseq (x :: a) b -> Subseq a b.
Proof.
  intros H. remember (x :: a) as xa eqn:E.
  induction H as [b|x' a' b H IH|y a' b H IH]; [discriminate| |].
  - injection E as -> ->. now constructor.
  - constructor; auto.
Qed.

Lemma Subseq_is_subseq b : forall a, Subseq a b -> is_subseq a b = true.
Proof.
  induction b as [|y b IH]; intros a H.
  - inversion H; reflexivity.
  - destruct a as [|x a]; [reflexivity|]. simpl.
    inversion H as [|? ? ? Htake|? ? ? Hskip]; subst.
    + rewrite String.eqb_refl. auto.
    + destruct (String.eqb x y); [|auto].
      apply IH. now apply Subseq_tail in Hskip.
Qed.

(** ** Lines of a stripped text *)

Lemma lines_cons c s :
  Py.lines (String c s) =
  if Ascii.eqb c Py.newline then EmptyString :: Py.lines s
  else match Py.lines s with
       | [] => [String c EmptyString]
       | w :: ws => String c w :: ws
       end.
Proof. reflexivity. Qed.

Lemma lines_head s : exists w ws, Py.lines s = w :: ws.
Proof.
  pose proof (split_not_nil Py.newline s) as H. unfold Py.lines.
  destruct (Py.split Py.newline s) as [|w ws]; [contradiction|]. now exists w, ws.
Qed.

Lemma unlines_cons l l' ls :
  Py.unlines (l :: l' :: ls) = (l ++ String Py.newline (Py.unlines (l' :: ls)))%string.
Proof. reflexivity. Qed.

Lemma unlines_lines s : Py.unlines (Py.lines s) = s.
Proof.
  induction s as [|c s IH]; [reflexivity|].
  rewrite lines_cons. destruct (lines_head s) as [w [ws Hw]]. rewrite Hw in *.
  destruct (Ascii.eqb c Py.newline) eqn:E.
  - apply Ascii.eqb_eq in E; subst c. rewrite unlines_cons, IH. reflexivity.
  - destruct ws as [|w' ws].
    + cbn in IH. cbn. now rewrite IH.
    + rewrite unlines_cons in *. cbn [append]. now rewrite IH.
Qed.

Lemma lines_single s l : Py.lines s = [l] -> s = l.
Proof. intros H. rewrite <- (unlines_lines s), H. reflexivity. Qed.

Lemma lines_of_line l : no_newline l -> Py.lines l = [l].
Proof. apply split_whole. Qed.

Lemma not_space_not_newline c : Py.is_space c = false -> Ascii.eqb c Py.newline = false.
Proof.
  intros H. destruct (Ascii.eqb c Py.newline) eqn:E; [|reflexivity].
  apply Ascii.eqb_eq in E; subst. discriminate H.
Qed.

(** [lstrip] on the lines of a text. *)
Lemma lines_lstrip s : Py.lines (Py.lstrip s) = or_empty_line (ltrim (Py.lines s)).
Proof.
  induction s as [|c s IH]; [reflexivity|].
  cbn [Py.lstrip]. destruct (Py.is_space c) eqn:Hc.
  - rewrite IH, lines_cons. destruct (Ascii.eqb c Py.newline); [reflexivity|].
    destruct (lines_head s) as [w [ws ->]].
    cbn [ltrim Py.lstrip]. now rewrite Hc.
  - rewrite lines_cons, (not_space_not_newline c Hc).
    destruct (lines_head s) as [w [ws ->]].
    cbn [ltrim Py.lstrip]. rewrite Hc. reflexivity.
Qed.

Lemma rtrim_last_nonempty ls : rtrim ls <> [EmptyString].
Proof.
  induction ls as [|l ls IH]; simpl; [discriminate|].
  destruct (rtrim ls) as [|r rs].
  - destruct (Py.rstrip l); discriminate.
  - intros H. injection H as _ H. discriminate H.
Qed.

Lemma rstrip_cons c s :
  Py.rstrip (String c s) =
  match Py.rstrip s with
  | EmptyString => if Py.is_space c then EmptyString else String c EmptyString
  | String d r => String c (String d r)
  end.
Proof. reflexivity. Qed.

Lemma rtrim_cons l ls :
  rtrim (l :: ls) =
  match rtrim ls with
  | [] => match Py.rstrip l with
          | EmptyString => []
          | String d r => [String d r]
          end
  | x :: xs => l :: x :: xs
  end.
Proof. reflexivity. Qed.

(** [rstrip] on the lines of a text. *)
Lemma lines_rstrip s : Py.lines (Py.rstrip s) = or_empty_line (rtrim (Py.lines s)).
Proof.
  induction s as [|c s IH]; [reflexivity|].
  assert (Hempty : rtrim (Py.lines s) = [] -> Py.rstrip s = EmptyString).
  { intros H. rewrite H in IH. now apply lines_single in IH. }
  assert (Hfull : forall r rs, rtrim (Py.lines s) = r :: rs ->
                    exists d t, Py.rstrip s = String d t).
  { intros r rs H. destruct (Py.rstrip s) as [|d t] eqn:E; [|now exists d, t].
    exfalso. rewrite H in IH. simpl in IH. rewrite <- IH in H.
    now apply (rtrim_last_nonempty (Py.lines s)). }
  rewrite lines_cons, rstrip_cons.
  destruct (Ascii.eqb c Py.newline) eqn:Enl.
  - apply Ascii.eqb_eq in Enl; subst c. rewrite rtrim_cons.
    destruct (rtrim (Py.lines s)) as [|r rs] eqn:Hr.
    + rewrite (Hempty eq_refl). reflexivity.
    + destruct (Hfull r rs eq_refl) as [d [t Hs]]. rewrite Hs in *.
      rewrite lines_cons, Ascii.eqb_refl, IH. reflexivity.
  - destruct (lines_head s) as [w [ws Hw]]. rewrite Hw in *.
    rewrite rtrim_cons. rewrite rtrim_cons in IH, Hempty, Hfull.
    destruct (rtrim ws) as [|x xs] eqn:Hx.
    + rewrite rstrip_cons. destruct (Py.rstrip w) as [|d t] eqn:Hrw.
      * rewrite (Hempty eq_refl).
        destruct (Py.is_space c); [reflexivity|].
        rewrite lines_cons, Enl. reflexivity.
      * destruct (Hfull _ _ eq_refl) as [d' [t' Hs]]. rewrite Hs in *.
        rewrite lines_cons, Enl, IH. reflexivity.
    + destruct (Hfull _ _ eq_refl) as [d' [t' Hs]]. rewrite Hs in *.
      rewrite lines_cons, Enl, IH. reflexivity.
Qed.

Lemma rtrim_or_empty_line ls : rtrim (or_empty_line ls) = rtrim ls.
Proof. destruct ls; reflexivity. Qed.

(** What [strip] leaves of the lines of a text. *)
Lemma lines_strip s : Py.lines (Py.strip s) = or_empty_line (trim_lines (Py.lines s)).
Proof.
  unfold Py.strip, trim_lines.
  now rewrite lines_rstrip, lines_lstrip, rtrim_or_empty_line.
Qed.

Lemma lines_unlines ls :
  Forall no_newline ls -> Py.lines (Py.unlines ls) = or_empty_line ls.
Proof.
  induction ls as [|l ls IH]; intros H; [reflexivity|].
  inversion H as [|? ? Hl Hls]; subst.
  destruct ls as [|l' ls].
  - simpl. now apply lines_of_line.
  - rewrite unlines_cons. unfold Py.lines in *.
    rewrite (split_append _ _ _ Hl), (IH Hls). reflexivity.
Qed.

Lemma trim_lines_or_empty_line ls : trim_lines (or_empty_line ls) = trim_lines ls.
Proof. destruct ls; reflexivity. Qed.

(** The lines of the text stored for a run. *)
Lemma lines_section_text ls :
  Forall no_newline ls ->
  Py.lines (section_text ls) = or_empty_line (trim_lines ls).
Proof.
  intros H. unfold section_text.
  now rewrite lines_strip, (lines_unlines H), trim_lines_or_empty_line.
Qed.

Lemma trim_lines_blank ls :
  Forall no_newline ls -> section_text ls = EmptyString -> trim_lines ls = [].
Proof.
  intros H Hblank. pose proof (lines_section_text H) as Hl.
  rewrite Hblank in Hl. destruct (trim_lines ls) as [|x xs] eqn:E; [reflexivity|].
  simpl in Hl. exfalso. unfold trim_lines in E. rewrite <- Hl in E.
  now apply (rtrim_last_nonempty (ltrim ls)).
Qed.

Lemma lines_append a b :
  Py.lines (a ++ String Py.newline b)%string = Py.lines a ++ Py.lines b.
Proof.
  induction a as [|c a IH].
  - cbn [append]. rewrite lines_cons, Ascii.eqb_refl. reflexivity.
  - cbn [append]. rewrite !lines_cons, IH.
    destruct (Ascii.eqb c Py.newline); [reflexivity|].
    destruct (lines_head a) as [w [ws ->]]. reflexivity.
Qed.

Lemma Subseq_app_l a b c : Subseq a c -> Subseq a (b ++ c).
Proof. intros H. induction b; simpl; [assumption|now constructor]. Qed.

Lemma Subseq_or_empty_line ls : Subseq ls (or_empty_line ls).
Proof. destruct ls; [constructor|apply Subseq_refl]. Qed.

(** The lines of the joined pieces hold the lines of every piece. *)
Lemma lines_join_blank ps :
  Subseq (flat_map Py.lines ps) (Py.lines (Py.join blank_line ps)).
Proof.
  induction ps as [|p ps IH]; [constructor|].
  destruct ps as [|q ps].
  - simpl. rewrite app_nil_r. apply Subseq_refl.
  - change (Py.join blank_line (p :: q :: ps))
      with (p ++ String Py.newline (String Py.newline (Py.join blank_line (q :: ps))))%string.
    rewrite lines_append, lines_cons, Ascii.eqb_refl.
    cbn [flat_map]. apply Subseq_app; [apply Subseq_refl|].
    constructor. exact IH.
Qed.

Lemma render_heading_lines name text :
  Subseq (Py.lines text) (Py.lines (render_heading name text)).
Proof.
  change (render_heading name text)
    with (("## " ++ heading_name name)
          ++ String Py.newline (String Py.newline text))%string.
  rewrite lines_append, lines_cons, Ascii.eqb_refl.
  apply Subseq_app_l. constructor. apply Subseq_refl.
Qed.

Lemma render_run_lines r :
  Forall no_newline (snd r) ->
  Subseq (trim_lines (snd r)) (Py.lines (render_run r)).
Proof.
  intros H. unfold render_run.
  assert (Ht : Subseq (trim_lines (snd r)) (Py.lines (section_text (snd r)))).
  { rewrite (lines_section_text H). apply Subseq_or_empty_line. }
  destruct (String.eqb (fst r) "content"); [exact Ht|].
  eapply Subseq_trans; [exact Ht|apply render_heading_lines].
Qed.

Lemma dropped_run_lines r :
  Forall no_newline (snd r) -> kept_run r = false -> trim_lines (snd r) = [].
Proof.
  intros H. unfold kept_run, has_lines.
  destruct (String.eqb (fst r) "content").
  - destruct (snd r); [reflexivity|discriminate].
  - intros Hk. apply (trim_lines_blank H).
    destruct (section_text (snd r)); [reflexivity|discriminate].
Qed.

Lemma kept_runs_lines rs :
  Forall (fun r => Forall no_newline (snd r)) rs ->
  Subseq (flat_map (fun r => trim_lines (snd r)) rs)
         (flat_map Py.lines (map render_run (filter kept_run rs))).
Proof.
  induction 1 as [|r rs Hr _ IH]; [constructor|].
  cbn [flat_map filter]. destruct (kept_run r) eqn:Hk.
  - cbn [map flat_map]. apply Subseq_app; [now apply render_run_lines|exact IH].
  - now rewrite (dropped_run_lines r Hr Hk).
Qed.

Lemma runs_from_one_line ls : forall name acc,
  Forall no_newline acc -> Forall no_newline ls ->
  Forall (fun r => Forall no_newline (snd r)) (runs_from name acc ls).
Proof.
  induction ls as [|l ls IH]; intros name acc Hacc Hls; simpl.
  - constructor; [exact Hacc|constructor].
  - inversion Hls as [|? ? Hl Hls']; subst. destruct (Re.match_h2 l).
    + constructor; [exact Hacc|]. apply IH; [constructor|assumption].
    + apply IH; [|assumption]. apply Forall_app. split; [assumption|now constructor].
Qed.

Lemma runs_from_lines ls : forall name acc,
  flat_map snd (runs_from name acc ls) =
  acc ++ filter (fun l => negb (Re.match_h2 l)) ls.
Proof.
  induction ls as [|l ls IH]; intros name acc; simpl.
  - reflexivity.
  - destruct (Re.match_h2 l); simpl.
    + now rewrite IH.
    + rewrite IH, <- app_assoc. reflexivity.
Qed.

(** The runs of a body hold its lines that are not level-2 headings. *)
Lemma runs_body_lines body : flat_map snd (runs body) = body_lines body.
Proof. apply runs_from_lines. Qed.

(** ** Format conversion *)

Lemma convert_format_same text s : convert_format text s s = text.
Proof.
  unfold convert_format. now rewrite String.eqb_refl.
Qed.

(** C6.  Conversion from a style to the same style returns the text
    unchanged; so does [convert_section_format] whenever the schema gives
    the section the same style on the source and on the target platform. *)
Theorem convert_same_style_identity text s :
  convert_format text s s = text /\
  forall SCHEMA note_type section_name source_format target_format ts,
    type_schema_for SCHEMA note_type = Ok ts ->
    dict_get_default (source_format ++ "_format")%string
      (formats (dict_get_default section_name (sections_schema_of ts)
                  empty_section_schema)) "bullets" = s ->
    dict_get_default (target_format ++ "_format")%string
      (formats (dict_get_default section_name (sections_schema_of ts)
                  empty_section_schema)) "paragraphs" = s ->
    convert_section_format SCHEMA text note_type section_name
      source_format target_format = Ok text.
Proof.
  split; [apply convert_format_same|].
  intros SCHEMA note_type section_name source_format target_format ts
         Hts Hsource Htarget.
  unfold convert_section_format. rewrite Hts. cbn [bind].
  unfold sections_schema_of in Hsource, Htarget.
  now rewrite Hsource, Htarget, convert_format_same.
Qed.

Lemma convert_same_style_identity_witness :
  convert_format "- a
```
x
```" "bullets" "bullets" = "- a
```
x
```" /\
  convert_section_format
    (mk_schema (Some [("note", mk_type_schema (Some
       [("quotes", mk_section_schema (Some true) None None None
                     [("logseq_format", "blockquotes");
                      ("obsidian_format", "blockquotes")])]))]))
    "> said" "note" "quotes" "logseq" "obsidian" = Ok "> said".
Proof.
  destruct (convert_same_style_identity "- a
```
x
```" "bullets") as [Hsame _].
  destruct (convert_same_style_identity "> said" "blockquotes") as [_ Hsection].
  split; [exact Hsame|].
  apply Hsection with
    (ts := mk_type_schema (Some
       [("quotes", mk_section_schema (Some true) None None None
                     [("logseq_format", "blockquotes");
                      ("obsidian_format", "blockquotes")])]));
    reflexivity.
Defined.

Lemma lines_no_newline text : Forall no_newline (Py.lines text).
Proof. apply split_pieces. Qed.

Lemma flush_paragraph_one_line st :
  b2p_one_line st -> Forall no_newline (flush_paragraph st).
Proof.
  intros [Hp Hc]. unfold flush_paragraph.
  destruct (Py.nonempty (current_paragraph st)); [|assumption].
  apply Forall_app. split; [assumption|]. now constructor.
Qed.

Lemma b2p_step_one_line st l :
  no_newline l -> b2p_one_line st -> b2p_one_line (b2p_step st l).
Proof.
  intros Hl Hst. pose proof (flush_paragraph_one_line Hst) as Hf.
  destruct Hst as [Hp Hc]. unfold b2p_step, b2p_one_line.
  assert (Hpl : Forall no_newline (paragraphs st ++ [l]))
    by (apply Forall_app; split; [assumption|now constructor]).
  assert (Hfl : Forall no_newline (flush_paragraph st ++ [l]))
    by (apply Forall_app; split; [assumption|now constructor]).
  assert (Hclean : no_newline (Re.sub_bullet l)) by now apply contains_sub_bullet.
  repeat match goal with
         | |- context [if ?b then _ else _] => destruct b
         end; cbn [paragraphs current_paragraph]; split;
    try assumption; try reflexivity.
  unfold no_newline in *. rewrite !contains_append, Hc, Hclean. reflexivity.
Qed.

Lemma b2p_fold_one_line ls : forall st,
  Forall no_newline ls -> b2p_one_line st ->
  b2p_one_line (fold_left b2p_step ls st).
Proof.
  induction ls as [|l ls IH]; intros st Hls Hst; simpl; [assumption|].
  inversion Hls; subst. apply IH; [assumption|]. now apply b2p_step_one_line.
Qed.

Lemma b2p_paragraphs_one_line text : Forall no_newline (b2p_paragraphs text).
Proof.
  apply flush_paragraph_one_line, b2p_fold_one_line.
  - apply lines_no_newline.
  - split; [constructor|reflexivity].
Qed.

(** One step appends to [paragraphs]; what it appends holds the line when
    the line is a delimiter or lies inside a fence and is not blank. *)
Lemma b2p_step_region st l :
  in_code_block (b2p_step st l) = fenced_next (in_code_block st) l /\
  exists delta,
    paragraphs (b2p_step st l) = paragraphs st ++ delta /\
    Subseq (filter has_text (fenced_head (in_code_block st) l)) delta.
Proof.
  unfold b2p_step, fenced_next, fenced_head, has_text.
  destruct (is_blank l) eqn:Hb.
  - rewrite (blank_not_fence l Hb). simpl. split; [reflexivity|].
    unfold flush_paragraph.
    destruct (Py.nonempty (current_paragraph st)).
    + eexists; split; [reflexivity|].
      destruct (in_code_block st); simpl; rewrite ?Hb; constructor.
    + exists []. rewrite app_nil_r. split; [reflexivity|].
      destruct (in_code_block st); simpl; rewrite ?Hb; constructor.
  - destruct (is_fence l) eqn:Hf; simpl.
    + split; [reflexivity|]. eexists; split; [reflexivity|].
      rewrite Hb. apply Subseq_refl.
    + destruct (in_code_block st) eqn:Hc; simpl.
      * split; [reflexivity|]. eexists; split; [reflexivity|].
        rewrite Hb. apply Subseq_refl.
      * assert (Hflush : exists d, flush_paragraph st = paragraphs st ++ d).
        { unfold flush_paragraph.
          destruct (Py.nonempty (current_paragraph st));
            [eexists; reflexivity|exists []; now rewrite app_nil_r]. }
        destruct Hflush as [d Hd].
        repeat match goal with
               | |- context [if ?b then _ else _] => destruct b
               end; simpl; (split; [reflexivity|]);
          rewrite ?Hd, <- ?app_assoc;
          try (eexists; split; [reflexivity|constructor]);
          exists []; rewrite app_nil_r; split; try reflexivity; constructor.
Qed.

Lemma b2p_fold_region ls : forall st,
  exists extra,
    paragraphs (fold_left b2p_step ls st) = paragraphs st ++ extra /\
    Subseq (filter has_text (fenced_region (in_code_block st) ls)) extra.
Proof.
  induction ls as [|l ls IH]; intros st.
  - exists []. simpl. rewrite app_nil_r. split; [reflexivity|constructor].
  - destruct (b2p_step_region st l) as [Hnext [delta [Hd Hsub]]].
    destruct (IH (b2p_step st l)) as [extra [He Hsub']].
    exists (delta ++ extra). simpl fold_left. rewrite He, Hd, app_assoc.
    split; [reflexivity|].
    rewrite fenced_region_cons, filter_app, <- Hnext.
    now apply Subseq_app.
Qed.

Lemma b2p_paragraphs_region text :
  Subseq (filter has_text (fenced_region false (Py.lines text)))
         (b2p_paragraphs text).
Proof.
  unfold b2p_paragraphs.
  destruct (b2p_fold_region (Py.lines text) b2p_init) as [extra [He Hsub]].
  simpl in He, Hsub. unfold flush_paragraph. rewrite He.
  destruct (Py.nonempty _).
  - rewrite <- (app_nil_r (filter _ _)). apply Subseq_app; [assumption|constructor].
  - assumption.
Qed.

(** The paragraphs are lines of the text they are joined into. *)
Lemma join_blank_lines ps :
  Forall no_newline ps -> Subseq ps (Py.lines (Py.join blank_line ps)).
Proof.
  induction ps as [|p ps IH]; intros H; [constructor|].
  inversion H as [|? ? Hp Hps]; subst.
  destruct ps as [|q ps].
  - simpl. unfold Py.lines. rewrite (split_whole _ _ Hp). apply Subseq_refl.
  - change (Py.join blank_line (p :: q :: ps))
      with (p ++ String Py.newline (String Py.newline (Py.join blank_line (q :: ps))))%string.
    unfold Py.lines. rewrite (split_append _ _ _ Hp).
    constructor. rewrite split_leading_sep.
    constructor. now apply IH.
Qed.

Lemma contains_sub_quote c s :
  Py.contains c s = false -> Py.contains c (Re.sub_quote s) = false.
Proof.
  intros H. unfold Re.sub_quote. destruct s as [|d r]; [reflexivity|].
  destruct (Ascii.eqb d Re.quote_char); [|assumption].
  simpl in H. apply orb_false_iff in H as [_ Hr]. now apply contains_lstrip.
Qed.

(** A text rebuilt line by line has the rebuilt lines. *)
Lemma lines_unlines_map (f : string -> string) text :
  (forall l, no_newline l -> no_newline (f l)) ->
  Py.lines (Py.unlines (map f (Py.lines text))) = map f (Py.lines text).
Proof.
  intros Hf. rewrite lines_unlines.
  - destruct (lines_head text) as [w [ws ->]]. reflexivity.
  - apply Forall_map. eapply Forall_impl; [|apply lines_no_newline]. exact Hf.
Qed.

Lemma split_blank_from_not_nil s : forall cur m, Re.split_blank_from cur m s <> [].
Proof.
  induction s as [|c s IH]; intros cur m; simpl.
  - destruct m as [|ws [t|]]; discriminate.
  - destruct m as [|ws tail].
    + destruct (Ascii.eqb c Py.newline); apply IH.
    + destruct (Ascii.eqb c Py.newline); [apply IH|].
      destruct (Py.is_space c); [apply IH|].
      destruct tail; [discriminate|apply IH].
Qed.

Lemma p2b_paragraph_lines para :
  p2b_paragraph para <> [] /\
  Forall no_newline (p2b_paragraph para) /\
  Forall (fun l => marked_line l = true) (p2b_paragraph para).
Proof.
  unfold p2b_paragraph.
  pose proof (lines_no_newline (Py.strip para)) as Hnl.
  destruct (lines_head (Py.strip para)) as [first [rest Hl]]. rewrite Hl in *.
  inversion Hnl as [|? ? Hfirst Hrest]; subst.
  assert (Hpre : forall p r, no_newline p -> Forall no_newline r ->
                   Forall no_newline (map (fun line => (p ++ line)%string) r)).
  { intros p r Hp Hr. apply Forall_map. eapply Forall_impl; [|exact Hr].
    intros l Hline. unfold no_newline in *. now rewrite contains_append, Hp, Hline. }
  destruct (Re.match_heading first) eqn:Hh.
  - split; [discriminate|]. split.
    + constructor; [exact Hfirst|]. destruct rest as [|r rest].
      * constructor; [reflexivity|constructor].
      * now apply (Hpre "- ").
    + constructor; [unfold marked_line; now rewrite Hh|].
      destruct rest as [|r rest].
      * constructor; [reflexivity|constructor].
      * apply Forall_map, Forall_forall. intros l _.
        unfold marked_line. cbn. rewrite ?orb_true_r. reflexivity.
  - split; [discriminate|]. split.
    + constructor; [|now apply (Hpre "  ")].
      unfold no_newline in *. now rewrite contains_append, Hfirst.
    + constructor.
      * unfold marked_line. cbn. rewrite ?orb_true_r. reflexivity.
      * apply Forall_map, Forall_forall. intros l _.
        unfold marked_line. cbn. rewrite ?orb_true_r. reflexivity.
Qed.

Lemma p2b_lines text :
  Forall (fun l => marked_line l = true)
    (Py.lines (convert_paragraph_to_bullet text)).
Proof.
  unfold convert_paragraph_to_bullet.
  assert (H : forall paras, paras <> [] ->
            flat_map p2b_paragraph paras <> [] /\
            Forall no_newline (flat_map p2b_paragraph paras) /\
            Forall (fun l => marked_line l = true) (flat_map p2b_paragraph paras)).
  { induction paras as [|p paras IH]; intros Hne; [contradiction|].
    destruct (p2b_paragraph_lines p) as [Hp [Hnl Hm]]. cbn [flat_map].
    destruct paras as [|q paras].
    - simpl. rewrite app_nil_r. auto.
    - destruct IH as [_ [Hnl' Hm']]; [discriminate|].
      split; [|split; apply Forall_app; auto].
      destruct (p2b_paragraph p); [contradiction|discriminate]. }
  destruct (H (Re.split_blank text)) as [Hne [Hnl Hm]];
    [apply split_blank_from_not_nil|].
  rewrite (lines_unlines Hnl).
  destruct (flat_map p2b_paragraph (Re.split_blank text)); [contradiction|exact Hm].
Qed.

(** C3, as the code has it.  Between equal styles, and between paragraphs
    and blockquotes, the text comes back unchanged.  From bullets to
    paragraphs every line of a fenced region that is not blank, the
    delimiters included, is a line of the output, unchanged and in the
    original order.  The other conversions do not look at fences: between
    bullets and blockquotes every line, fenced or not, has its marker
    replaced, and from paragraphs to bullets every line of the output is a
    heading, a bullet or an indented continuation. *)
Theorem convert_keeps_fenced_lines text :
  (forall s, convert_format text s s = text) /\
  convert_format text "paragraphs" "blockquotes" = text /\
  convert_format text "blockquotes" "paragraphs" = text /\
  is_subseq (filter has_text (fenced_region false (Py.lines text)))
            (Py.lines (convert_format text "bullets" "paragraphs")) = true /\
  Py.lines (convert_format text "bullets" "blockquotes") =
    map (fun line => ("> " ++ Re.sub_bullet line)%string) (Py.lines text) /\
  Py.lines (convert_format text "blockquotes" "bullets") =
    map (fun line => ("- " ++ Re.sub_quote line)%string) (Py.lines text) /\
  Forall (fun line => marked_line line = true)
    (Py.lines (convert_format text "paragraphs" "bullets")).
Proof.
  split; [intro; apply convert_format_same|].
  split; [reflexivity|]. split; [reflexivity|].
  split; [|split; [|split]].
  - apply Subseq_is_subseq.
    change (convert_format text "bullets" "paragraphs")
      with (Py.join blank_line (b2p_paragraphs text)).
    eapply Subseq_trans.
    + apply b2p_paragraphs_region.
    + apply join_blank_lines, b2p_paragraphs_one_line.
  - apply (lines_unlines_map (fun line => ("> " ++ Re.sub_bullet line)%string)).
    intros l Hl. now apply contains_sub_bullet.
  - apply (lines_unlines_map (fun line => ("- " ++ Re.sub_quote line)%string)).
    intros l Hl. now apply contains_sub_quote.
  - apply p2b_lines.
Qed.

(** C3 fails as stated.  From paragraphs to bullets, and from bullets to
    blockquotes, the lines of a fenced region get a marker like any other
    line; from bullets to paragraphs three blank lines inside a fence come
    out as one. *)
Lemma fenced_lines_not_preserved :
  convert_format "```
code
```" "paragraphs" "bullets" = "- ```
  code
  ```" /\
  is_subseq (fenced_region false (Py.lines "```
code
```")) (Py.lines (convert_format "```
code
```" "paragraphs" "bullets")) = false /\
  convert_format "```
code
```" "bullets" "blockquotes" = "> ```
> code
> ```" /\
  is_subseq (fenced_region false (Py.lines "```
code
```")) (Py.lines (convert_format "```
code
```" "bullets" "blockquotes")) = false /\
  convert_format "```
a



b
```" "bullets" "paragraphs" = "```

a

b

```" /\
  is_subseq (fenced_region false (Py.lines "```
a



b
```")) (Py.lines (convert_format "```
a



b
```" "bullets" "paragraphs")) = false.
Proof. repeat split; vm_compute; reflexivity. Qed.

(** ** Section extraction *)

Lemma extract_fold_runs ls : forall st,
  flush_section (fold_left extract_step ls st) =
  fold_left put_run
    (runs_from (current_section st) (section_content st) ls) (sections st).
Proof.
  induction ls as [|l ls IH]; intros st.
  - simpl. unfold flush_section, put_run, has_lines. simpl.
    destruct (section_content st); reflexivity.
  - simpl. unfold extract_step at 2. destruct (Re.match_h2 l).
    + rewrite IH. simpl. unfold flush_section, put_run, has_lines. simpl.
      destruct (section_content st); reflexivity.
    + rewrite IH. reflexivity.
Qed.

Lemma extract_sections_runs body :
  extract_sections body = fold_left put_run (runs body) [].
Proof. apply extract_fold_runs. Qed.

Lemma put_runs_nodup rs : forall d,
  NoDup (dict_keys d) -> NoDup (dict_keys (fold_left put_run rs d)).
Proof.
  induction rs as [|r rs IH]; intros d Hd; simpl; [assumption|].
  apply IH. unfold put_run. destruct (has_lines r); [|assumption].
  now apply dict_keys_set_nodup.
Qed.

Lemma extract_sections_nodup body : NoDup (dict_keys (extract_sections body)).
Proof. rewrite extract_sections_runs. apply put_runs_nodup. constructor. Qed.

Lemma last_run_cons name r rs :
  last_run name (r :: rs) =
  match last_run name rs with
  | Some ls => Some ls
  | None => if String.eqb (fst r) name && has_lines r then Some (snd r) else None
  end.
Proof.
  unfold last_run. simpl filter.
  destruct (String.eqb (fst r) name && has_lines r).
  - simpl rev. destruct (rev (filter _ rs)); reflexivity.
  - destruct (rev (filter _ rs)); reflexivity.
Qed.

Lemma put_runs_get name rs : forall d,
  dict_get name (fold_left put_run rs d) =
  match last_run name rs with
  | Some ls => Some (section_text ls)
  | None => dict_get name d
  end.
Proof.
  induction rs as [|r rs IH]; intros d; [reflexivity|].
  simpl fold_left. rewrite IH, last_run_cons.
  destruct (last_run name rs); [reflexivity|].
  unfold put_run. destruct (has_lines r); [|now rewrite andb_false_r].
  rewrite andb_true_r, dict_get_set, String.eqb_sym.
  destruct (String.eqb (fst r) name); reflexivity.
Qed.

(** C10, as the code has it.  When two or more level-2 headings of a
    body share the slug [name]: if some run under that name gathered a
    line, the extracted mapping holds [name] exactly once, bound to the
    stripped text of the last such run, and no other text is stored under
    [name]; if no run under that name gathered a line, the mapping does not
    hold [name] at all.  For the name ["content"] the lead of the body
    counts as a run. *)
Theorem extract_sections_keeps_last body name :
  2 <= count_occ string_dec (heading_slugs body) name ->
  match last_run name (runs body) with
  | Some ls =>
      count_occ string_dec (dict_keys (extract_sections body)) name = 1 /\
      dict_get name (extract_sections body) = Some (section_text ls) /\
      (forall text, In (name, text) (extract_sections body) ->
         text = section_text ls)
  | None => ~ In name (dict_keys (extract_sections body))
  end.
Proof.
  intros _.
  pose proof (put_runs_get name (runs body) []) as Hget.
  rewrite <- extract_sections_runs in Hget.
  destruct (last_run name (runs body)) as [ls|].
  - pose proof (extract_sections_nodup body) as Hnd.
    split; [|split; [exact Hget|]].
    + assert (Hin : In name (dict_keys (extract_sections body))).
      { apply dict_get_some_in. rewrite Hget. discriminate. }
      apply (count_occ_In string_dec) in Hin.
      pose proof (proj1 (NoDup_count_occ string_dec _) Hnd name). lia.
    + intros text Hin. apply (dict_get_nodup _ _ _ Hnd) in Hin. congruence.
  - now apply dict_get_none_notin.
Qed.

Lemma extract_sections_keeps_last_witness :
  count_occ string_dec (dict_keys (extract_sections "## Plan
first draft
## Done
x
## plan
second draft
## PLAN")) "plan" = 1 /\
  dict_get "plan" (extract_sections "## Plan
first draft
## Done
x
## plan
second draft
## PLAN") = Some "second draft".
Proof.
  assert (Hdup : 2 <= count_occ string_dec (heading_slugs "## Plan
first draft
## Done
x
## plan
second draft
## PLAN") "plan") by (vm_compute; lia).
  pose proof (@extract_sections_keeps_last "## Plan
first draft
## Done
x
## plan
second draft
## PLAN" "plan" Hdup) as Hkeep.
  change (last_run "plan" (runs "## Plan
first draft
## Done
x
## plan
second draft
## PLAN")) with (Some ["second draft"]) in Hkeep.
  destruct Hkeep as [Hcount [Hget _]].
  split; [exact Hcount|exact Hget].
Defined.

(** C10 fails as stated.  Two headings of the same slug with no line under
    either leave no section at all: the slug occurs twice among the
    headings and not once in the result. *)
Lemma empty_duplicate_headings_leave_no_section :
  count_occ string_dec (heading_slugs "## A
## A") "a" = 2 /\
  extract_sections "## A
## A" = [] /\
  count_occ string_dec (dict_keys (extract_sections "## A
## A")) "a" = 0.
Proof. repeat split; reflexivity. Qed.

(** The earlier text is gone after reconstruction as well. *)
Example duplicate_heading_round_trip :
  reconstruct_content (extract_sections "## Plan
first draft
## plan
second draft") = "## Plan

second draft".
Proof. reflexivity. Qed.

(** *** Stripping twice *)

Lemma rstrip_idempotent s : Py.rstrip (Py.rstrip s) = Py.rstrip s.
Proof.
  induction s as [|c s IH]; [reflexivity|].
  simpl. destruct (Py.rstrip s) as [|d r] eqn:E.
  - destruct (Py.is_space c) eqn:Ec; [reflexivity|]. simpl. now rewrite Ec.
  - simpl. simpl in IH. destruct (Py.rstrip r) as [|d' r'] eqn:E'.
    + destruct (Py.is_space d); [discriminate|]. now rewrite IH.
    + now rewrite IH.
Qed.

Lemma lstrip_head s :
  match Py.lstrip s with
  | EmptyString => True
  | String c _ => Py.is_space c = false
  end.
Proof.
  induction s as [|c s IH]; simpl; [exact I|].
  destruct (Py.is_space c) eqn:E; [assumption|]. exact E.
Qed.

Lemma rstrip_head c s :
  Py.is_space c = false -> exists r, Py.rstrip (String c s) = String c r.
Proof.
  intros Hc. simpl. destruct (Py.rstrip s).
  - rewrite Hc. now exists EmptyString.
  - eexists; reflexivity.
Qed.

Lemma strip_idempotent s : Py.strip (Py.strip s) = Py.strip s.
Proof.
  unfold Py.strip. pose proof (lstrip_head s) as H.
  destruct (Py.lstrip s) as [|c t]; [reflexivity|].
  destruct (rstrip_head c t H) as [r Hr].
  assert (Hl : Py.lstrip (Py.rstrip (String c t)) = Py.rstrip (String c t)).
  { rewrite Hr. simpl. now rewrite H. }
  rewrite Hl. apply rstrip_idempotent.
Qed.

Lemma section_text_strip ls : Py.strip (section_text ls) = section_text ls.
Proof. apply strip_idempotent. Qed.


(** *** The round trip on bodies with distinct headings *)

Lemma runs_from_names ls : forall name acc,
  map fst (runs_from name acc ls) = name :: map slug (filter Re.match_h2 ls).
Proof.
  induction ls as [|l ls IH]; intros name acc; simpl; [reflexivity|].
  destruct (Re.match_h2 l); simpl; now rewrite IH.
Qed.

Lemma runs_from_head ls : forall name acc,
  exists acc' rest, runs_from name acc ls = (name, acc') :: rest.
Proof.
  induction ls as [|l ls IH]; intros name acc; simpl.
  - now exists acc, [].
  - destruct (Re.match_h2 l); [now exists acc, (runs_from (slug l) [] ls)|apply IH].
Qed.

Lemma NoDup_filter_names (rs : list (string * list string)) f :
  NoDup (map fst rs) -> NoDup (map fst (filter f rs)).
Proof.
  induction rs as [|r rs IH]; simpl; intros H; [constructor|].
  inversion H as [|? ? Hr Hrs]; subst.
  destruct (f r); simpl; [|auto]. constructor; [|auto].
  intro Hin. apply Hr. apply in_map_iff in Hin as [x [Hx Hin]].
  apply filter_In in Hin as [Hin _]. rewrite <- Hx. now apply in_map.
Qed.

(** Distinct names: every run with lines lands in the mapping, in order. *)
Lemma put_runs_distinct rs : forall d,
  NoDup (dict_keys d ++ map fst (filter has_lines rs)) ->
  fold_left put_run rs d = d ++ map run_entry (filter has_lines rs).
Proof.
  induction rs as [|r rs IH]; intros d Hnd; simpl.
  - now rewrite app_nil_r.
  - unfold put_run at 2. simpl in Hnd. destruct (has_lines r) eqn:Hr.
    + simpl in Hnd. rewrite dict_set_new.
      * rewrite IH.
        -- rewrite <- app_assoc. reflexivity.
        -- unfold dict_keys. rewrite map_app. simpl.
           rewrite <- app_assoc. exact Hnd.
      * apply NoDup_remove_2 in Hnd. intro Hin. apply Hnd.
        apply in_or_app. now left.
    + now apply IH.
Qed.

Lemma headed_run_kept r :
  fst r <> "content" ->
  kept_run r = Py.nonempty (section_text (snd r)) /\
  render_run r = render_heading (fst r) (section_text (snd r)).
Proof.
  intros H. apply String.eqb_neq in H. unfold kept_run, render_run.
  now rewrite H.
Qed.

Lemma headed_runs_no_lead rest :
  Forall (fun r => fst r <> "content") rest ->
  dict_get "content" (map run_entry (filter has_lines rest)) = None.
Proof.
  induction 1 as [|r rest Hr _ IH]; [reflexivity|].
  cbn [filter]. destruct (has_lines r); [|assumption].
  cbn [map dict_get run_entry fst].
  apply String.eqb_neq in Hr. rewrite String.eqb_sym in Hr. now rewrite Hr.
Qed.

Lemma headed_runs_rendered rest :
  Forall (fun r => fst r <> "content") rest ->
  map (fun kv => render_heading (fst kv) (snd kv))
    (filter (fun kv => negb (String.eqb (fst kv) "content")
                       && Py.nonempty (Py.strip (snd kv)))
       (map run_entry (filter has_lines rest))) =
  map render_run (filter kept_run rest).
Proof.
  induction 1 as [|r rest Hr _ IH]; [reflexivity|].
  destruct (headed_run_kept r Hr) as [Hk Hrender].
  cbn [filter]. rewrite Hk.
  destruct (has_lines r) eqn:Hl.
  - cbn [map filter run_entry fst snd].
    rewrite section_text_strip. apply String.eqb_neq in Hr. rewrite Hr.
    cbn [negb andb].
    destruct (Py.nonempty (section_text (snd r))); [|assumption].
    cbn [map fst snd]. now rewrite IH, Hrender.
  - unfold has_lines in Hl. destruct (snd r); [|discriminate].
    change (Py.nonempty (section_text [])) with false. cbv iota. assumption.
Qed.

Lemma reconstruct_runs acc rest :
  Forall (fun r => fst r <> "content") rest ->
  reconstruct_content (map run_entry (filter has_lines (("content", acc) :: rest))) =
  Py.join blank_line (map render_run (filter kept_run (("content", acc) :: rest))).
Proof.
  intros Hheaded. destruct acc as [|a acc].
  - change (filter has_lines (("content", []) :: rest)) with (filter has_lines rest).
    change (filter kept_run (("content", []) :: rest)) with (filter kept_run rest).
    unfold reconstruct_content.
    now rewrite (headed_runs_no_lead Hheaded), (headed_runs_rendered Hheaded).
  - change (filter has_lines (("content", a :: acc) :: rest))
      with (("content", a :: acc) :: filter has_lines rest).
    change (filter kept_run (("content", a :: acc) :: rest))
      with (("content", a :: acc) :: filter kept_run rest).
    unfold reconstruct_content.
    cbn [map run_entry fst snd dict_get filter].
    rewrite String.eqb_refl. cbn [negb andb].
    now rewrite (headed_runs_rendered Hheaded).
Qed.

(** C4, as the code has it.  When the slugs of the level-2 headings of a
    body are pairwise distinct and none of them is ["content"], extraction
    followed by reconstruction renders the runs of the body in their
    original order, joined by blank lines: the lead (if the body has a
    line before its first heading) as its stripped text, and each headed
    run whose stripped text is not empty under its rebuilt heading.  The
    runs hold every line of the body that is not a level-2 heading, and
    their lines come out in order and unchanged, but for the blank lines
    at either end of a run and the outer whitespace of its first and last
    line. *)
Theorem round_trip_distinct_headings body :
  NoDup ("content" :: heading_slugs body) ->
  reconstruct_content (extract_sections body) =
    Py.join blank_line (map render_run (filter kept_run (runs body))) /\
  flat_map snd (runs body) = body_lines body /\
  is_subseq (flat_map (fun r => trim_lines (snd r)) (runs body))
            (Py.lines (reconstruct_content (extract_sections body))) = true.
Proof.
  intros Hnd.
  assert (Hout : reconstruct_content (extract_sections body) =
                 Py.join blank_line (map render_run (filter kept_run (runs body)))).
  { assert (Hnames : map fst (runs body) = "content" :: heading_slugs body)
      by apply runs_from_names.
    rewrite extract_sections_runs, put_runs_distinct
      by (simpl; apply NoDup_filter_names; now rewrite Hnames).
    cbn [app].
    destruct (runs_from_head (Py.lines body) "content" []) as [acc [rest Hrs]].
    unfold runs in *. rewrite Hrs in *. cbn [map fst] in Hnames.
    injection Hnames as Hrest.
    apply reconstruct_runs.
    apply Forall_forall. intros r Hin Heq.
    inversion Hnd as [|? ? Hnotin _]; subst. apply Hnotin.
    rewrite <- Hrest, <- Heq. now apply in_map. }
  split; [exact Hout|]. split; [apply runs_body_lines|].
  rewrite Hout. apply Subseq_is_subseq.
  eapply Subseq_trans; [|apply lines_join_blank].
  apply kept_runs_lines, runs_from_one_line; [constructor|apply lines_no_newline].
Qed.

Lemma round_trip_distinct_headings_witness :
  reconstruct_content (extract_sections "intro

## Reading List
- alpha
  - detail
## Empty
## notes
  first
last  ") = "intro

## Reading List

- alpha
  - detail

## Notes

first
last" /\
  is_subseq ["intro"; "- alpha"; "  - detail"; "first"; "last"]
    (Py.lines (reconstruct_content (extract_sections "intro

## Reading List
- alpha
  - detail
## Empty
## notes
  first
last  "))) = true.
Proof.
  destruct (@round_trip_distinct_headings "intro

## Reading List
- alpha
  - detail
## Empty
## notes
  first
last  ") as [Hout [_ Hlines]].
  - vm_compute.
    repeat (constructor; [simpl; intuition discriminate|]). constructor.
  - split; [rewrite Hout; reflexivity|exact Hlines].
Defined.

(** C4 fails as stated.  A second heading with the slug of an earlier one
    drops the earlier text; a heading that normalises to ["content"] is
    moved to the front and loses its heading line. *)
Lemma round_trip_loses_and_reorders :
  reconstruct_content (extract_sections "## Plan
first draft
## plan
second draft") = "## Plan

second draft" /\
  is_subseq (body_lines "## Plan
first draft
## plan
second draft") (Py.lines (reconstruct_content (extract_sections "## Plan
first draft
## plan
second draft"))) = false /\
  reconstruct_content (extract_sections "## Alpha
x
## Content
y") = "y

## Alpha

x" /\
  is_subseq (body_lines "## Alpha
x
## Content
y") (Py.lines (reconstruct_content (extract_sections "## Alpha
x
## Content
y"))) = false.
Proof. repeat split; vm_compute; reflexivity. Qed.

(** ** Frontmatter merging *)

Section FrontmatterFacts.

Variable today : string.

Lemma mem_str_in k l : mem_str k l = true <-> In k l.
Proof.
  unfold mem_str. rewrite existsb_exists. split.
  - intros [x [Hin Heq]]. apply String.eqb_eq in Heq. now subst.
  - intros Hin. exists k. split; [assumption|apply String.eqb_refl].
Qed.

(** After the first loop. *)
Lemma copy_source_get required target k source : forall merged,
  NoDup (dict_keys source) ->
  dict_get k (fold_left (copy_source_key required target) source merged) =
  match dict_get k source with
  | Some v =>
      if mem_str k required && dict_mem k target
      then dict_get k merged else Some v
  | None => dict_get k merged
  end.
Proof.
  induction source as [|[k0 v0] source IH]; intros merged Hnd; [reflexivity|].
  inversion Hnd as [|? ? Hnotin Hnd']; subst.
  cbn [fold_left dict_get]. rewrite (IH _ Hnd').
  unfold copy_source_key. cbn [fst snd].
  destruct (String.eqb k k0) eqn:E.
  - apply String.eqb_eq in E; subst k0.
    apply dict_get_none_notin in Hnotin. rewrite Hnotin.
    destruct (mem_str k required && dict_mem k target); [reflexivity|].
    apply dict_get_set_same.
  - apply String.eqb_neq in E.
    destruct (mem_str k0 required && dict_mem k0 target);
      [reflexivity|now rewrite (dict_get_set_other _ _ E)].
Qed.

(** After the second loop. *)
Lemma ensure_required_get source note_type file_path k required : forall merged,
  dict_get k (fold_left (ensure_required today source note_type file_path)
                required merged) =
  match dict_get k merged with
  | Some v => Some v
  | None =>
      if mem_str k required
      then Some (default_value today source note_type file_path k)
      else None
  end.
Proof.
  induction required as [|key required IH]; intros merged; cbn [fold_left].
  - simpl. destruct (dict_get k merged); reflexivity.
  - rewrite IH. unfold ensure_required. unfold dict_mem.
    destruct (dict_get key merged) as [w|] eqn:Hkey.
    + destruct (dict_get k merged) as [v|] eqn:Hk; [reflexivity|].
      cbn [mem_str existsb].
      destruct (String.eqb k key) eqn:E; [|reflexivity].
      apply String.eqb_eq in E; congruence.
    + rewrite dict_get_set. cbn [mem_str existsb].
      destruct (String.eqb k key) eqn:E.
      * apply String.eqb_eq in E; subst. now rewrite Hkey.
      * reflexivity.
Qed.

(** The closing special case never fires: the second loop has put
    [categories] in place for Quarto, and the other platforms skip it. *)
Lemma quarto_categories_idle source platform required merged :
  required_yaml platform = Ok required ->
  (forall k, In k required -> dict_mem k merged = true) ->
  quarto_categories source platform merged = merged.
Proof.
  intros Hreq Hall. unfold quarto_categories.
  destruct (dict_get "tags" source); [|reflexivity].
  destruct (String.eqb platform "quarto") eqn:E; [|reflexivity].
  apply String.eqb_eq in E; subst. injection Hreq as <-.
  rewrite Hall; [reflexivity|]. simpl; tauto.
Qed.

(** The value of every key of the merge. *)
Lemma merge_frontmatter_get source target platform file_path note_type required :
  NoDup (dict_keys source) ->
  detected_type source = Ok note_type ->
  required_yaml platform = Ok required ->
  exists merged,
    merge_frontmatter today source target platform file_path = Ok merged /\
    forall k,
      dict_get k merged =
      match dict_get k source, dict_get k target with
      | Some v, Some w => if mem_str k required then Some w else Some v
      | Some v, None => Some v
      | None, Some w => Some w
      | None, None =>
          if mem_str k required
          then Some (default_value today source note_type file_path k)
          else None
      end.
Proof.
  intros Hnd Htype Hreq. unfold merge_frontmatter. rewrite Htype, Hreq.
  cbn [bind]. eexists. split; [reflexivity|].
  assert (Hget : forall k,
    dict_get k (fold_left (ensure_required today source note_type file_path)
                  required
                  (fold_left (copy_source_key required target) source target)) =
    match dict_get k source, dict_get k target with
    | Some v, Some w => if mem_str k required then Some w else Some v
    | Some v, None => Some v
    | None, Some w => Some w
    | None, None =>
        if mem_str k required
        then Some (default_value today source note_type file_path k)
        else None
    end).
  { intros k. rewrite ensure_required_get, (copy_source_get _ _ _ _ _ Hnd).
    unfold dict_mem.
    destruct (dict_get k source), (dict_get k target), (mem_str k required);
      reflexivity. }
  rewrite (@quarto_categories_idle source platform required _ Hreq); [exact Hget|].
  intros k Hin. unfold dict_mem. rewrite Hget.
  apply mem_str_in in Hin. rewrite Hin.
  destruct (dict_get k source), (dict_get k target); reflexivity.
Qed.

End FrontmatterFacts.

(** C5, as the code has it.  For a source whose [type], if any, is a
    string, and a platform of the configuration: the merge answers; a key
    only the target has keeps the target's value; a source key overwrites, except that a
    required key the target already has keeps the target's value; every
    required key is present; no key comes from anywhere else; and a
    required key that neither side has gets its default: the title-cased
    stem of the file for [title] (the empty string when no usable file path
    is given), the current date for [date] and [created], ["html"] for
    [format], the detected type for [type], the source's other key of the
    pair [tags]/[categories] when present and the empty sequence when not,
    the empty string for any other key. *)
Theorem merge_frontmatter_contract today source target platform file_path
    note_type required :
  NoDup (dict_keys source) ->
  detected_type source = Ok note_type ->
  required_yaml platform = Ok required ->
  exists merged,
    merge_frontmatter today source target platform file_path = Ok merged /\
    (forall k w, dict_get k source = None -> dict_get k target = Some w ->
       dict_get k merged = Some w) /\
    (forall k v, dict_get k source = Some v ->
       ~ (In k required /\ dict_mem k target = true) ->
       dict_get k merged = Some v) /\
    (forall k v w, dict_get k source = Some v -> In k required ->
       dict_get k target = Some w -> dict_get k merged = Some w) /\
    (forall k, In k required -> dict_mem k merged = true) /\
    (forall k, dict_mem k merged = true ->
       dict_mem k source = true \/ dict_mem k target = true \/ In k required) /\
    (forall k, In k required ->
       dict_get k source = None -> dict_get k target = None ->
       (k = "title" -> forall stem, usable_stem file_path = Some stem ->
          dict_get k merged = Some (VStr (title_of_stem stem))) /\
       (k = "title" -> usable_stem file_path = None ->
          dict_get k merged = Some (VStr "")) /\
       (k = "date" \/ k = "created" -> dict_get k merged = Some (VStr today)) /\
       (k = "format" -> dict_get k merged = Some (VStr "html")) /\
       (k = "type" -> dict_get k merged = Some (VStr note_type)) /\
       (k = "tags" ->
          dict_get k merged =
          Some (field (dict_get "categories" source) (VList []))) /\
       (k = "categories" ->
          dict_get k merged =
          Some (field (dict_get "tags" source) (VList []))) /\
       (~ In k ["title"; "date"; "created"; "format"; "type"; "tags"; "categories"] ->
          dict_get k merged = Some (VStr ""))).
Proof.
  intros Hnd Htype Hreq.
  destruct (@merge_frontmatter_get today source target platform file_path
              note_type required Hnd Htype Hreq) as [merged [Hrun Hget]].
  exists merged. split; [exact Hrun|].
  split; [|split; [|split; [|split; [|split]]]].
  - intros k w Hs Ht. now rewrite Hget, Hs, Ht.
  - intros k v Hs Hno. rewrite Hget, Hs.
    destruct (dict_get k target) as [w|] eqn:Ht; [|reflexivity].
    destruct (mem_str k required) eqn:Hm; [|reflexivity].
    exfalso. apply Hno. split; [now apply mem_str_in|].
    unfold dict_mem. now rewrite Ht.
  - intros k v w Hs Hin Ht. rewrite Hget, Hs, Ht.
    apply mem_str_in in Hin. now rewrite Hin.
  - intros k Hin. unfold dict_mem. rewrite Hget.
    apply mem_str_in in Hin. rewrite Hin.
    destruct (dict_get k source), (dict_get k target); reflexivity.
  - intros k. unfold dict_mem. rewrite Hget.
    destruct (dict_get k source), (dict_get k target); auto.
    destruct (mem_str k required) eqn:Hm; [|discriminate].
    intros _. right. right. now apply mem_str_in.
  - intros k Hin Hs Ht.
    assert (Hk : dict_get k merged =
                 Some (default_value today source note_type file_path k)).
    { rewrite Hget, Hs, Ht. apply mem_str_in in Hin. now rewrite Hin. }
    rewrite Hk. unfold default_value.
    repeat split.
    + intros -> stem Hstem. cbn [String.eqb Ascii.eqb Bool.eqb]. now rewrite Hstem.
    + intros -> Hstem. cbn [String.eqb Ascii.eqb Bool.eqb]. now rewrite Hstem.
    + intros [-> | ->]; reflexivity.
    + intros ->; reflexivity.
    + intros ->; reflexivity.
    + intros ->. cbn. now destruct (dict_get "categories" source).
    + intros ->. cbn. now destruct (dict_get "tags" source).
    + intros Hother.
      assert (Hne : forall x, In x ["title"; "date"; "created"; "format";
                                    "type"; "tags"; "categories"] ->
                              String.eqb k x = false).
      { intros x Hx. apply String.eqb_neq. intros ->. contradiction. }
      rewrite !Hne by (simpl; tauto). reflexivity.
Qed.

Example title_from_file_name :
  usable_stem (Some "obsidian/Notes/my-note.md") = Some "my-note" /\
  title_of_stem "my-note" = "My Note".
Proof. split; reflexivity. Qed.

Lemma merge_frontmatter_contract_witness :
  exists merged,
    merge_frontmatter sample_today
      [("tags", VList [VStr "a"; VStr "b"]); ("date", VStr "2020-01-01");
       ("author", VStr "me")]
      [("date", VStr "2019-05-05"); ("draft", VBool true)]
      "quarto" (Some "quarto/posts/my-note.md") = Ok merged /\
    dict_get "title" merged = Some (VStr "My Note") /\
    dict_get "date" merged = Some (VStr "2019-05-05") /\
    dict_get "author" merged = Some (VStr "me") /\
    dict_get "draft" merged = Some (VBool true) /\
    dict_get "format" merged = Some (VStr "html") /\
    dict_get "categories" merged = Some (VList [VStr "a"; VStr "b"]).
Proof.
  destruct (@merge_frontmatter_contract sample_today
              [("tags", VList [VStr "a"; VStr "b"]); ("date", VStr "2020-01-01");
               ("author", VStr "me")]
              [("date", VStr "2019-05-05"); ("draft", VBool true)]
              "quarto" (Some "quarto/posts/my-note.md") "note"
              ["title"; "format"; "date"; "categories"])
    as [merged [Hrun [Htarget [Hsource [Hkeep [_ [_ Hdefault]]]]]]].
  - repeat (constructor; [simpl; intuition discriminate|]). constructor.
  - reflexivity.
  - reflexivity.
  - exists merged. split; [exact Hrun|].
    split; [|split; [|split; [|split; [|split]]]].
    + destruct (Hdefault "title") as [Htitle _]; try reflexivity; [simpl; tauto|].
      exact (Htitle eq_refl "my-note" eq_refl).
    + apply Hkeep with (v := VStr "2020-01-01"); [reflexivity|simpl; tauto|reflexivity].
    + apply Hsource; [reflexivity|]. intros [_ H]. discriminate H.
    + apply Htarget; reflexivity.
    + destruct (Hdefault "format") as [_ [_ [_ [Hformat _]]]];
        try reflexivity; [simpl; tauto|]. exact (Hformat eq_refl).
    + destruct (Hdefault "categories") as [_ [_ [_ [_ [_ [_ [Hcat _]]]]]]];
        try reflexivity; [simpl; tauto|]. exact (Hcat eq_refl).
Defined.

(** C5 fails as stated, for every source metadata mapping.  A source
    whose [type] is not a string, a number or the null of a [type:] line
    without a value, raises [AttributeError] at [.lower()], before anything
    is merged. *)
Lemma merge_raises_on_non_string_type :
  merge_frontmatter sample_today
    [("title", VStr "Fungi"); ("type", VInt 3)] [("title", VStr "Old")]
    "obsidian" (Some "obsidian/Notes/fungi.md") = Raise AttributeError /\
  merge_frontmatter sample_today
    [("type", VNone)] [] "logseq" (Some "logseq/pages/fungi.md")
  = Raise AttributeError.
Proof. split; reflexivity. Qed.

(** C7, as the code has it.  Merging toward Quarto, a [categories] that
    already exists, in the target or else in the source, keeps its value,
    set or unset; [categories] is taken from the source [tags] only when
    neither side has it, and is the empty sequence when there are no
    [tags] either. *)
Theorem quarto_categories_kept_when_present today source target file_path
    note_type :
  NoDup (dict_keys source) ->
  detected_type source = Ok note_type ->
  exists merged,
    merge_frontmatter today source target "quarto" file_path = Ok merged /\
    (forall v, existing "categories" source target = Some v ->
       dict_get "categories" merged = Some v) /\
    (existing "categories" source target = None ->
       dict_get "categories" merged =
       Some (field (dict_get "tags" source) (VList []))).
Proof.
  intros Hnd Htype.
  destruct (@merge_frontmatter_get today source target "quarto" file_path
              note_type ["title"; "format"; "date"; "categories"]
              Hnd Htype eq_refl) as [merged [Hrun Hget]].
  exists merged. split; [exact Hrun|].
  specialize (Hget "categories"). unfold existing.
  change (mem_str "categories" ["title"; "format"; "date"; "categories"])
    with true in Hget.
  split.
  - intros v Hv. rewrite Hget.
    destruct (dict_get "categories" target) as [w|];
      [destruct (dict_get "categories" source); exact Hv|].
    now rewrite Hv.
  - intros Hnone. rewrite Hget.
    destruct (dict_get "categories" target); [discriminate|].
    rewrite Hnone. unfold default_value. cbn.
    now destruct (dict_get "tags" source).
Qed.

Lemma quarto_categories_kept_when_present_witness :
  exists merged,
    merge_frontmatter sample_today [("tags", VList [VStr "a"; VStr "b"])] []
      "quarto" (Some "quarto/posts/my-note.md") = Ok merged /\
    dict_get "categories" merged = Some (VList [VStr "a"; VStr "b"]).
Proof.
  destruct (@quarto_categories_kept_when_present sample_today
              [("tags", VList [VStr "a"; VStr "b"])] []
              (Some "quarto/posts/my-note.md") "note")
    as [merged [Hrun [_ Habsent]]].
  - repeat (constructor; [simpl; intuition discriminate|]). constructor.
  - reflexivity.
  - exists merged. split; [exact Hrun|]. exact (Habsent eq_refl).
Defined.

(** C7 fails as stated.  With [tags: [a, b]] in the source, a [categories]
    that exists with an unset value, an empty sequence in the target or a
    null in the source, stays as it is. *)
Lemma unset_categories_not_backfilled :
  truthy (VList []) = false /\
  merge_frontmatter sample_today
    [("tags", VList [VStr "a"; VStr "b"])] [("categories", VList [])]
    "quarto" (Some "quarto/posts/my-note.md") =
  Ok [("categories", VList []); ("tags", VList [VStr "a"; VStr "b"]);
      ("title", VStr "My Note"); ("format", VStr "html");
      ("date", VStr sample_today)] /\
  truthy VNone = false /\
  merge_frontmatter sample_today
    [("tags", VList [VStr "a"; VStr "b"]); ("categories", VNone)] []
    "quarto" (Some "quarto/posts/my-note.md") =
  Ok [("tags", VList [VStr "a"; VStr "b"]); ("categories", VNone);
      ("title", VStr "My Note"); ("format", VStr "html");
      ("date", VStr sample_today)].
Proof. repeat split; reflexivity. Qed.

(** ** Frontmatter transformation *)

Lemma startswith_append p s : Py.startswith p (p ++ s)%string = true.
Proof.
  induction p as [|c p IH]; simpl; [reflexivity|].
  now rewrite Ascii.eqb_refl.
Qed.

Lemma substring_whole s : substring 0 (String.length s) s = s.
Proof. induction s as [|c s IH]; simpl; [reflexivity|now rewrite IH]. Qed.

Lemma substring_skip p s n :
  substring (String.length p) n (p ++ s)%string = substring 0 n s.
Proof. induction p as [|c p IH]; simpl; [reflexivity|assumption]. Qed.

Lemma append_length a b :
  String.length (a ++ b)%string = String.length a + String.length b.
Proof. induction a as [|c a IH]; simpl; [reflexivity|now rewrite IH]. Qed.

Lemma splits_at_unfold sep k :
  splits_at sep k =
  (if Py.startswith sep k
   then [(EmptyString, substring (String.length sep)
                         (String.length k - String.length sep) k)]
   else [])
  ++ match k with
     | EmptyString => []
     | String c k' => map (fun ab => (String c (fst ab), snd ab)) (splits_at sep k')
     end.
Proof. destruct k; reflexivity. Qed.

(** Every way to cut [k] around [sep] is listed by [splits_at]. *)
Lemma splits_at_complete sep s : forall k t,
  (s ++ sep ++ t)%string = k -> In (s, t) (splits_at sep k).
Proof.
  induction s as [|c s IH]; intros k t H; subst k; rewrite splits_at_unfold;
    apply in_or_app.
  - left. cbn [append]. rewrite startswith_append. left.
    rewrite substring_skip, append_length.
    replace (String.length sep + String.length t - String.length sep)
      with (String.length t) by lia.
    now rewrite substring_whole.
  - right. cbn [append].
    apply in_map_iff. exists (s, t). split; [reflexivity|]. now apply IH.
Qed.

Section TransformerFacts.

Variable today : string.

(** A key of the table names exactly one pair of platforms. *)
Lemma transform_key_defined source_platform target_platform :
  dict_mem (transform_key source_platform target_platform)
    (TRANSFORMATIONS today) = true <->
  In (source_platform, target_platform) defined_pairs.
Proof.
  split.
  - intros H. apply dict_mem_in in H. cbn [TRANSFORMATIONS dict_keys map fst] in H.
    unfold transform_key in H.
    repeat (destruct H as [H|H];
            [symmetry in H; apply splits_at_complete in H; vm_compute in H;
             destruct H as [H|[]]; injection H as <- <-; simpl; tauto|]).
    destruct H.
  - intros H. simpl in H.
    repeat (destruct H as [H|H]; [injection H as <- <-; reflexivity|]).
    destruct H.
Qed.

Lemma call_with_meta_ok t x meta : exists r, call_with_meta t x meta = Ok r.
Proof. destruct t; eexists; reflexivity. Qed.

Lemma apply_transform_ok frontmatter transformed item :
  exists transformed',
    apply_transform frontmatter (Ok transformed) item = Ok transformed'.
Proof.
  unfold apply_transform. cbn [bind].
  destruct (dict_get (fst item) frontmatter) as [v|].
  - destruct (call_with_meta_ok (snd item) v frontmatter) as [r ->].
    eexists; reflexivity.
  - destruct (snd item); cbn; eexists; reflexivity.
Qed.

Lemma apply_transforms_ok frontmatter transformations : forall transformed,
  exists transformed',
    fold_left (apply_transform frontmatter) transformations (Ok transformed)
    = Ok transformed'.
Proof.
  induction transformations as [|item rest IH]; intros transformed; cbn [fold_left].
  - eexists; reflexivity.
  - destruct (apply_transform_ok frontmatter transformed item) as [m ->].
    apply IH.
Qed.

(** C8.  The transformation raises exactly when the pair of platforms is
    not one of the six pairs of the table, and what it raises is
    [ValueError]; on each of the six pairs it returns a mapping, whatever
    the frontmatter. *)
Theorem transform_frontmatter_raises_iff frontmatter source_platform
    target_platform :
  ((exists e, transform_frontmatter today frontmatter source_platform
                target_platform = Raise e) <->
   ~ In (source_platform, target_platform) defined_pairs) /\
  (~ In (source_platform, target_platform) defined_pairs ->
   transform_frontmatter today frontmatter source_platform target_platform
   = Raise ValueError) /\
  (In (source_platform, target_platform) defined_pairs ->
   exists transformed,
     transform_frontmatter today frontmatter source_platform target_platform
     = Ok transformed).
Proof.
  pose proof (transform_key_defined source_platform target_platform) as Hkey.
  unfold dict_mem in Hkey. unfold transform_frontmatter.
  destruct (dict_get (transform_key source_platform target_platform)
              (TRANSFORMATIONS today)) as [transformations|].
  - destruct (apply_transforms_ok frontmatter transformations []) as [m ->].
    cbn [bind]. assert (Hin := proj1 Hkey eq_refl).
    repeat split.
    + intros [e He]. discriminate He.
    + intros Hno. contradiction.
    + intros Hno. contradiction.
    + intros _. eexists; reflexivity.
  - assert (Hno : ~ In (source_platform, target_platform) defined_pairs).
    { intros Hin. apply Hkey in Hin. discriminate Hin. }
    repeat split.
    + intros _. exact Hno.
    + intros _. now exists ValueError.
    + intros Hin. contradiction.
Qed.

End TransformerFacts.

Lemma transform_frontmatter_raises_iff_witness :
  transform_frontmatter sample_today [("title", VStr "T")] "logseq" "logseq"
  = Raise ValueError /\
  exists transformed,
    transform_frontmatter sample_today [("title", VStr "T"); ("tags", VStr "a,b")]
      "logseq" "obsidian" = Ok transformed.
Proof.
  split.
  - apply (proj1 (proj2 (@transform_frontmatter_raises_iff sample_today
                           [("title", VStr "T")] "logseq" "logseq"))).
    simpl. intuition discriminate.
  - apply (proj2 (proj2 (@transform_frontmatter_raises_iff sample_today
                           [("title", VStr "T"); ("tags", VStr "a,b")]
                           "logseq" "obsidian"))).
    simpl. tauto.
Defined.

(** * Further properties *)

(** ** Frontmatter transformation, key by key *)

Section TransformLookup.

Variable today : string.

Lemma apply_transform_value frontmatter transformed item :
  apply_transform frontmatter (Ok transformed) item =
  Ok (store (fst item)
        (transformed_value (snd item) (dict_get (fst item) frontmatter)
           frontmatter)
        transformed).
Proof.
  unfold apply_transform, transformed_value. cbn [bind].
  destruct (dict_get (fst item) frontmatter) as [v|]; destruct (snd item);
    reflexivity.
Qed.

Lemma apply_transforms_value frontmatter transformations : forall transformed,
  fold_left (apply_transform frontmatter) transformations (Ok transformed) =
  Ok (fold_left
        (fun m item =>
           store (fst item)
             (transformed_value (snd item) (dict_get (fst item) frontmatter)
                frontmatter) m)
        transformations transformed).
Proof.
  induction transformations as [|item rest IH]; intros transformed;
    cbn [fold_left]; [reflexivity|].
  now rewrite apply_transform_value, IH.
Qed.

Lemma store_get k key r (m : metadata) :
  dict_get k (store key r m) =
  if String.eqb k key
  then match not_none r with Some v => Some v | None => dict_get k m end
  else dict_get k m.
Proof.
  unfold store, not_none. destruct (String.eqb k key) eqn:E.
  - apply String.eqb_eq in E; subst.
    destruct r; try apply dict_get_set_same; reflexivity.
  - apply String.eqb_neq in E.
    destruct r; try (now apply dict_get_set_other); reflexivity.
Qed.

Lemma stored_values_get frontmatter k transformations : forall m,
  NoDup (dict_keys transformations) ->
  dict_get k
    (fold_left
       (fun m item =>
          store (fst item)
            (transformed_value (snd item) (dict_get (fst item) frontmatter)
               frontmatter) m)
       transformations m) =
  match dict_get k transformations with
  | Some t =>
      match not_none (transformed_value t (dict_get k frontmatter) frontmatter) with
      | Some v => Some v
      | None => dict_get k m
      end
  | None => dict_get k m
  end.
Proof.
  induction transformations as [|[k0 t0] rest IH]; intros m Hnd; [reflexivity|].
  inversion Hnd as [|? ? Hnotin Hnd']; subst.
  cbn [fold_left dict_get fst snd]. rewrite (IH _ Hnd'), store_get.
  destruct (String.eqb k k0) eqn:E.
  - apply String.eqb_eq in E; subst k0.
    apply dict_get_none_notin in Hnotin. now rewrite Hnotin.
  - reflexivity.
Qed.

Lemma copy_others_get transformations k frontmatter : forall transformed,
  dict_get k (fold_left (copy_other transformations) frontmatter transformed) =
  match dict_get k transformed with
  | Some v => Some v
  | None => if dict_mem k transformations then None else dict_get k frontmatter
  end.
Proof.
  induction frontmatter as [|[k0 v0] rest IH]; intros transformed;
    cbn [fold_left dict_get].
  - destruct (dict_get k transformed); [reflexivity|].
    now destruct (dict_mem k transformations).
  - rewrite IH. unfold copy_other. cbn [fst snd].
    destruct (String.eqb k k0) eqn:E.
    + apply String.eqb_eq in E; subst k0. unfold dict_mem at 1 2.
      destruct (dict_get k transformations) as [t|] eqn:Ht; cbn [negb andb].
      * unfold dict_mem. rewrite Ht. reflexivity.
      * destruct (dict_get k transformed) as [v|] eqn:Hv; cbn [negb].
        -- now rewrite Hv.
        -- rewrite dict_get_set_same. unfold dict_mem. now rewrite Ht.
    + apply String.eqb_neq in E.
      destruct (negb (dict_mem k0 transformations) && negb (dict_mem k0 transformed));
        [now rewrite (dict_get_set_other _ _ E)|reflexivity].
Qed.

Lemma transformations_nodup key transformations :
  dict_get key (TRANSFORMATIONS today) = Some transformations ->
  NoDup (dict_keys transformations).
Proof.
  unfold TRANSFORMATIONS. cbn [dict_get].
  repeat (destruct (String.eqb key _);
          [intros [= <-]; cbn;
           repeat (constructor; [simpl; intuition discriminate|]); constructor|]).
  discriminate.
Qed.

(** The value of every key of the result, for a pair of the table. *)
Lemma transform_frontmatter_get frontmatter source_platform target_platform
    transformations :
  dict_get (transform_key source_platform target_platform)
    (TRANSFORMATIONS today) = Some transformations ->
  exists transformed,
    transform_frontmatter today frontmatter source_platform target_platform
      = Ok transformed /\
    forall k,
      dict_get k transformed =
      match dict_get k transformations with
      | Some t =>
          not_none (transformed_value t (dict_get k frontmatter) frontmatter)
      | None => dict_get k frontmatter
      end.
Proof.
  intros Htable. unfold transform_frontmatter. rewrite Htable.
  rewrite apply_transforms_value. cbn [bind]. eexists. split; [reflexivity|].
  intros k. rewrite copy_others_get, stored_values_get
    by (now apply transformations_nodup with (key := transform_key source_platform target_platform)).
  unfold dict_mem.
  destruct (dict_get k transformations) as [t|]; [|reflexivity].
  cbn [dict_get].
  now destruct (not_none (transformed_value t (dict_get k frontmatter) frontmatter)).
Qed.

End TransformLookup.

(** Run the transformation of the goal, leaving its result [r] and the
    value of each of its keys. *)
Ltac destruct_transform today frontmatter r Hrun Hget :=
  match goal with
  | |- exists _, transform_frontmatter _ _ ?s ?t = _ /\ _ =>
      destruct (transform_frontmatter_get today frontmatter s t eq_refl)
        as [r [Hrun Hget]]
  end.

(** X1.  Under each of the six pairs, a key other than [title], [type],
    [tags], [created], [format], [date] and [categories] passes through
    with its value unchanged, and a key the frontmatter lacks is not
    added. *)
Theorem transform_passes_other_keys today frontmatter source_platform
    target_platform k :
  In (source_platform, target_platform) defined_pairs ->
  ~ In k ["title"; "type"; "tags"; "created"; "format"; "date"; "categories"] ->
  exists transformed,
    transform_frontmatter today frontmatter source_platform target_platform
      = Ok transformed /\
    dict_get k transformed = dict_get k frontmatter.
Proof.
  intros Hpair Hk.
  assert (Hne : forall x, In x ["title"; "type"; "tags"; "created"; "format";
                                "date"; "categories"] ->
                          String.eqb k x = false).
  { intros x Hx. apply String.eqb_neq. intros ->. contradiction. }
  simpl in Hpair.
  repeat (destruct Hpair as [Hpair|Hpair];
    [injection Hpair as <- <-;
     destruct_transform today frontmatter r Hrun Hget;
     exists r; split; [exact Hrun|];
     rewrite Hget; cbn [dict_get]; rewrite !Hne by (simpl; tauto); reflexivity|]).
  destruct Hpair.
Qed.

Lemma transform_passes_other_keys_witness :
  exists transformed,
    transform_frontmatter sample_today
      [("title", VStr "T"); ("author", VStr "me"); ("draft", VNone)]
      "obsidian" "quarto" = Ok transformed /\
    dict_get "author" transformed = Some (VStr "me") /\
    dict_get "draft" transformed = Some VNone.
Proof.
  destruct (@transform_passes_other_keys sample_today
              [("title", VStr "T"); ("author", VStr "me"); ("draft", VNone)]
              "obsidian" "quarto" "author") as [r [Hrun Hauthor]];
    [simpl; tauto|simpl; intuition discriminate|].
  destruct (@transform_passes_other_keys sample_today
              [("title", VStr "T"); ("author", VStr "me"); ("draft", VNone)]
              "obsidian" "quarto" "draft") as [r' [Hrun' Hdraft]];
    [simpl; tauto|simpl; intuition discriminate|].
  exists r. split; [exact Hrun|]. split; [exact Hauthor|].
  rewrite Hrun in Hrun'. injection Hrun' as <-. exact Hdraft.
Defined.

(** X2.  From Obsidian to Quarto the [tags] are always removed, and they
    come back as [categories] only when the frontmatter already has a
    [categories] key; [date] is taken from [created] only when the
    frontmatter already has a [date] key.  The two-parameter lambdas are
    never called for a key that is missing. *)
Theorem obsidian_to_quarto_needs_existing_keys today frontmatter :
  exists transformed,
    transform_frontmatter today frontmatter "obsidian" "quarto" = Ok transformed /\
    dict_get "tags" transformed = None /\
    dict_get "created" transformed = None /\
    dict_get "categories" transformed =
      match dict_get "categories" frontmatter with
      | Some _ => not_none (dict_get_default "tags" frontmatter (VList []))
      | None => None
      end /\
    dict_get "date" transformed =
      match dict_get "date" frontmatter with
      | Some _ => not_none (dict_get_default "created" frontmatter (VStr today))
      | None => None
      end.
Proof.
  destruct (transform_frontmatter_get today frontmatter "obsidian" "quarto" eq_refl)
    as [r [Hrun Hget]].
  exists r. split; [exact Hrun|]. rewrite !Hget. cbn [dict_get String.eqb Ascii.eqb Bool.eqb].
  unfold transformed_value, remove, from_meta.
  repeat split.
  - now destruct (dict_get "tags" frontmatter).
  - now destruct (dict_get "created" frontmatter).
  - now destruct (dict_get "categories" frontmatter).
  - now destruct (dict_get "date" frontmatter).
Qed.

(** X3.  Every pair keeps [title] as it is (a null title is dropped); a
    transformation toward Quarto always ends with [format: html], and one
    toward Logseq always ends with [type: note], whatever type the
    frontmatter had. *)
Theorem transform_fixed_fields today frontmatter source_platform target_platform :
  In (source_platform, target_platform) defined_pairs ->
  exists transformed,
    transform_frontmatter today frontmatter source_platform target_platform
      = Ok transformed /\
    dict_get "title" transformed =
      match dict_get "title" frontmatter with
      | Some v => not_none v
      | None => None
      end /\
    (target_platform = "quarto" ->
       dict_get "format" transformed = Some (VStr "html")) /\
    (target_platform = "logseq" ->
       dict_get "type" transformed = Some (VStr "note")).
Proof.
  intros Hpair. simpl in Hpair.
  repeat (destruct Hpair as [Hpair|Hpair];
    [injection Hpair as <- <-;
     destruct_transform today frontmatter r Hrun Hget;
     exists r; split; [exact Hrun|];
     rewrite !Hget; cbn [dict_get String.eqb Ascii.eqb Bool.eqb];
     unfold transformed_value, keep, const;
     repeat split; try discriminate;
     try (intros _);
     repeat match goal with
            | |- context [dict_get ?k frontmatter] =>
                destruct (dict_get k frontmatter)
            end; reflexivity|]).
  destruct Hpair.
Qed.

Lemma transform_fixed_fields_witness :
  exists transformed,
    transform_frontmatter sample_today
      [("title", VStr "Ada"); ("type", VStr "person"); ("tags", VStr "a,b")]
      "obsidian" "logseq" = Ok transformed /\
    dict_get "title" transformed = Some (VStr "Ada") /\
    dict_get "type" transformed = Some (VStr "note").
Proof.
  destruct (@transform_fixed_fields sample_today
              [("title", VStr "Ada"); ("type", VStr "person"); ("tags", VStr "a,b")]
              "obsidian" "logseq") as [r [Hrun [Htitle [_ Htype]]]];
    [simpl; tauto|].
  exists r. split; [exact Hrun|]. split; [exact Htitle|exact (Htype eq_refl)].
Defined.

(** ** The resolver and the section merge *)

Section MergeFacts.

Variable md5 : string -> string.
Variable ratio : string -> string -> Q.
Variable str_hash : string -> nat.
Variable SCHEMA : schema.

Lemma type_schema_for_ok note_type :
  has_note_type SCHEMA = true -> exists ts, type_schema_for SCHEMA note_type = Ok ts.
Proof.
  unfold has_note_type, type_schema_for, dict_mem, dict_getitem.
  destruct (note_types SCHEMA) as [types|]; [|discriminate].
  destruct (dict_get "note" types); [|discriminate].
  intros _. eexists. reflexivity.
Qed.

Lemma type_schema_for_raises note_type :
  has_note_type SCHEMA = false -> type_schema_for SCHEMA note_type = Raise KeyError.
Proof.
  unfold has_note_type, type_schema_for, dict_mem, dict_getitem.
  destruct (note_types SCHEMA) as [types|]; [|reflexivity].
  destruct (dict_get "note" types); [discriminate|reflexivity].
Qed.

(** X4.  The resolver and the format converter answer exactly when the
    schema has the type ["note"]: without it both raise [KeyError], also
    for a note type the schema does define, because the fallback is looked
    up before the requested type. *)
Theorem schema_must_define_note source target note_type text section_name
    source_platform target_platform :
  (has_note_type SCHEMA = true ->
     (exists dirs, determine_sync_direction md5 ratio str_hash SCHEMA source
                     target note_type = Ok dirs) /\
     (exists out, convert_section_format SCHEMA text note_type section_name
                    source_platform target_platform = Ok out)) /\
  (has_note_type SCHEMA = false ->
     determine_sync_direction md5 ratio str_hash SCHEMA source target note_type
       = Raise KeyError /\
     convert_section_format SCHEMA text note_type section_name
       source_platform target_platform = Raise KeyError).
Proof.
  unfold determine_sync_direction, convert_section_format. split; intros H.
  - destruct (type_schema_for_ok note_type H) as [ts ->]. cbn [bind].
    split; eexists; reflexivity.
  - rewrite (type_schema_for_raises note_type H). split; reflexivity.
Qed.

(** X5.  A section the schema does not let through gets its direction
    from the schema entry alone, whatever the two texts are:
    [target_only] when the entry is marked [obsidian_only], else
    [source_only] when it is marked [logseq_only], else [ignore]. *)
Theorem resolver_sync_disabled source target note_type ts name :
  type_schema_for SCHEMA note_type = Ok ts ->
  sync_enabled ts name = false ->
  In name (dict_keys source) \/ In name (dict_keys target) ->
  exists dirs,
    determine_sync_direction md5 ratio str_hash SCHEMA source target note_type
      = Ok dirs /\
    dict_get name dirs =
    Some (disabled_direction
            (dict_get_default name (sections_schema_of ts) default_section_schema)).
Proof.
  intros Hts Hsync Hin. eexists. split.
  - apply determine_sync_direction_ok with (ts := ts). exact Hts.
  - rewrite resolver_lookup.
    assert (Hm : dict_mem name source || dict_mem name target = true).
    { apply orb_true_iff. destruct Hin as [H|H]; [left|right]; now apply dict_mem_in. }
    rewrite Hm. unfold section_direction, disabled_direction.
    unfold sync_enabled in Hsync. rewrite Hsync. cbn [negb].
    destruct (field (obsidian_only _) false); [reflexivity|].
    destruct (field (logseq_only _) false); [reflexivity|].
    destruct (field (quarto_only _) false); reflexivity.
Qed.

(** X6.  Resolving a note against itself changes nothing: every section
    the schema lets through gets the direction [none]. *)
Theorem resolver_same_sections sections note_type ts name :
  type_schema_for SCHEMA note_type = Ok ts ->
  sync_enabled ts name = true ->
  In name (dict_keys sections) ->
  exists dirs,
    determine_sync_direction md5 ratio str_hash SCHEMA sections sections
      note_type = Ok dirs /\
    dict_get name dirs = Some none.
Proof.
  intros Hts Hsync Hin. eexists. split.
  - apply determine_sync_direction_ok with (ts := ts). exact Hts.
  - rewrite resolver_lookup, section_direction_enabled by assumption.
    pose proof Hin as Hm. apply dict_mem_in in Hm. rewrite Hm. cbn [orb].
    apply dict_get_some_in in Hin.
    destruct (dict_get name sections) as [text|]; [|congruence].
    now rewrite String.eqb_refl.
Qed.

Lemma convert_section_format_ok note_type ts text name sp tp :
  type_schema_for SCHEMA note_type = Ok ts ->
  convert_section_format SCHEMA text note_type name sp tp =
  Ok (convert_format text (declared_format ts name sp "bullets")
        (declared_format ts name tp "paragraphs")).
Proof. intros H. unfold convert_section_format. now rewrite H. Qed.

(** One pass of the merge loop, without the exception plumbing. *)
Lemma merge_step_ok source target note_type ts sp tp merged name d :
  type_schema_for SCHEMA note_type = Ok ts ->
  merge_step SCHEMA source target note_type sp tp (Ok merged) (name, d) =
  Ok (match merged_text ts source target sp tp name d with
      | Some text => dict_set name text merged
      | None => merged
      end).
Proof.
  intros Hts. unfold merge_step, merged_text, converted. cbn [bind fst snd].
  destruct d; try reflexivity.
  - now rewrite (@convert_section_format_ok note_type ts _ name sp tp Hts).
  - now destruct (dict_get name target).
Qed.

Lemma merge_sections_fold source target note_type ts sp tp dirs : forall merged,
  type_schema_for SCHEMA note_type = Ok ts ->
  fold_left (merge_step SCHEMA source target note_type sp tp) dirs (Ok merged) =
  Ok (fold_left
        (fun m item =>
           match merged_text ts source target sp tp (fst item) (snd item) with
           | Some text => dict_set (fst item) text m
           | None => m
           end)
        dirs merged).
Proof.
  induction dirs as [|[name d] dirs IH]; intros merged Hts; cbn [fold_left];
    [reflexivity|].
  now rewrite (@merge_step_ok source target note_type ts sp tp merged name d Hts), IH.
Qed.

Lemma merged_fold_get ts source target sp tp name dirs : forall merged,
  NoDup (dict_keys dirs) ->
  dict_get name
    (fold_left
       (fun m item =>
          match merged_text ts source target sp tp (fst item) (snd item) with
          | Some text => dict_set (fst item) text m
          | None => m
          end)
       dirs merged) =
  match dict_get name dirs with
  | Some d =>
      match merged_text ts source target sp tp name d with
      | Some text => Some text
      | None => dict_get name merged
      end
  | None => dict_get name merged
  end.
Proof.
  induction dirs as [|[k0 d0] dirs IH]; intros merged Hnd; [reflexivity|].
  inversion Hnd as [|? ? Hnotin Hnd']; subst.
  cbn [fold_left dict_get fst snd]. rewrite (IH _ Hnd').
  destruct (String.eqb name k0) eqn:E.
  - apply String.eqb_eq in E; subst k0.
    apply dict_get_none_notin in Hnotin. rewrite Hnotin.
    destruct (merged_text ts source target sp tp name d0); [|reflexivity].
    apply dict_get_set_same.
  - apply String.eqb_neq in E.
    destruct (merged_text ts source target sp tp k0 d0);
      [now rewrite (dict_get_set_other _ _ E)|reflexivity].
Qed.

(** The merge on any table of directions with distinct names. *)
Lemma merge_sections_get source target note_type ts sp tp dirs :
  type_schema_for SCHEMA note_type = Ok ts ->
  NoDup (dict_keys dirs) ->
  exists merged,
    merge_sections SCHEMA source target note_type dirs sp tp = Ok merged /\
    forall name,
      dict_get name merged =
      match dict_get name dirs with
      | Some d => merged_text ts source target sp tp name d
      | None => None
      end.
Proof.
  intros Hts Hnd. unfold merge_sections.
  eexists. split; [exact (@merge_sections_fold source target note_type ts sp tp dirs [] Hts)|].
  intros name. rewrite (@merged_fold_get ts source target sp tp name dirs [] Hnd).
  destruct (dict_get name dirs) as [d|]; [|reflexivity].
  now destruct (merged_text ts source target sp tp name d).
Qed.

(** The resolver followed by the merge, as [sync_file] runs them. *)
Lemma sync_sections_get source target note_type ts sp tp :
  type_schema_for SCHEMA note_type = Ok ts ->
  exists dirs merged,
    determine_sync_direction md5 ratio str_hash SCHEMA source target note_type
      = Ok dirs /\
    merge_sections SCHEMA source target note_type dirs sp tp = Ok merged /\
    forall name,
      dict_get name merged =
      if dict_mem name source || dict_mem name target
      then merged_text ts source target sp tp name
             (section_direction md5 ratio (sections_schema_of ts) source target name)
      else None.
Proof.
  intros Hts.
  destruct (@merge_sections_get source target note_type ts sp tp
              (fill (section_direction md5 ratio (sections_schema_of ts) source target)
                 (set_iter str_hash (dict_keys source ++ dict_keys target)) [])
              Hts) as [merged [Hrun Hget]]; [apply fill_nodup; constructor|].
  eexists. exists merged.
  split; [apply determine_sync_direction_ok with (ts := ts); exact Hts|].
  split; [exact Hrun|].
  intros name. rewrite Hget, resolver_lookup.
  now destruct (dict_mem name source || dict_mem name target).
Qed.

(** X7.  For a section the schema lets through, the merged note holds
    the target's text, untouched, when only the target has the section or
    when the two texts have equal hashes or a similarity above 0.9; it
    holds the source's text, converted to the target's style, when only the
    source has the section or the texts differ more. *)
Theorem merged_section_enabled source target note_type ts sp tp name :
  type_schema_for SCHEMA note_type = Ok ts ->
  sync_enabled ts name = true ->
  exists dirs merged,
    determine_sync_direction md5 ratio str_hash SCHEMA source target note_type
      = Ok dirs /\
    merge_sections SCHEMA source target note_type dirs sp tp = Ok merged /\
    dict_get name merged =
    match dict_get name source, dict_get name target with
    | Some s, Some t =>
        if String.eqb (md5 s) (md5 t) || very_similar ratio s t
        then Some t
        else Some (converted ts source name sp tp)
    | Some _, None => Some (converted ts source name sp tp)
    | None, Some t => Some t
    | None, None => None
    end.
Proof.
  intros Hts Hsync.
  destruct (@sync_sections_get source target note_type ts sp tp Hts)
    as [dirs [merged [Hdirs [Hrun Hget]]]].
  exists dirs, merged. split; [exact Hdirs|]. split; [exact Hrun|].
  rewrite Hget, section_direction_enabled by assumption.
  unfold dict_mem, merged_text, dict_get_default.
  destruct (dict_get name source) as [s|], (dict_get name target) as [t|];
    cbn [orb]; try reflexivity.
  destruct (String.eqb (md5 s) (md5 t)); [reflexivity|].
  now destruct (very_similar ratio s t).
Qed.

(** X8.  A section the schema does not let through survives the merge
    only when its entry is marked [obsidian_only] and the target has it.
    Any other such section is absent from the merged note, also when the
    target file had it: the write that follows removes it from the target. *)
Theorem merged_section_disabled source target note_type ts sp tp name :
  type_schema_for SCHEMA note_type = Ok ts ->
  sync_enabled ts name = false ->
  exists dirs merged,
    determine_sync_direction md5 ratio str_hash SCHEMA source target note_type
      = Ok dirs /\
    merge_sections SCHEMA source target note_type dirs sp tp = Ok merged /\
    dict_get name merged =
    if field (obsidian_only (dict_get_default name (sections_schema_of ts)
                               default_section_schema)) false
    then dict_get name target
    else None.
Proof.
  intros Hts Hsync.
  destruct (@sync_sections_get source target note_type ts sp tp Hts)
    as [dirs [merged [Hdirs [Hrun Hget]]]].
  exists dirs, merged. split; [exact Hdirs|]. split; [exact Hrun|].
  rewrite Hget. unfold section_direction.
  unfold sync_enabled in Hsync. rewrite Hsync. cbn [negb].
  unfold dict_mem.
  destruct (field (obsidian_only _) false).
  - cbn [merged_text].
    destruct (dict_get name source), (dict_get name target); reflexivity.
  - destruct (field (logseq_only _) false);
      [|destruct (field (quarto_only _) false)];
      cbn [merged_text];
      destruct (dict_get name source), (dict_get name target); reflexivity.
Qed.

End MergeFacts.

Lemma schema_must_define_note_witness :
  (exists dirs, determine_sync_direction sample_md5 sample_ratio sample_hash
                  sample_schema [("notes", "- a")] [] "note" = Ok dirs) /\
  determine_sync_direction sample_md5 sample_ratio sample_hash
    schema_without_note [("notes", "- a")] [] "person" = Raise KeyError /\
  convert_section_format schema_without_note "- a" "person" "notes"
    "logseq" "obsidian" = Raise KeyError.
Proof.
  destruct (@schema_must_define_note sample_md5 sample_ratio sample_hash
              sample_schema [("notes", "- a")] [] "note" "- a" "notes"
              "logseq" "obsidian") as [Hok _].
  destruct (@schema_must_define_note sample_md5 sample_ratio sample_hash
              schema_without_note [("notes", "- a")] [] "person" "- a" "notes"
              "logseq" "obsidian") as [_ Hraise].
  split; [exact (proj1 (Hok eq_refl))|exact (Hraise eq_refl)].
Defined.

Lemma resolver_sync_disabled_witness :
  exists dirs,
    determine_sync_direction sample_md5 sample_ratio sample_hash sample_schema
      [("private", "mine"); ("scratch", "x")] [("private", "theirs"); ("drafts", "d")]
      "note" = Ok dirs /\
    dict_get "private" dirs = Some target_only.
Proof.
  apply (@resolver_sync_disabled sample_md5 sample_ratio sample_hash
           sample_schema
           [("private", "mine"); ("scratch", "x")]
           [("private", "theirs"); ("drafts", "d")]
           "note" (mk_type_schema (Some sample_sections)) "private");
    [reflexivity|reflexivity|simpl; tauto].
Defined.

Lemma resolver_same_sections_witness :
  exists dirs,
    determine_sync_direction sample_md5 sample_ratio sample_hash sample_schema
      [("content", "intro"); ("notes", "- a")] [("content", "intro"); ("notes", "- a")]
      "note" = Ok dirs /\
    dict_get "notes" dirs = Some none.
Proof.
  apply (@resolver_same_sections sample_md5 sample_ratio sample_hash
           sample_schema [("content", "intro"); ("notes", "- a")] "note"
           (mk_type_schema (Some sample_sections)) "notes");
    [reflexivity|reflexivity|simpl; tauto].
Defined.

Lemma merged_section_enabled_witness :
  exists dirs merged,
    determine_sync_direction sample_md5 sample_ratio sample_hash sample_schema
      [("notes", "- alpha
- beta")] [("notes", "old text"); ("links", "see b")] "note" = Ok dirs /\
    merge_sections sample_schema
      [("notes", "- alpha
- beta")] [("notes", "old text"); ("links", "see b")] "note" dirs
      "logseq" "obsidian" = Ok merged /\
    dict_get "notes" merged = Some "alpha

beta".
Proof.
  apply (@merged_section_enabled sample_md5 sample_ratio sample_hash
           sample_schema
           [("notes", "- alpha
- beta")] [("notes", "old text"); ("links", "see b")] "note"
           (mk_type_schema (Some sample_sections)) "logseq" "obsidian" "notes");
    reflexivity.
Defined.

Lemma merged_section_disabled_witness :
  exists dirs merged,
    determine_sync_direction sample_md5 sample_ratio sample_hash sample_schema
      [("notes", "- a")] [("drafts", "half done"); ("private", "mine")] "note"
      = Ok dirs /\
    merge_sections sample_schema
      [("notes", "- a")] [("drafts", "half done"); ("private", "mine")] "note"
      dirs "logseq" "obsidian" = Ok merged /\
    dict_get "drafts" merged = None.
Proof.
  apply (@merged_section_disabled sample_md5 sample_ratio sample_hash
           sample_schema
           [("notes", "- a")] [("drafts", "half done"); ("private", "mine")]
           "note" (mk_type_schema (Some sample_sections))
           "logseq" "obsidian" "drafts");
    reflexivity.
Defined.

(** ** More on section extraction *)

Lemma runs_from_no_heading ls : forall name acc,
  Forall (fun l => Re.match_h2 l = false) ls ->
  runs_from name acc ls = [(name, acc ++ ls)].
Proof.
  induction ls as [|l ls IH]; intros name acc H; simpl.
  - now rewrite app_nil_r.
  - inversion H as [|? ? Hl Hls]; subst. rewrite Hl, (IH _ _ Hls), <- app_assoc.
    reflexivity.
Qed.

(** X9.  A body without any level-2 heading is one section, called
    ["content"], holding the whole body stripped; this includes the empty
    body, which gives ["content"] with an empty text. *)
Theorem extract_sections_no_heading body :
  Forall (fun l => Re.match_h2 l = false) (Py.lines body) ->
  extract_sections body = [("content", Py.strip body)].
Proof.
  intros H. rewrite extract_sections_runs. unfold runs.
  rewrite (runs_from_no_heading "content" [] H). cbn [app fold_left].
  unfold put_run, has_lines. cbn [fst snd].
  destruct (lines_head body) as [w [ws Hw]]. rewrite Hw.
  cbn [dict_set]. unfold section_text. rewrite <- Hw, unlines_lines. reflexivity.
Qed.

Lemma extract_sections_no_heading_witness :
  extract_sections "  plain text
# title of level one
 ##not a heading  " = [("content", "plain text
# title of level one
 ##not a heading")].
Proof.
  apply extract_sections_no_heading.
  vm_compute. repeat constructor.
Defined.

(** X10.  A name is a section of the result exactly when some run under
    that name gathered at least one line: a heading directly followed by
    another heading, or by the end of the body, adds no section. *)
Theorem extract_sections_present body name :
  In name (dict_keys (extract_sections body)) <->
  exists ls, In (name, ls) (runs body) /\ ls <> [].
Proof.
  rewrite <- dict_get_some_in, extract_sections_runs, put_runs_get.
  unfold last_run. cbn [dict_get].
  set (f := fun r : string * list string => String.eqb (fst r) name && has_lines r).
  split.
  - intros H. destruct (rev (filter f (runs body))) as [|r rs] eqn:E; [congruence|].
    assert (Hin : In r (filter f (runs body))).
    { apply in_rev. rewrite E. now left. }
    apply filter_In in Hin as [Hin Hf]. unfold f in Hf.
    apply andb_true_iff in Hf as [Hname Hlines].
    apply String.eqb_eq in Hname. destruct r as [n ls]. cbn in Hname. subst n.
    exists ls. split; [exact Hin|].
    unfold has_lines in Hlines. cbn in Hlines. now destruct ls.
  - intros [ls [Hin Hne]].
    assert (Hf : In (name, ls) (filter f (runs body))).
    { apply filter_In. split; [exact Hin|]. unfold f, has_lines. cbn.
      rewrite String.eqb_refl. now destruct ls. }
    apply in_rev in Hf.
    destruct (rev (filter f (runs body))); [destruct Hf|discriminate].
Qed.

Lemma to_lower_normal c :
  Py.to_lower (Py.to_lower c) = Py.to_lower c /\
  Ascii.eqb (Py.to_lower " "%char) " "%char = true.
Proof.
  split; [|reflexivity].
  destruct c as [[] [] [] [] [] [] [] []]; reflexivity.
Qed.

Lemma slug_char c :
  let d := if Ascii.eqb (Py.to_lower c) " "%char then "_"%char else Py.to_lower c in
  Py.to_lower d = d /\ Ascii.eqb d " "%char = false.
Proof.
  destruct c as [[] [] [] [] [] [] [] []]; split; reflexivity.
Qed.

Lemma slug_normal line :
  Py.lower (slug line) = slug line /\ Py.contains " "%char (slug line) = false.
Proof.
  unfold slug, Py.replace_char, Py.lower.
  induction (Re.sub_h2 line) as [|c s [IHl IHc]]; [split; reflexivity|].
  cbn [Py.smap Py.contains]. destruct (slug_char c) as [Hl Hc]. cbn zeta in Hl, Hc.
  split.
  - now rewrite Hl, IHl.
  - now rewrite Hc, IHc.
Qed.

Lemma put_runs_entries rs : forall d name text,
  In (name, text) (fold_left put_run rs d) ->
  In (name, text) d \/ exists ls, In (name, ls) rs /\ text = section_text ls.
Proof.
  induction rs as [|r rs IH]; intros d name text Hin; cbn [fold_left] in Hin.
  - now left.
  - apply IH in Hin as [Hin|[ls [Hin Ht]]].
    + unfold put_run in Hin. destruct (has_lines r); [|now left].
      assert (Hset : forall (d : dict string) k v,
                In (name, text) (dict_set k v d) ->
                In (name, text) d \/ (name = k /\ text = v)).
      { clear. induction d as [|[k' v'] d IHd]; intros k v H; simpl in H.
        - destruct H as [[= <- <-]|[]]. now right.
        - destruct (String.eqb k k') eqn:E.
          + apply String.eqb_eq in E; subst k'. destruct H as [[= <- <-]|H].
            * now right.
            * left. now right.
          + destruct H as [H|H]; [left; now left|].
            apply IHd in H as [H|H]; [left; now right|now right]. }
      apply Hset in Hin as [Hin|[-> ->]]; [now left|].
      right. exists (snd r). split; [|reflexivity]. left. now destruct r.
    + right. exists ls. split; [now right|exact Ht].
Qed.

(** X11.  Every stored text is stripped: it has no whitespace, hence no
    blank line, at either end.  Every name is ["content"] or the slug of a
    level-2 heading of the body, and holds neither a space nor an
    upper-case ASCII letter. *)
Theorem extract_sections_normal body name text :
  In (name, text) (extract_sections body) ->
  Py.strip text = text /\
  (name = "content" \/ In name (heading_slugs body)) /\
  Py.lower name = name /\
  Py.contains " "%char name = false.
Proof.
  intros Hin. rewrite extract_sections_runs in Hin.
  apply put_runs_entries in Hin as [[]|[ls [Hin ->]]].
  split; [apply section_text_strip|].
  assert (Hname : name = "content" \/ In name (heading_slugs body)).
  { assert (H : In name (map fst (runs body)))
      by (change name with (fst (name, ls)); now apply in_map).
    unfold runs in H. rewrite runs_from_names in H.
    destruct H as [H|H]; [left; now symmetry|right; exact H]. }
  split; [exact Hname|].
  destruct Hname as [->|Hslug]; [split; reflexivity|].
  unfold heading_slugs in Hslug. apply in_map_iff in Hslug as [l [<- _]].
  apply slug_normal.
Qed.

Lemma extract_sections_normal_witness :
  Py.strip "- alpha" = "- alpha" /\
  ("reading_list" = "content" \/
   In "reading_list" (heading_slugs "intro
##   Reading List
  - alpha  
")) /\
  Py.lower "reading_list" = "reading_list" /\
  Py.contains " "%char "reading_list" = false.
Proof.
  apply (@extract_sections_normal "intro
##   Reading List
  - alpha  
" "reading_list" "- alpha").
  vm_compute. tauto.
Defined.

(** ** More on frontmatter merging *)

Lemma dict_set_same_value {V : Type} k (v : V) d :
  dict_get k d = Some v -> dict_set k v d = d.
Proof.
  induction d as [|[k' v'] d IH]; simpl; [discriminate|].
  destruct (String.eqb k k') eqn:E.
  - intros [= ->]. reflexivity.
  - intros H. now rewrite IH.
Qed.

Lemma ensure_required_present today source note_type file_path required : forall merged,
  (forall k, In k required -> dict_mem k merged = true) ->
  fold_left (ensure_required today source note_type file_path) required merged
  = merged.
Proof.
  induction required as [|key required IH]; intros merged Hall; cbn [fold_left];
    [reflexivity|].
  unfold ensure_required at 2. rewrite (Hall key) by now left.
  apply IH. intros k Hk. apply Hall. now right.
Qed.

Lemma copy_source_settled required (merged : metadata) items : forall target,
  (forall k v, In (k, v) items ->
     mem_str k required && dict_mem k target = true \/ dict_get k merged = Some v) ->
  (forall k, dict_mem k target = dict_mem k merged) ->
  fold_left (copy_source_key required target) items merged = merged.
Proof.
  induction items as [|[k v] items IH]; intros target Hitems Hmem; cbn [fold_left];
    [reflexivity|].
  assert (Hstep : copy_source_key required target merged (k, v) = merged).
  { unfold copy_source_key. cbn [fst snd].
    destruct (Hitems k v (or_introl eq_refl)) as [H|H].
    - now rewrite H.
    - destruct (mem_str k required && dict_mem k target); [reflexivity|].
      now apply dict_set_same_value. }
  rewrite Hstep. apply IH; [|exact Hmem].
  intros k' v' Hin. apply Hitems. now right.
Qed.

(** X12.  Merging is idempotent: merging the same source again into the
    result of a merge gives that result back, key for key and in the same
    order, whatever the date and the file path of the second run. *)
Theorem merge_frontmatter_idempotent today today' source target platform
    file_path file_path' merged :
  NoDup (dict_keys source) ->
  merge_frontmatter today source target platform file_path = Ok merged ->
  merge_frontmatter today' source merged platform file_path' = Ok merged.
Proof.
  intros Hnd Hrun.
  destruct (detected_type source) as [note_type|e] eqn:Htype;
    [|unfold merge_frontmatter in Hrun; rewrite Htype in Hrun; discriminate].
  destruct (required_yaml platform) as [required|e] eqn:Hreq;
    [|unfold merge_frontmatter in Hrun; rewrite Htype, Hreq in Hrun; discriminate].
  destruct (@merge_frontmatter_get today source target platform file_path
              note_type required Hnd Htype Hreq) as [m [Hrun' Hget]].
  rewrite Hrun in Hrun'. injection Hrun' as <-.
  assert (Hall : forall k, In k required -> dict_mem k merged = true).
  { intros k Hin. unfold dict_mem. rewrite Hget.
    apply mem_str_in in Hin. rewrite Hin.
    destruct (dict_get k source), (dict_get k target); reflexivity. }
  unfold merge_frontmatter. rewrite Htype, Hreq. cbn [bind].
  rewrite (@copy_source_settled required merged source merged).
  - rewrite (ensure_required_present _ _ _ _ _ _ Hall).
    now rewrite (@quarto_categories_idle source platform required merged Hreq Hall).
  - intros k v Hin. apply (dict_get_nodup _ _ _ Hnd) in Hin.
    destruct (mem_str k required) eqn:Hm.
    + left. apply mem_str_in in Hm. now rewrite (Hall k Hm).
    + right. rewrite Hget, Hin, Hm. now destruct (dict_get k target).
  - reflexivity.
Qed.

Lemma merge_frontmatter_idempotent_witness :
  merge_frontmatter "2027-01-01"
    [("tags", VList [VStr "a"]); ("title", VStr "New"); ("author", VStr "me")]
    [("title", VStr "Old"); ("tags", VList [VStr "a"]); ("author", VStr "me");
     ("format", VStr "html"); ("date", VStr sample_today);
     ("categories", VList [VStr "a"])]
    "quarto" None =
  Ok [("title", VStr "Old"); ("tags", VList [VStr "a"]); ("author", VStr "me");
      ("format", VStr "html"); ("date", VStr sample_today);
      ("categories", VList [VStr "a"])].
Proof.
  apply (@merge_frontmatter_idempotent sample_today "2027-01-01"
           [("tags", VList [VStr "a"]); ("title", VStr "New"); ("author", VStr "me")]
           [("title", VStr "Old")] "quarto" (Some "quarto/posts/n.md") None).
  - repeat (constructor; [simpl; intuition discriminate|]). constructor.
  - reflexivity.
Defined.

(** ** More on format conversion *)

Lemma bullet_text_line l x : bullet_text l = Some x -> l = ("- " ++ x)%string /\ Py.lstrip x = x.
Proof.
  unfold bullet_text. destruct l as [|a [|b y]]; try discriminate.
  destruct (Ascii.eqb a Re.dash_char) eqn:Ea; [|discriminate].
  destruct (Ascii.eqb b " "%char) eqn:Eb; [|discriminate].
  destruct (String.eqb (Py.lstrip y) y) eqn:Ey; [|discriminate].
  cbn [andb]. intros [= ->].
  apply Ascii.eqb_eq in Ea, Eb. apply String.eqb_eq in Ey. subst. now split.
Qed.

Lemma unlines_map_lines (f : string -> string) text :
  (forall l, In l (Py.lines text) -> f l = l) ->
  Py.unlines (map f (Py.lines text)) = text.
Proof.
  intros H. rewrite (map_ext_in f (fun l => l) _ H), map_id. apply unlines_lines.
Qed.

(** X13.  On a flat list of bullets (every line is [- text], the text
    following the marker directly) going to blockquotes and back returns
    the text unchanged. *)
Theorem bullets_blockquotes_round_trip text :
  Forall (fun l => is_bullet l = true) (Py.lines text) ->
  convert_format (convert_format text "bullets" "blockquotes")
    "blockquotes" "bullets" = text.
Proof.
  intros H.
  change (convert_format (convert_format text "bullets" "blockquotes")
            "blockquotes" "bullets")
    with (Py.unlines (map (fun line => ("- " ++ Re.sub_quote line)%string)
            (Py.lines (Py.unlines
               (map (fun line => ("> " ++ Re.sub_bullet line)%string)
                  (Py.lines text)))))).
  rewrite (lines_unlines_map (fun line => ("> " ++ Re.sub_bullet line)%string))
    by (intros l Hl; now apply contains_sub_bullet).
  rewrite map_map. apply unlines_map_lines.
  intros l Hin. rewrite Forall_forall in H. specialize (H l Hin).
  unfold is_bullet in H. destruct (bullet_text l) as [x|] eqn:Hx; [|discriminate].
  apply bullet_text_line in Hx as [-> Hstrip].
  change (Re.sub_bullet ("- " ++ x)) with (Py.lstrip x). rewrite Hstrip.
  change (Re.sub_quote ("> " ++ x)) with (Py.lstrip x). now rewrite Hstrip.
Qed.

Lemma bullets_blockquotes_round_trip_witness :
  convert_format (convert_format "- alpha
- beta  
- ```" "bullets" "blockquotes") "blockquotes" "bullets" = "- alpha
- beta  
- ```".
Proof.
  apply bullets_blockquotes_round_trip. vm_compute. repeat constructor.
Defined.

Lemma is_item_line l :
  is_item l = true ->
  exists x, l = ("- " ++ x)%string /\ Py.lstrip x = x /\ Py.strip x = x /\
            x <> EmptyString /\ Re.match_heading x = false.
Proof.
  unfold is_item. destruct (bullet_text l) as [x|] eqn:Hx; [|discriminate].
  apply bullet_text_line in Hx as [-> Hl]. intros H.
  apply andb_true_iff in H as [H Hh]. apply andb_true_iff in H as [Hne Hs].
  exists x. apply String.eqb_eq in Hs. apply negb_true_iff in Hh.
  repeat split; try assumption. now destruct x.
Qed.

Lemma b2p_step_item st x :
  in_code_block st = false -> Py.lstrip x = x -> x <> EmptyString ->
  b2p_step st ("- " ++ x) = mk_b2p_state (flush_paragraph st) x false.
Proof.
  intros Hcode Hx Hne.
  change ("- " ++ x)%string with (String "-" (String " " x)).
  unfold b2p_step.
  assert (Hstrip : exists r, Py.strip (String "-" (String " " x)) = String "-" r).
  { unfold Py.strip.
    change (Py.lstrip (String "-" (String " " x))) with (String "-" (String " " x)).
    apply rstrip_head. reflexivity. }
  destruct Hstrip as [r Hr].
  unfold is_blank, is_fence. rewrite Hr, Hcode.
  change (Re.sub_bullet (String "-" (String " " x))) with (Py.lstrip x).
  cbn [Py.nonempty negb Py.startswith fence Ascii.eqb Bool.eqb andb orb].
  now rewrite Hx.
Qed.

Lemma b2p_fold_items ls : forall st,
  in_code_block st = false ->
  Forall (fun l => is_item l = true) ls ->
  flush_paragraph (fold_left b2p_step ls st) =
  flush_paragraph st ++ map drop_marker ls.
Proof.
  induction ls as [|l ls IH]; intros st Hcode H; cbn [fold_left map].
  - now rewrite app_nil_r.
  - inversion H as [|? ? Hl Hls]; subst.
    destruct (is_item_line l Hl) as [x [-> [Hx [_ [Hne _]]]]].
    rewrite (b2p_step_item st Hcode Hx Hne), IH by (try reflexivity; assumption).
    unfold flush_paragraph at 1. cbn [current_paragraph paragraphs].
    destruct x; [contradiction|]. cbn [Py.nonempty drop_marker append].
    now rewrite <- app_assoc.
Qed.

Lemma b2p_paragraphs_items text :
  Forall (fun l => is_item l = true) (Py.lines text) ->
  b2p_paragraphs text = map drop_marker (Py.lines text).
Proof.
  intros H. unfold b2p_paragraphs. now rewrite (b2p_fold_items b2p_init eq_refl H).
Qed.

(** X14.  On a flat list of items (every line is [- text] with a text
    that is not empty, has no outer whitespace and is not a heading) the
    conversion to paragraphs makes each item a paragraph of its own: the
    texts, without their markers, joined by blank lines. *)
Theorem flat_bullets_to_paragraphs text :
  Forall (fun l => is_item l = true) (Py.lines text) ->
  convert_format text "bullets" "paragraphs" =
  Py.join blank_line (map drop_marker (Py.lines text)).
Proof.
  intros H.
  change (convert_format text "bullets" "paragraphs")
    with (Py.join blank_line (b2p_paragraphs text)).
  now rewrite (b2p_paragraphs_items text H).
Qed.

Lemma flat_bullets_to_paragraphs_witness :
  convert_format "- alpha
- beta" "bullets" "paragraphs" = "alpha

beta".
Proof.
  apply (flat_bullets_to_paragraphs "- alpha
- beta"). vm_compute. repeat constructor.
Defined.

Lemma append_empty_r s : (s ++ "")%string = s.
Proof. induction s as [|c s IH]; simpl; [reflexivity|now rewrite IH]. Qed.

Lemma append_assoc a b c : ((a ++ b) ++ c)%string = (a ++ (b ++ c))%string.
Proof. induction a as [|d a IH]; simpl; [reflexivity|now rewrite IH]. Qed.

(** The scanner of [re.split] runs through a piece without a newline. *)
Lemma split_blank_piece x : forall cur s,
  no_newline x ->
  Re.split_blank_from cur Re.Plain (x ++ s) =
  Re.split_blank_from (cur ++ x) Re.Plain s.
Proof.
  induction x as [|c x IH]; intros cur s Hx.
  - now rewrite append_empty_r.
  - unfold no_newline in Hx. cbn [Py.contains] in Hx.
    apply orb_false_iff in Hx as [Hc Hx].
    cbn [append Re.split_blank_from]. rewrite Hc, (IH (cur ++ String c "")%string s Hx), append_assoc.
    reflexivity.
Qed.

Lemma split_blank_gap cur c s :
  Py.is_space c = false ->
  Re.split_blank_from cur Re.Plain
    (String Py.newline (String Py.newline (String c s))) =
  cur :: Re.split_blank_from "" Re.Plain (String c s).
Proof.
  intros Hc. cbn [Re.split_blank_from]. rewrite !Ascii.eqb_refl.
  now rewrite (not_space_not_newline c Hc), Hc.
Qed.

(** Pieces joined by blank lines are split back into the same pieces. *)
Lemma split_blank_join xs : forall cur x,
  Forall (fun y => no_newline y /\ y <> EmptyString /\ Py.lstrip y = y) (x :: xs) ->
  Re.split_blank_from cur Re.Plain (Py.join blank_line (x :: xs)) =
  (cur ++ x)%string :: xs.
Proof.
  induction xs as [|y ys IH]; intros cur x H.
  - inversion H as [|? ? [Hx _] _]; subst. cbn [Py.join].
    rewrite <- (append_empty_r x) at 1. now rewrite split_blank_piece.
  - inversion H as [|? ? [Hx _] Hrest]; subst.
    change (Py.join blank_line (x :: y :: ys))
      with (x ++ String Py.newline (String Py.newline (Py.join blank_line (y :: ys))))%string.
    rewrite (@split_blank_piece x cur _ Hx).
    assert (Hy : exists c r, Py.join blank_line (y :: ys) = String c r /\
                             Py.is_space c = false).
    { inversion Hrest as [|? ? [_ [Hne Hl]] _]; subst.
      destruct y as [|c y']; [contradiction|].
      assert (Hc : Py.is_space c = false).
      { cbn [Py.lstrip] in Hl. destruct (Py.is_space c) eqn:E; [|reflexivity].
        exfalso. pose proof (lstrip_head y') as Hh. rewrite Hl in Hh.
        cbn in Hh. congruence. }
      destruct ys; cbn [Py.join append]; eexists; eexists; split;
        try reflexivity; exact Hc. }
    destruct Hy as [c [r [Hj Hc]]]. rewrite Hj, (@split_blank_gap (cur ++ x) c r Hc), <- Hj.
    now rewrite (IH "" y Hrest).
Qed.

Lemma p2b_paragraph_item x :
  no_newline x -> Py.strip x = x -> Re.match_heading x = false ->
  p2b_paragraph x = [("- " ++ x)%string].
Proof.
  intros Hnl Hs Hh. unfold p2b_paragraph.
  now rewrite Hs, (lines_of_line Hnl), Hh.
Qed.

(** X15.  On a flat list of items, bullets to paragraphs and back to
    bullets returns the text unchanged. *)
Theorem flat_bullets_round_trip text :
  Forall (fun l => is_item l = true) (Py.lines text) ->
  convert_format (convert_format text "bullets" "paragraphs")
    "paragraphs" "bullets" = text.
Proof.
  intros H.
  change (convert_format (convert_format text "bullets" "paragraphs")
            "paragraphs" "bullets")
    with (Py.unlines (flat_map p2b_paragraph
            (Re.split_blank (Py.join blank_line (b2p_paragraphs text))))).
  rewrite (b2p_paragraphs_items text H).
  assert (Hitems : forall l, In l (Py.lines text) ->
            exists x, l = ("- " ++ x)%string /\ drop_marker l = x /\
                      no_newline x /\ x <> EmptyString /\ Py.lstrip x = x /\
                      Py.strip x = x /\ Re.match_heading x = false).
  { intros l Hin. rewrite Forall_forall in H.
    destruct (is_item_line l (H l Hin)) as [x [-> [Hl [Hs [Hne Hh]]]]].
    exists x. repeat split; try assumption.
    pose proof (lines_no_newline text) as Hnl. rewrite Forall_forall in Hnl.
    specialize (Hnl _ Hin). unfold no_newline in *. cbn in Hnl. exact Hnl. }
  destruct (lines_head text) as [w [ws Hw]].
  assert (Hsplit : Re.split_blank (Py.join blank_line (map drop_marker (Py.lines text)))
                   = map drop_marker (Py.lines text)).
  { rewrite Hw. cbn [map]. unfold Re.split_blank.
    rewrite split_blank_join; [reflexivity|].
    change (drop_marker w :: map drop_marker ws) with (map drop_marker (w :: ws)).
    rewrite <- Hw. apply Forall_map, Forall_forall. intros l Hin.
    destruct (Hitems l Hin) as [x [_ [-> [Hnl [Hne [Hl _]]]]]]. auto. }
  rewrite Hsplit.
  assert (Hflat : flat_map p2b_paragraph (map drop_marker (Py.lines text))
                  = Py.lines text).
  { clear Hsplit Hw H. revert Hitems. generalize (Py.lines text).
    induction l as [|l ls IH]; intros Hitems; [reflexivity|].
    cbn [map flat_map].
    destruct (Hitems l (or_introl eq_refl)) as [x [Hlx [-> [Hnl [_ [_ [Hs Hh]]]]]]].
    rewrite (@p2b_paragraph_item x Hnl Hs Hh). cbn [app].
    rewrite <- Hlx. f_equal. apply IH.
    intros l' Hin. apply Hitems. now right. }
  rewrite Hflat. apply unlines_lines.
Qed.

Lemma flat_bullets_round_trip_witness :
  convert_format (convert_format "- alpha
- beta and more
- 3rd" "bullets" "paragraphs") "paragraphs" "bullets" = "- alpha
- beta and more
- 3rd".
Proof.
  apply flat_bullets_round_trip. vm_compute. repeat constructor.
Defined.

(** ** Target paths *)

Lemma split_append_sep sep a b :
  Py.split sep (a ++ String sep b)%string = Py.split sep a ++ Py.split sep b.
Proof.
  induction a as [|c a IH]; cbn [append].
  - now rewrite split_leading_sep.
  - cbn [Py.split]. rewrite IH. destruct (Ascii.eqb c sep); [reflexivity|].
    pose proof (split_not_nil sep a) as Hne.
    destruct (Py.split sep a); [contradiction|reflexivity].
Qed.

Lemma basename_no_slash p : Py.contains "/"%char (Os.basename p) = false.
Proof.
  unfold Os.basename. pose proof (split_pieces "/"%char p) as H.
  induction H as [|w ws Hw _ IH]; [reflexivity|].
  destruct ws; [exact Hw|exact IH].
Qed.

Lemma basename_of_path dir name :
  Py.contains "/"%char name = false ->
  Os.basename (dir ++ "/" ++ name) = name.
Proof.
  intros H. unfold Os.basename.
  change (dir ++ "/" ++ name)%string with (dir ++ String "/" name)%string.
  rewrite split_append_sep, (split_whole _ _ H). apply last_last.
Qed.

Lemma startswith_slash b :
  Py.contains "/"%char b = false -> Py.startswith "/" b = false.
Proof.
  destruct b as [|c b]; [reflexivity|]. cbn [Py.contains Py.startswith].
  intros H. apply orb_false_iff in H as [Hc _].
  rewrite Ascii.eqb_sym. now rewrite Hc.
Qed.

Lemma substring_prefix a b : substring 0 (String.length a) (a ++ b) = a.
Proof. induction a as [|c a IH]; cbn; [now destruct b|now rewrite IH]. Qed.

Lemma endswith_append a suffix : Os.endswith suffix (a ++ suffix) = true.
Proof.
  unfold Os.endswith. rewrite append_length.
  replace (String.length a + String.length suffix - String.length suffix)
    with (String.length a) by lia.
  rewrite substring_skip, substring_whole, String.eqb_refl.
  apply andb_true_iff. split; [apply Nat.leb_le; lia|reflexivity].
Qed.

Lemma drop_last_append a suffix :
  Os.drop_last (String.length suffix) (a ++ suffix) = a.
Proof.
  unfold Os.drop_last. rewrite append_length.
  replace (String.length a + String.length suffix - String.length suffix)
    with (String.length a) by lia.
  apply substring_prefix.
Qed.

Lemma contains_no_slash_append a b :
  Py.contains "/"%char a = false -> Py.contains "/"%char b = false ->
  Py.contains "/"%char (a ++ b) = false.
Proof. intros Ha Hb. now rewrite contains_append, Ha, Hb. Qed.

Lemma folder_of_tags_range tags folder :
  folder_of_tags tags = Ok folder -> In folder (dict_values folders).
Proof.
  induction tags as [|tag tags IH]; cbn [folder_of_tags].
  - intros [= <-]. simpl. tauto.
  - destruct tag; try discriminate.
    destruct (dict_get (Py.lower s) folders) as [f|] eqn:E; [|exact IH].
    intros [= <-]. apply dict_get_in in E.
    change f with (snd (Py.lower s, f)). now apply in_map.
Qed.

(** X16.  For Obsidian the folder is always one of the six of the
    table.  A note without a [type] goes to [Notes] without its tags being
    looked at: the stand-in type ["default"] is itself a key of the table,
    so the tags decide only for a note whose [type] is set and unknown. *)
Theorem get_target_folder_range meta :
  (forall folder, get_target_folder meta "obsidian" = Ok folder ->
     In folder ["People"; "Books"; "Articles"; "Places"; "Organizations"; "Notes"]) /\
  (dict_get "type" meta = None -> get_target_folder meta "obsidian" = Ok "Notes").
Proof.
  split.
  - intros folder. unfold get_target_folder. cbn [String.eqb Ascii.eqb Bool.eqb negb].
    destruct (dict_get_default "type" meta (VStr "default")); try discriminate.
    destruct (dict_get (Py.lower s) folders) as [f|] eqn:E.
    + intros [= <-]. apply dict_get_in in E.
      change f with (snd (Py.lower s, f)).
      change ["People"; "Books"; "Articles"; "Places"; "Organizations"; "Notes"]
        with (map snd folders). now apply in_map.
    + destruct (dict_get_default "tags" meta (VList [])); try discriminate;
        apply folder_of_tags_range.
  - intros H. unfold get_target_folder, dict_get_default. now rewrite H.
Qed.

Lemma get_target_folder_range_witness :
  get_target_folder [("tags", VList [VStr "Person"]); ("title", VStr "Ada")]
    "obsidian" = Ok "Notes".
Proof.
  apply (proj2 (get_target_folder_range
                  [("tags", VList [VStr "Person"]); ("title", VStr "Ada")])).
  reflexivity.
Defined.

Section TargetPathFacts.

Variable relpath : string -> string -> result string.

(** X17.  From a Quarto source directory to Logseq, a file [stem.qmd]
    in any subfolder lands flat in [logseq/pages] as [stem.md]. *)
Theorem quarto_file_to_logseq dir stem source_dir meta :
  quarto_source source_dir = true ->
  Py.contains "/"%char stem = false ->
  create_target_path relpath (dir ++ "/" ++ stem ++ ".qmd") source_dir "logseq" meta
  = Ok ("logseq/pages/" ++ stem ++ ".md")%string.
Proof.
  intros Hq Hstem. unfold create_target_path. rewrite Hq.
  cbn [String.eqb Ascii.eqb Bool.eqb].
  rewrite basename_of_path by (now apply contains_no_slash_append).
  unfold qmd_to_md. rewrite endswith_append.
  change (Os.drop_last 4 (stem ++ ".qmd"))
    with (Os.drop_last (String.length ".qmd") (stem ++ ".qmd")).
  rewrite (drop_last_append stem ".qmd").
  unfold Os.join. rewrite startswith_slash
    by (now apply contains_no_slash_append).
  reflexivity.
Qed.

(** X18.  When the source directory is of the Quarto or of the Obsidian
    family, the folder of the source file plays no part in the target: two
    files of the same name in different folders get the same target, so
    the second one written replaces the first. *)
Theorem target_path_flattens dir1 dir2 name source_dir platform meta :
  quarto_source source_dir = true \/ obsidian_source source_dir = true ->
  Py.contains "/"%char name = false ->
  create_target_path relpath (dir1 ++ "/" ++ name) source_dir platform meta =
  create_target_path relpath (dir2 ++ "/" ++ name) source_dir platform meta.
Proof.
  intros Hfamily Hname. unfold create_target_path, fallback_path.
  rewrite (@basename_of_path dir1 name Hname), (@basename_of_path dir2 name Hname).
  destruct (quarto_source source_dir); [reflexivity|].
  destruct Hfamily as [H|H]; [discriminate|]. now rewrite H.
Qed.

(** X19.  A platform without an entry in the configuration ends in an
    exception, except ["content"] from a source directory of the Quarto or
    of the Obsidian family.  From a source directory of these two families
    the exception is [KeyError].  From any other source directory, where
    ["content"] has no branch either, the relative path is computed first:
    the exception is the one [os.path.relpath] raises ([ValueError] on an
    empty file path), and [KeyError] when it answers. *)
Theorem target_path_unknown_platform file_path source_dir platform meta :
  target_dir platform = Raise KeyError ->
  platform <> "content"
  \/ (quarto_source source_dir = false /\ obsidian_source source_dir = false) ->
  create_target_path relpath file_path source_dir platform meta =
  if quarto_source source_dir || obsidian_source source_dir
  then Raise KeyError
  else match relpath file_path source_dir with
       | Ok _ => Raise KeyError
       | Raise e => Raise e
       end.
Proof.
  intros Hdir Hcase. unfold create_target_path, fallback_path.
  assert (Hl : String.eqb platform "logseq" = false).
  { destruct (String.eqb platform "logseq") eqn:E; [|reflexivity].
    apply String.eqb_eq in E; subst; discriminate. }
  assert (Ho : String.eqb platform "obsidian" = false).
  { destruct (String.eqb platform "obsidian") eqn:E; [|reflexivity].
    apply String.eqb_eq in E; subst; discriminate. }
  assert (Hq : String.eqb platform "quarto" = false).
  { destruct (String.eqb platform "quarto") eqn:E; [|reflexivity].
    apply String.eqb_eq in E; subst; discriminate. }
  rewrite Hl, Ho, Hq, Hdir. cbn [bind].
  destruct Hcase as [Hne|[Hqs Hos]].
  - apply String.eqb_neq in Hne. rewrite Hne.
    destruct (quarto_source source_dir), (obsidian_source source_dir);
      reflexivity.
  - rewrite Hqs, Hos. reflexivity.
Qed.

(** X20.  From an Obsidian source directory to Quarto, a note whose
    [interactive] value is true in Python's sense (any non-empty string
    counts, also ["false"]) goes to [quarto/visualizations] with [.md]
    rewritten to [.qmd]; its tags are not looked at. *)
Theorem interactive_note_to_visualizations file_path source_dir meta v :
  quarto_source source_dir = false ->
  obsidian_source source_dir = true ->
  dict_get "interactive" meta = Some v ->
  truthy v = true ->
  create_target_path relpath file_path source_dir "quarto" meta =
  Ok ("quarto/visualizations/" ++ md_to_qmd (Os.basename file_path))%string.
Proof.
  intros Hq Ho Hv Ht. unfold create_target_path. rewrite Hq, Ho.
  cbn [String.eqb Ascii.eqb Bool.eqb].
  unfold quarto_path, is_interactive, dict_get_default. rewrite Hv, Ht.
  cbn [bind]. unfold Os.join.
  assert (Hbase : Py.contains "/"%char (md_to_qmd (Os.basename file_path)) = false).
  { unfold md_to_qmd. pose proof (basename_no_slash file_path) as Hb.
    destruct (Os.endswith ".md" (Os.basename file_path)); [|exact Hb].
    apply contains_no_slash_append; [|reflexivity].
    unfold Os.drop_last.
    revert Hb. generalize (String.length (Os.basename file_path) - 3).
    generalize (Os.basename file_path). clear.
    induction s as [|c s IH]; intros n H; destruct n; try reflexivity.
    cbn [Py.contains] in H. apply orb_false_iff in H as [Hc Hs].
    cbn [substring Py.contains]. now rewrite Hc, (IH n Hs). }
  now rewrite (startswith_slash _ Hbase).
Qed.

End TargetPathFacts.

Lemma quarto_file_to_logseq_witness :
  create_target_path sample_relpath "quarto/posts/2024/foo.qmd" "quarto/posts"
    "logseq" [] = Ok "logseq/pages/foo.md".
Proof.
  apply (@quarto_file_to_logseq sample_relpath "quarto/posts/2024" "foo"
           "quarto/posts" []); reflexivity.
Defined.

Lemma target_path_flattens_witness :
  create_target_path sample_relpath "obsidian/People/ada.md" "obsidian" "logseq" []
  = create_target_path sample_relpath "obsidian/Books/ada.md" "obsidian" "logseq" [].
Proof.
  exact (@target_path_flattens sample_relpath "obsidian/People" "obsidian/Books"
           "ada.md" "obsidian" "logseq" [] (or_intror eq_refl) eq_refl).
Defined.

Lemma target_path_unknown_platform_witness :
  create_target_path sample_relpath "content/pages/a.md" "content/pages"
    "content" [] = Raise KeyError /\
  create_target_path sample_relpath "" "content/pages" "content" []
  = Raise ValueError /\
  create_target_path sample_relpath "obsidian/Notes/a.md" "obsidian" "hugo" []
  = Raise KeyError.
Proof.
  split; [|split].
  - exact (@target_path_unknown_platform sample_relpath "content/pages/a.md"
             "content/pages" "content" [] eq_refl
             (or_intror (conj eq_refl eq_refl))).
  - exact (@target_path_unknown_platform sample_relpath "" "content/pages"
             "content" [] eq_refl (or_intror (conj eq_refl eq_refl))).
  - apply (@target_path_unknown_platform sample_relpath "obsidian/Notes/a.md"
             "obsidian" "hugo" [] eq_refl).
    left. discriminate.
Defined.

Lemma interactive_note_to_visualizations_witness :
  create_target_path sample_relpath "obsidian/Notes/plot.md" "obsidian" "quarto"
    [("interactive", VStr "false"); ("tags", VInt 3)]
  = Ok "quarto/visualizations/plot.qmd".
Proof.
  apply (@interactive_note_to_visualizations sample_relpath
           "obsidian/Notes/plot.md" "obsidian"
           [("interactive", VStr "false"); ("tags", VInt 3)] (VStr "false"));
    reflexivity.
Defined.

(** ** Logseq property blocks *)

Lemma span_key_all k :
  snd (span_key k) = EmptyString ->
  fst (span_key k) = k /\ no_newline k /\
  forall r, match r with
            | EmptyString => True
            | String c _ => is_key_char c = false
            end -> span_key (k ++ r) = (k, r).
Proof.
  induction k as [|c k IH]; cbn [span_key append].
  - intros _. split; [reflexivity|]. split; [reflexivity|].
    intros [|d r] Hr; [reflexivity|]. cbn [span_key]. now rewrite Hr.
  - destruct (is_key_char c) eqn:Hc; [|discriminate].
    destruct (span_key k) as [k' rest] eqn:Hk. cbn [fst snd] in *.
    intros Hrest. destruct (IH Hrest) as [Hfst [Hnl Happ]]. subst k'.
    split; [reflexivity|]. split.
    + unfold no_newline in *. cbn [Py.contains]. rewrite Hnl.
      destruct (Ascii.eqb c Py.newline) eqn:E; [|reflexivity].
      apply Ascii.eqb_eq in E; subst. discriminate Hc.
    + intros r Hr. now rewrite (Happ r Hr).
Qed.

Lemma property_line_written k v :
  valid_key k = true -> property_line (k ++ ":: " ++ v) = Some (k, v).
Proof.
  unfold valid_key. intros H. apply andb_true_iff in H as [Hne Hrest].
  apply negb_true_iff in Hrest.
  assert (Hs : snd (span_key k) = EmptyString)
    by (destruct (snd (span_key k)); [reflexivity|discriminate]).
  destruct (span_key_all k Hs) as [_ [_ Happ]].
  unfold property_line. rewrite (Happ (":: " ++ v)%string) by reflexivity.
  destruct k; [discriminate|]. reflexivity.
Qed.

Lemma concat_empty_cons x xs :
  String.concat "" (x :: xs) = (x ++ String.concat "" xs)%string.
Proof.
  destruct xs; cbn [String.concat]; [now rewrite append_empty_r|reflexivity].
Qed.

(** A text without carriage returns is read as it was written. *)
Lemma read_text_plain s :
  Py.contains carriage_return s = false -> read_text s = s.
Proof.
  induction s as [|c s IH]; intros H; [reflexivity|].
  cbn [Py.contains] in H. apply orb_false_iff in H as [Hc Hs].
  cbn [read_text]. rewrite Hc. now rewrite (IH Hs).
Qed.

Section LogseqFile.

Variable frontmatter_loads : string -> result (metadata * string).
Variable py_str : value -> string.
Variable yaml_dump : metadata -> string.

Lemma written_lines meta : forall tail,
  Forall (fun item => valid_key (fst item) = true /\ no_newline (py_str (snd item)))
    meta ->
  Py.lines (String.concat "" (map (property_text py_str) meta) ++ tail)%string =
  map (written_property py_str) meta ++ Py.lines tail.
Proof.
  induction meta as [|item meta IH]; intros tail H; [reflexivity|].
  inversion H as [|? ? [Hk Hv] Hrest]; subst.
  cbn [map]. rewrite concat_empty_cons. unfold property_text at 1.
  rewrite !append_assoc. cbn [append].
  change (fst item ++ ":: " ++ py_str (snd item) ++
          String Py.newline (String.concat "" (map (property_text py_str) meta) ++ tail))%string
    with (fst item ++ String ":" (String ":" (String " " (py_str (snd item) ++
          String Py.newline (String.concat "" (map (property_text py_str) meta) ++ tail)))))%string.
  assert (Hline : (fst item ++ String ":" (String ":" (String " " (py_str (snd item) ++
            String Py.newline (String.concat "" (map (property_text py_str) meta) ++ tail)))))%string
          = (written_property py_str item ++ String Py.newline
               (String.concat "" (map (property_text py_str) meta) ++ tail))%string).
  { unfold written_property. rewrite !append_assoc. reflexivity. }
  rewrite Hline, lines_append, (IH tail Hrest).
  assert (Hone : no_newline (written_property py_str item)).
  { unfold written_property, valid_key in *. apply andb_true_iff in Hk as [_ Hk].
    apply negb_true_iff in Hk.
    assert (Hs : snd (span_key (fst item)) = EmptyString)
      by (destruct (snd (span_key (fst item))); [reflexivity|discriminate]).
    destruct (span_key_all _ Hs) as [_ [Hnl _]].
    unfold no_newline in *. rewrite !contains_append, Hnl, Hv. reflexivity. }
  now rewrite (lines_of_line Hone).
Qed.

Lemma collect_written meta : forall props,
  Forall (fun item => valid_key (fst item) = true /\ no_newline (py_str (snd item)))
    meta ->
  NoDup (dict_keys props ++ dict_keys meta) ->
  fold_left collect_property (map (written_property py_str) meta) props =
  props ++ map (fun item => (fst item, VStr (py_str (snd item)))) meta.
Proof.
  induction meta as [|item meta IH]; intros props H Hnd; cbn [map fold_left].
  - now rewrite app_nil_r.
  - inversion H as [|? ? [Hk _] Hrest]; subst.
    unfold collect_property at 2. unfold written_property at 2.
    rewrite (property_line_written _ _ Hk), dict_set_new.
    + rewrite IH; [now rewrite <- app_assoc|exact Hrest|].
      unfold dict_keys in *. rewrite map_app. cbn [map fst].
      rewrite <- app_assoc. exact Hnd.
    + cbn [dict_keys map] in Hnd. apply NoDup_remove_2 in Hnd.
      intro Hin. apply Hnd. apply in_or_app. now left.
Qed.

Lemma collect_plain ls : forall props,
  Forall (fun l => property_line l = None) ls ->
  fold_left collect_property ls props = props.
Proof.
  induction ls as [|l ls IH]; intros props H; cbn [fold_left]; [reflexivity|].
  inversion H as [|? ? Hl Hls]; subst.
  unfold collect_property at 2. rewrite Hl. now apply IH.
Qed.

Lemma blank_plain ls :
  Forall (fun l => property_line l = None) ls -> map blank_property ls = ls.
Proof.
  induction 1 as [|l ls Hl _ IH]; [reflexivity|].
  cbn [map]. unfold blank_property at 1. now rewrite Hl, IH.
Qed.

Lemma strip_blank_lines n ls :
  ls <> [] ->
  Py.strip (Py.unlines (repeat EmptyString n ++ ls)) = Py.strip (Py.unlines ls).
Proof.
  intros Hne. induction n as [|n IH]; [reflexivity|].
  cbn [repeat app].
  destruct (repeat EmptyString n ++ ls) as [|l rest] eqn:E.
  - destruct n; cbn in E; [contradiction|discriminate].
  - rewrite unlines_cons. rewrite <- IH. reflexivity.
Qed.

Lemma blank_written meta :
  Forall (fun item => valid_key (fst item) = true /\ no_newline (py_str (snd item)))
    meta ->
  map blank_property (map (written_property py_str) meta) = repeat EmptyString (List.length meta).
Proof.
  induction 1 as [|item meta [Hk _] _ IH]; [reflexivity|].
  cbn [map List.length repeat]. unfold blank_property at 1. unfold written_property at 1.
  now rewrite (property_line_written _ _ Hk), IH.
Qed.

(** X21.  A note written in the Logseq encoding reads back as it was
    written: the same keys in the same order, each value as the string it
    was formatted to, and the body stripped.  This holds when the keys are
    distinct and made of letters, digits, [_] and [-], no formatted value
    holds a newline, no line of the body has itself the form
    [key:: value], the written file holds no carriage return (reading
    would turn it into a line end), and the file does not start with three
    dashes. *)
Theorem logseq_write_then_parse meta content :
  Forall (fun item => valid_key (fst item) = true /\ no_newline (py_str (snd item)))
    meta ->
  NoDup (dict_keys meta) ->
  Forall (fun l => property_line l = None) (Py.lines content) ->
  Py.contains carriage_return (write_logseq py_str meta content) = false ->
  Py.startswith "---" (write_logseq py_str meta content) = false ->
  parse_frontmatter frontmatter_loads
    (Some (read_text (write_note py_str yaml_dump "logseq" meta content))) =
  (map (fun item => (fst item, VStr (py_str (snd item)))) meta, Py.strip content).
Proof.
  intros Hmeta Hnd Hbody Hplain Hstart.
  change (write_note py_str yaml_dump "logseq" meta content)
    with (write_logseq py_str meta content).
  rewrite (read_text_plain _ Hplain).
  unfold parse_frontmatter. rewrite Hstart. cbn [negb].
  unfold parse_logseq, write_logseq.
  rewrite (written_lines _ Hmeta).
  assert (Htail : exists blanks,
            Py.lines ((match meta with [] => "" | _ :: _ => String Py.newline "" end)
                      ++ content)%string = repeat EmptyString blanks ++ Py.lines content).
  { destruct meta; [now exists 0|]. exists 1.
    cbn [append repeat app]. now rewrite lines_cons, Ascii.eqb_refl. }
  destruct Htail as [blanks Htail]. rewrite Htail.
  rewrite fold_left_app, (collect_written [] Hmeta Hnd). cbn [app].
  rewrite fold_left_app.
  assert (Hblank : Forall (fun l => property_line l = None)
                     (repeat EmptyString blanks)).
  { apply Forall_forall. intros l Hl. apply repeat_spec in Hl. now subst. }
  rewrite (collect_plain _ Hblank), (collect_plain _ Hbody).
  f_equal.
  rewrite !map_app, (blank_written Hmeta), (blank_plain Hblank), (blank_plain Hbody).
  rewrite app_assoc, <- repeat_app.
  destruct (lines_head content) as [w [ws Hw]].
  rewrite strip_blank_lines by (rewrite Hw; discriminate).
  now rewrite unlines_lines.
Qed.

End LogseqFile.

Lemma logseq_write_then_parse_witness :
  parse_frontmatter (fun _ => Raise ValueError)
    (Some (read_text
             (write_note (fun v => match v with VStr s => s | _ => "?" end)
                (fun _ => "") "logseq"
                [("title", VStr "My Note"); ("type", VStr "note")]
                "## Notes

- alpha
")))
  = ([("title", VStr "My Note"); ("type", VStr "note")], "## Notes

- alpha").
Proof.
  apply (@logseq_write_then_parse (fun _ => Raise ValueError)
           (fun v => match v with VStr s => s | _ => "?" end) (fun _ => "")
           [("title", VStr "My Note"); ("type", VStr "note")] "## Notes

- alpha
").
  - repeat constructor.
  - repeat (constructor; [simpl; intuition discriminate|]). constructor.
  - vm_compute. repeat constructor.
  - reflexivity.
  - reflexivity.
Defined.

(** ** YAML frontmatter files *)

Lemma strip_prefix_append p s : strip_prefix p (p ++ s) = Some s.
Proof.
  induction p as [|c p IH]; cbn [strip_prefix append]; [now destruct s|].
  now rewrite Ascii.eqb_refl.
Qed.

Lemma no_dashes_tail c d :
  no_dashes_after_first (String c d) -> no_dashes_after_first d.
Proof.
  unfold no_dashes_after_first. rewrite lines_cons.
  destruct (lines_head d) as [w [ws Hw]]. rewrite Hw.
  destruct (Ascii.eqb c Py.newline); cbn [tl]; intros H; [now inversion H|exact H].
Qed.

Lemma closing_line_not_inside d rest :
  d <> EmptyString -> no_dashes_after_first d ->
  strip_prefix closing_line (d ++ closing_line ++ rest) = None.
Proof.
  intros Hne Hd. destruct d as [|c d]; [contradiction|].
  unfold closing_line, dashes_line. cbn [append strip_prefix].
  destruct (Ascii.eqb Py.newline c) eqn:Ec; [|reflexivity].
  apply Ascii.eqb_eq in Ec; subst c.
  unfold no_dashes_after_first in Hd. rewrite lines_cons, Ascii.eqb_refl in Hd.
  cbn [tl] in Hd.
  destruct d as [|a [|b [|c [|e d]]]]; try reflexivity;
    cbn [append strip_prefix];
    repeat match goal with
           | |- context [Ascii.eqb ?x ?y] =>
               destruct (Ascii.eqb x y) eqn:?; try reflexivity
           end;
    repeat match goal with
           | H : Ascii.eqb _ _ = true |- _ => apply Ascii.eqb_eq in H; subst
           end;
    try discriminate.
  - inversion Hd as [|? ? Hhead _]. now contradiction Hhead.
  - exfalso. rewrite !lines_cons in Hd. cbn in Hd.
    inversion Hd as [|? ? Hhead _]. now contradiction Hhead.
Qed.

Lemma cut_at_closing_line d : forall rest,
  no_dashes_after_first d ->
  cut_at closing_line (d ++ closing_line ++ rest) = Some (d, rest).
Proof.
  induction d as [|c d IH]; intros rest Hd.
  - cbn [append]. unfold cut_at.
    destruct (closing_line ++ rest)%string eqn:E; [discriminate|].
    rewrite <- E, strip_prefix_append. reflexivity.
  - assert (Hno : strip_prefix closing_line (String c d ++ closing_line ++ rest) = None)
      by (apply closing_line_not_inside; [discriminate|exact Hd]).
    cbn [append] in *. cbn [cut_at]. rewrite Hno.
    now rewrite (IH rest (no_dashes_tail Hd)).
Qed.

Lemma strip_prefix_sound p : forall s r,
  strip_prefix p s = Some r -> s = (p ++ r)%string.
Proof.
  induction p as [|a p IH]; intros s r H; cbn [strip_prefix] in H.
  - injection H as <-. reflexivity.
  - destruct s as [|b s]; [discriminate|].
    destruct (Ascii.eqb a b) eqn:E; [|discriminate].
    apply Ascii.eqb_eq in E; subst b. cbn [append]. now rewrite (IH s r H).
Qed.

Lemma cut_at_sound marker s : forall before rest,
  cut_at marker s = Some (before, rest) ->
  s = (before ++ marker ++ rest)%string.
Proof.
  induction s as [|c s IH]; intros before rest H.
  - cbn [cut_at] in H. destruct (strip_prefix marker "") as [r|] eqn:E; [|discriminate].
    injection H as <- <-. exact (strip_prefix_sound _ _ E).
  - cbn [cut_at] in H.
    destruct (strip_prefix marker (String c s)) as [r|] eqn:E.
    + injection H as <- <-. exact (strip_prefix_sound _ _ E).
    + destruct (cut_at marker s) as [[b r]|] eqn:Ec; [|discriminate].
      injection H as <- <-. cbn [append]. now rewrite (IH b r eq_refl).
Qed.

Section YamlFileProperties.

Variable document : Type.
Variable safe_load : string -> result document.
Variable empty_dict : document.
Variable dump : metadata -> string.

(** X22.  Reading back a file written by [write_file]: when the dumped
    frontmatter ends in a newline, none of its lines after the first is
    three dashes, it loads, and the written file holds no carriage return
    (reading would turn it into a line end), [read_file] returns the loaded
    frontmatter and the written content with one more newline in front of
    it.  A file that is read and written again so gains a blank line at the
    top of its body each time. *)
Theorem yaml_write_then_read frontmatter content yaml_text loaded :
  dump frontmatter = (yaml_text ++ String Py.newline "")%string ->
  no_dashes_after_first yaml_text ->
  safe_load yaml_text = Ok loaded ->
  Py.contains carriage_return (write_file dump frontmatter content) = false ->
  read_file safe_load empty_dict
    (read_text (write_file dump frontmatter content)) =
    (loaded, String Py.newline content).
Proof.
  intros Hdump Hlines Hload Hplain. rewrite (read_text_plain _ Hplain).
  unfold read_file, write_file.
  rewrite strip_prefix_append, Hdump.
  replace ((yaml_text ++ String Py.newline "") ++ dashes_line
             ++ String Py.newline content)%string
    with (yaml_text ++ closing_line ++ String Py.newline content)%string.
  - now rewrite (cut_at_closing_line (String Py.newline content) Hlines), Hload.
  - unfold closing_line. rewrite append_assoc. reflexivity.
Qed.

(** X23.  [read_file] loses no text: either it reports no frontmatter and
    returns the whole content, or the content is the opening dashes, a YAML
    text that loads to the returned frontmatter, the closing dashes and the
    returned rest. *)
Theorem read_file_keeps_text content :
  read_file safe_load empty_dict content = (empty_dict, content) \/
  exists yaml_text,
    content = (dashes_line ++ yaml_text ++ closing_line
               ++ snd (read_file safe_load empty_dict content))%string /\
    safe_load yaml_text = Ok (fst (read_file safe_load empty_dict content)).
Proof.
  unfold read_file.
  destruct (strip_prefix dashes_line content) as [after|] eqn:Eo; [|now left].
  destruct (cut_at closing_line after) as [[yaml_text rest]|] eqn:Ec; [|now left].
  destruct (safe_load yaml_text) as [loaded|e] eqn:El; [|now left].
  right. exists yaml_text. cbn [fst snd]. split; [|exact El].
  rewrite (strip_prefix_sound _ _ Eo). now rewrite (cut_at_sound _ _ Ec).
Qed.

End YamlFileProperties.

Lemma yaml_write_then_read_witness :
  read_file (fun text => Ok (Py.lines text)) []
    (read_text
       (write_file (fun _ => "title: Fungi
tags: soil
") [("title", VStr "Fungi"); ("tags", VStr "soil")] "Body text"))
  = (["title: Fungi"; "tags: soil"], "
Body text").
Proof.
  apply (@yaml_write_then_read (list string) (fun text => Ok (Py.lines text)) []
           (fun _ => "title: Fungi
tags: soil
") [("title", VStr "Fungi"); ("tags", VStr "soil")] "Body text" "title: Fungi
tags: soil" ["title: Fungi"; "tags: soil"]).
  - reflexivity.
  - unfold no_dashes_after_first. cbn. repeat constructor. discriminate.
  - reflexivity.
  - reflexivity.
Defined.

(** ** Reconstruction followed by extraction *)

Lemma runs_from_app ls : forall name acc rest,
  Forall (fun l => Re.match_h2 l = false) ls ->
  runs_from name acc (ls ++ rest) = runs_from name (acc ++ ls) rest.
Proof.
  induction ls as [|l ls IH]; intros name acc rest H; cbn [app].
  - now rewrite app_nil_r.
  - inversion H as [|? ? Hl Hls]; subst. cbn [runs_from]. rewrite Hl.
    rewrite (IH _ _ _ Hls), <- app_assoc. reflexivity.
Qed.

Lemma lines_render_heading n t :
  no_newline (heading_name n) ->
  Py.lines (render_heading n t) =
  ("## " ++ heading_name n)%string :: EmptyString :: Py.lines t.
Proof.
  intros Hn.
  change (render_heading n t)
    with (("## " ++ heading_name n) ++ String Py.newline (String Py.newline t))%string.
  rewrite lines_append, lines_cons, Ascii.eqb_refl.
  rewrite lines_of_line; [reflexivity|].
  unfold no_newline in *. cbn. exact Hn.
Qed.

Lemma lines_join_cons x y rest :
  Py.lines (Py.join blank_line (x :: y :: rest)) =
  Py.lines x ++ EmptyString :: Py.lines (Py.join blank_line (y :: rest)).
Proof.
  change (Py.join blank_line (x :: y :: rest))
    with (x ++ String Py.newline (String Py.newline (Py.join blank_line (y :: rest))))%string.
  now rewrite lines_append, lines_cons, Ascii.eqb_refl.
Qed.

Lemma lstrip_append_newline x :
  Py.lstrip (x ++ String Py.newline "") =
  match Py.lstrip x with
  | EmptyString => EmptyString
  | y => (y ++ String Py.newline "")%string
  end.
Proof.
  induction x as [|c x IH]; [reflexivity|].
  cbn [append Py.lstrip]. destruct (Py.is_space c); [exact IH|reflexivity].
Qed.

Lemma rstrip_append_newline x :
  Py.rstrip (x ++ String Py.newline "") = Py.rstrip x.
Proof.
  induction x as [|c x IH]; [reflexivity|].
  cbn [append Py.rstrip]. now rewrite IH.
Qed.

Lemma strip_append_newline x :
  Py.strip (x ++ String Py.newline "") = Py.strip x.
Proof.
  unfold Py.strip. rewrite lstrip_append_newline.
  destruct (Py.lstrip x) as [|c y]; [reflexivity|].
  apply rstrip_append_newline.
Qed.

Lemma unlines_append_blank ls :
  ls <> [] ->
  Py.unlines (ls ++ [EmptyString]) = (Py.unlines ls ++ String Py.newline "")%string.
Proof.
  induction ls as [|l ls IH]; intros Hne; [contradiction|].
  destruct ls as [|l' ls].
  - reflexivity.
  - cbn [app] in *. rewrite !unlines_cons, IH by discriminate.
    now rewrite append_assoc.
Qed.

Lemma section_text_padded t (pad : bool) :
  section_text (EmptyString :: Py.lines t ++ if pad then [EmptyString] else []) =
  Py.strip t.
Proof.
  unfold section_text.
  destruct (lines_head t) as [w [ws Hw]].
  assert (Hne : Py.lines t <> []) by (rewrite Hw; discriminate).
  destruct pad.
  - pose proof (unlines_append_blank Hne) as Hu. rewrite Hw in *.
    cbn [app] in *. rewrite unlines_cons, Hu, <- Hw, unlines_lines.
    change (Py.strip ("" ++ String Py.newline (t ++ String Py.newline "")))
      with (Py.strip (t ++ String Py.newline "")).
    apply strip_append_newline.
  - rewrite app_nil_r, Hw, unlines_cons, <- Hw, unlines_lines. reflexivity.
Qed.

Lemma match_h2_heading x : Re.match_h2 ("## " ++ x) = true.
Proof. reflexivity. Qed.

Lemma runs_from_heading name acc x rest :
  runs_from name acc (("## " ++ x)%string :: rest) =
  (name, acc) :: runs_from (slug ("## " ++ x)) [] rest.
Proof. reflexivity. Qed.

Lemma headed_lines_runs hs :
  hs <> [] -> Forall stable_section hs ->
  forall name acc,
    runs_from name acc
      (Py.lines (Py.join blank_line
                   (map (fun kv => render_heading (fst kv) (snd kv)) hs))) =
    (name, acc) :: headed_runs hs.
Proof.
  induction hs as [|[n t] hs IH]; intros Hne Hst name acc; [contradiction|].
  inversion Hst as [|? ? [[Hc [Hnl Hslug]] [[Hstrip Hplain] Htext]] Hrest]; subst.
  cbn [fst snd] in *.
  assert (Hpad : forall pad : list string,
             Forall (fun l => Re.match_h2 l = false) pad ->
             Forall (fun l => Re.match_h2 l = false) (EmptyString :: Py.lines t ++ pad)).
  { intros pad Hp. constructor; [reflexivity|]. apply Forall_app. now split. }
  destruct hs as [|h hs].
  - cbn [map Py.join fst snd]. rewrite (@lines_render_heading n t Hnl).
    rewrite runs_from_heading, Hslug.
    specialize (Hpad [] (Forall_nil _)). rewrite app_nil_r in Hpad.
    rewrite (runs_from_no_heading _ _ Hpad). cbn [headed_runs app].
    now rewrite app_nil_r.
  - cbn [map fst snd]. rewrite lines_join_cons, (@lines_render_heading n t Hnl).
    cbn [app]. rewrite runs_from_heading, Hslug.
    change (EmptyString :: Py.lines t ++
            EmptyString :: Py.lines (Py.join blank_line
              (render_heading (fst h) (snd h)
               :: map (fun kv => render_heading (fst kv) (snd kv)) hs)))
      with (EmptyString :: (Py.lines t ++
            EmptyString :: Py.lines (Py.join blank_line
              (map (fun kv => render_heading (fst kv) (snd kv)) (h :: hs))))).
    replace (EmptyString :: (Py.lines t ++
            EmptyString :: Py.lines (Py.join blank_line
              (map (fun kv => render_heading (fst kv) (snd kv)) (h :: hs)))))
      with ((EmptyString :: Py.lines t ++ [EmptyString]) ++
            Py.lines (Py.join blank_line
              (map (fun kv => render_heading (fst kv) (snd kv)) (h :: hs))))
      by (cbn [app]; now rewrite <- app_assoc).
    rewrite runs_from_app
      by (apply Hpad; constructor; [reflexivity|constructor]).
    rewrite IH by (discriminate || assumption). reflexivity.
Qed.

Lemma headed_runs_entries hs :
  Forall stable_section hs ->
  filter has_lines (headed_runs hs) = headed_runs hs /\
  map fst (headed_runs hs) = dict_keys hs /\
  map run_entry (headed_runs hs) = hs.
Proof.
  induction hs as [|[n t] hs IH]; intros Hst; [repeat split|].
  inversion Hst as [|? ? [_ [[Hstrip _] _]] Hrest]; subst.
  destruct (IH Hrest) as [Hf [Hk He]]. cbn [fst snd] in *.
  cbn [headed_runs filter map has_lines snd fst dict_keys].
  unfold dict_keys in Hk. rewrite Hf, Hk, He. repeat split.
  unfold run_entry. cbn [fst snd]. f_equal. f_equal.
  destruct hs as [|h hs].
  - rewrite (section_text_padded t false). exact Hstrip.
  - rewrite (section_text_padded t true). exact Hstrip.
Qed.

Lemma headed_sections_rendered hs :
  Forall stable_section hs ->
  dict_get "content" hs = None /\
  filter (fun kv => negb (String.eqb (fst kv) "content")
                    && Py.nonempty (Py.strip (snd kv))) hs = hs.
Proof.
  induction hs as [|[n t] hs IH]; intros Hst; [split; reflexivity|].
  inversion Hst as [|? ? [[Hc _] [[Hstrip _] Htext]] Hrest]; subst.
  destruct (IH Hrest) as [Hg Hf]. cbn [fst snd] in *.
  assert (En : String.eqb n "content" = false) by now apply String.eqb_neq.
  split.
  - cbn [dict_get]. rewrite String.eqb_sym, En. exact Hg.
  - cbn [filter fst snd]. rewrite En, Hstrip, Hf.
    destruct t; [contradiction|reflexivity].
Qed.

(** X24.  Extraction undoes reconstruction.  For sections whose lead (the
    ["content"] entry), if there is one, comes first, whose names are
    distinct and led back to by their own rebuilt headings, and whose texts
    are stripped, hold no level-2 heading line and are not empty under a
    heading: extracting the sections of the reconstructed text gives the
    same sections, in the same order.  Without a lead there must be at
    least one section. *)
Theorem reconstruct_then_extract lead headed :
  NoDup (dict_keys headed) ->
  Forall stable_section headed ->
  match lead with
  | Some c => plain_text c
  | None => headed <> []
  end ->
  extract_sections (reconstruct_content (with_lead lead headed)) =
  with_lead lead headed.
Proof.
  intros Hnd Hst Hlead.
  destruct (headed_sections_rendered Hst) as [Hget Hfilter].
  destruct (headed_runs_entries Hst) as [Hhas [Hkeys Hentries]].
  assert (Hnocontent : ~ In "content" (dict_keys headed)).
  { intros Hin. apply in_map_iff in Hin as [[n t] [Hn Hin]].
    rewrite Forall_forall in Hst. destruct (Hst _ Hin) as [[Hc _] _].
    now apply Hc. }
  rewrite extract_sections_runs. unfold runs.
  destruct lead as [c|]; cbn [with_lead].
  - destruct Hlead as [Hstrip Hplain].
    assert (Hrec : reconstruct_content (("content", c) :: headed) =
                   Py.join blank_line
                     (c :: map (fun kv => render_heading (fst kv) (snd kv)) headed)).
    { unfold reconstruct_content.
      change (dict_get "content" (("content", c) :: headed)) with (Some c).
      change (filter _ (("content", c) :: headed))
        with (filter (fun kv => negb (String.eqb (fst kv) "content")
                                && Py.nonempty (Py.strip (snd kv))) headed).
      now rewrite Hfilter. }
    rewrite Hrec. destruct headed as [|h hs].
    + cbn [map Py.join]. rewrite (runs_from_no_heading _ _ Hplain).
      cbn [app fold_left]. unfold put_run.
      destruct (lines_head c) as [w [ws Hw]].
      assert (Hl : has_lines ("content", Py.lines c) = true)
        by (unfold has_lines; cbn [snd]; now rewrite Hw).
      rewrite Hl. cbn [fst snd dict_set]. unfold section_text.
      now rewrite unlines_lines, Hstrip.
    + change (map (fun kv => render_heading (fst kv) (snd kv)) (h :: hs))
        with (render_heading (fst h) (snd h)
              :: map (fun kv => render_heading (fst kv) (snd kv)) hs).
      rewrite lines_join_cons.
      change (Py.lines c ++ EmptyString ::
              Py.lines (Py.join blank_line
                (render_heading (fst h) (snd h)
                 :: map (fun kv => render_heading (fst kv) (snd kv)) hs)))
        with (Py.lines c ++ [EmptyString] ++
              Py.lines (Py.join blank_line
                (map (fun kv => render_heading (fst kv) (snd kv)) (h :: hs)))).
      rewrite app_assoc, runs_from_app
        by (apply Forall_app; split; [exact Hplain|constructor; [reflexivity|constructor]]).
      rewrite headed_lines_runs by (discriminate || assumption).
      destruct (lines_head c) as [w [ws Hw]].
      rewrite put_runs_distinct.
      * cbn [app filter]. 
        assert (Hl : has_lines ("content", Py.lines c ++ [EmptyString]) = true)
          by (unfold has_lines; cbn [snd]; now rewrite Hw).
        rewrite Hl, Hhas. cbn [map]. rewrite Hentries.
        unfold run_entry. cbn [fst snd app]. f_equal. f_equal.
        unfold section_text.
        rewrite unlines_append_blank by (rewrite Hw; discriminate).
        now rewrite unlines_lines, strip_append_newline.
      * cbn [app filter dict_keys map].
        assert (Hl : has_lines ("content", Py.lines c ++ [EmptyString]) = true)
          by (unfold has_lines; cbn [snd]; now rewrite Hw).
        rewrite Hl, Hhas. cbn [map fst]. rewrite Hkeys.
        constructor; assumption.
  - assert (Hrec : reconstruct_content headed =
                   Py.join blank_line
                     (map (fun kv => render_heading (fst kv) (snd kv)) headed)).
    { unfold reconstruct_content. now rewrite Hget, Hfilter. }
    rewrite Hrec, headed_lines_runs by assumption.
    rewrite put_runs_distinct.
    + cbn [app filter has_lines snd]. now rewrite Hhas, Hentries.
    + cbn [app filter has_lines snd dict_keys map]. now rewrite Hhas, Hkeys.
Qed.

Lemma reconstruct_then_extract_witness :
  extract_sections
    (reconstruct_content
       [("content", "intro"); ("reading_list", "- alpha
- beta"); ("notes", "first")]) =
  [("content", "intro"); ("reading_list", "- alpha
- beta"); ("notes", "first")].
Proof.
  apply (@reconstruct_then_extract (Some "intro")
           [("reading_list", "- alpha
- beta"); ("notes", "first")]).
  - repeat constructor; cbn; intuition discriminate.
  - repeat constructor; try reflexivity; discriminate.
  - split; [reflexivity|repeat constructor].
Defined.
